(** * MCP quickstart weather sample: client orchestrator and weather tools

    A shallow embedding of [src/client/main.py] (class [MCPClient] and
    [main]) and of [src/server/main.py] (the two weather tools), with the
    properties of the specification proved about it.

    Python values coming from JSON are a small inductive type, exceptions
    are an explicit [outcome], and every call that leaves the program (HTTP
    request, MCP session, completion service, terminal) is an operation on
    an abstract world supplied as a section variable. *)

From Stdlib Require Import SpecFloat Ascii String.
From stdpp Require Import base numbers list strings.

Open Scope string_scope.
Open Scope list_scope.
Set Warnings "-register-all".

(* ================================================================== *)
(** ** Python runtime: exceptions, outcomes, JSON-derived values *)
(* ================================================================== *)

Module Py.

(** The exception classes the two programs can meet.  [External] stands
    for any [Exception] subclass raised by a library (httpx, mcp,
    anthropic); the last three derive from [BaseException] only. *)
Inductive exn : Type :=
| KeyError
| TypeError
| AttributeError
| IndexError
| ValidationError
| EOFError
| ValueError (msg : string)
| External (name : string)
| KeyboardInterrupt
| CancelledError
| SystemExit (code : Z).

(** [isinstance(e, Exception)]: what [except Exception] catches. *)
Definition is_Exception (e : exn) : bool :=
  match e with
  | KeyboardInterrupt | CancelledError | SystemExit _ => false
  | _ => true
  end.

Inductive outcome (A : Type) : Type :=
| Returned (a : A)
| Raised (e : exn).
Arguments Returned {A} a.
Arguments Raised {A} e.

Definition is_returned {A} (o : outcome A) : bool :=
  match o with Returned _ => true | Raised _ => false end.

Definition outcome_map {A B} (f : A -> B) (o : outcome A) : outcome B :=
  match o with Returned a => Returned (f a) | Raised e => Raised e end.

(** Apply [f] to the elements in order, stopping at the first exception. *)
Fixpoint traverse {A B} (f : A -> outcome B) (l : list A) : outcome (list B) :=
  match l with
  | [] => Returned []
  | a :: l' =>
      match f a with
      | Raised e => Raised e
      | Returned b => outcome_map (cons b) (traverse f l')
      end
  end.

(** A computation that may raise and that acts on a state [S]; the state
    reached when an exception is raised is kept, as mutations done before
    a [raise] stay visible in Python. *)
Definition M (S A : Type) : Type := S -> outcome A * S.

Definition ret {S A} (a : A) : M S A := fun s => (Returned a, s).
Definition raise {S A} (e : exn) : M S A := fun s => (Raised e, s).
Definition bind {S A B} (m : M S A) (k : A -> M S B) : M S B :=
  fun s => match m s with
           | (Returned a, s') => k a s'
           | (Raised e, s') => (Raised e, s')
           end.
Definition lift {S A} (o : outcome A) : M S A := fun s => (o, s).

(** [try: m  except Exception: h] *)
Definition try_except_Exception {S A} (m : M S A) (h : exn -> M S A) : M S A :=
  fun s => match m s with
           | (Returned a, s') => (Returned a, s')
           | (Raised e, s') => if is_Exception e then h e s' else (Raised e, s')
           end.

(** [try: m  finally: f]: [f] runs on both ways out; an exception of [f]
    replaces the pending one. *)
Definition try_finally {S A} (m : M S A) (f : M S unit) : M S A :=
  fun s => match m s with
           | (r, s') => match f s' with
                        | (Returned _, s'') => (r, s'')
                        | (Raised e, s'') => (Raised e, s'')
                        end
           end.

Fixpoint mapM {S A B} (f : A -> M S B) (l : list A) : M S (list B) :=
  match l with
  | [] => ret []
  | a :: l' => bind (f a) (fun b => bind (mapM f l') (fun bs => ret (b :: bs)))
  end.

(** Values produced by [response.json()] (and tool arguments, schemas and
    results on the client side).  A [JObj] lists the items of a [dict];
    the first binding of a key is the one the dict holds. *)
Inductive json : Type :=
| JNull
| JBool (b : bool)
| JInt (z : Z)
| JFloat (f : spec_float)
| JStr (s : string)
| JArr (l : list json)
| JObj (kv : list (string * json)).

(** Truth value, as tested by [not x]. *)
Definition truthy (v : json) : bool :=
  match v with
  | JNull => false
  | JBool b => b
  | JInt z => negb (z =? 0)%Z
  | JFloat (S754_zero _) => false
  | JFloat _ => true
  | JStr s => negb (String.eqb s EmptyString)
  | JArr l => match l with [] => false | _ => true end
  | JObj kv => match kv with [] => false | _ => true end
  end.

Fixpoint assoc (k : string) (kv : list (string * json)) : option json :=
  match kv with
  | [] => None
  | (k', v) :: kv' => if String.eqb k k' then Some v else assoc k kv'
  end.

(** [v[key]] with a string key. *)
Definition subscript (v : json) (key : string) : outcome json :=
  match v with
  | JObj kv => match assoc key kv with
               | Some x => Returned x
               | None => Raised KeyError
               end
  | _ => Raised TypeError
  end.

(** [d.get(key, default)]; only a dict has the method. *)
Definition dict_get (v : json) (key : string) (default : json) : outcome json :=
  match v with
  | JObj kv => Returned (match assoc key kv with Some x => x | None => default end)
  | _ => Raised AttributeError
  end.

Definition is_str (k : string) (v : json) : bool :=
  match v with JStr s => String.eqb s k | _ => false end.

(** [key in v] with a string key: dict keys, list elements, substring of a
    string; numbers, booleans and [None] are not iterable. *)
Definition contains (key : string) (v : json) : outcome bool :=
  match v with
  | JObj kv => Returned (match assoc key kv with Some _ => true | None => false end)
  | JArr l => Returned (existsb (is_str key) l)
  | JStr s => Returned (match String.index 0 key s with Some _ => true | None => false end)
  | _ => Raised TypeError
  end.

Fixpoint chars (s : string) : list json :=
  match s with
  | EmptyString => []
  | String c s' => JStr (String c EmptyString) :: chars s'
  end.

(** The elements visited by [for x in v]. *)
Definition iterate (v : json) : outcome (list json) :=
  match v with
  | JArr l => Returned l
  | JObj kv => Returned (map (fun p => JStr (fst p)) kv)
  | JStr s => Returned (chars s)
  | _ => Raised TypeError
  end.

(** [v[:n]]: lists and strings can be sliced, nothing else. *)
Definition slice_to (n : nat) (v : json) : outcome json :=
  match v with
  | JArr l => Returned (JArr (firstn n l))
  | JStr s => Returned (JStr (String.substring 0 n s))
  | _ => Raised TypeError
  end.

(** [s.endswith(suffix)] *)
Definition endswith (s suffix : string) : bool :=
  let n := String.length s in
  let m := String.length suffix in
  if (m <=? n)%nat then String.eqb (String.substring (n - m) m s) suffix else false.

(** [sep.join(l)] *)
Definition join (sep : string) (l : list string) : string := String.concat sep l.

(** A [str] is held as the bytes of its UTF-8 encoding.

    [s.lower()], on the ASCII letters.  No character outside ASCII lowers
    to one of the letters of ["quit"], the one string [lower] is compared
    with, so the comparison of line 158 is the one Python makes. *)
Definition lower_char (c : ascii) : ascii :=
  let n := Ascii.nat_of_ascii c in
  if (65 <=? n)%nat && (n <=? 90)%nat then Ascii.ascii_of_nat (n + 32) else c.

Fixpoint lower (s : string) : string :=
  match s with
  | EmptyString => EmptyString
  | String c s' => String (lower_char c) (lower s')
  end.

(** [s.strip()] removes the characters of [str.isspace]: U+0009-U+000D,
    U+001C-U+0020, U+0085, U+00A0, U+1680, U+2000-U+200A, U+2028, U+2029,
    U+202F, U+205F and U+3000.  [is_space] is the test for the ones of one
    byte, [is_space2] and [is_space3] for the encodings of two and three
    bytes. *)
Definition is_space (c : ascii) : bool :=
  let n := Ascii.nat_of_ascii c in
  ((9 <=? n)%nat && (n <=? 13)%nat) || ((28 <=? n)%nat && (n <=? 32)%nat).

Definition is_space2 (c1 c2 : ascii) : bool :=
  let n1 := Ascii.nat_of_ascii c1 in
  let n2 := Ascii.nat_of_ascii c2 in
  (n1 =? 194)%nat && ((n2 =? 133)%nat || (n2 =? 160)%nat).

Definition is_space3 (c1 c2 c3 : ascii) : bool :=
  let n1 := Ascii.nat_of_ascii c1 in
  let n2 := Ascii.nat_of_ascii c2 in
  let n3 := Ascii.nat_of_ascii c3 in
  ((n1 =? 225)%nat && (n2 =? 154)%nat && (n3 =? 128)%nat)
  || ((n1 =? 226)%nat && (n2 =? 128)%nat
      && (((128 <=? n3)%nat && (n3 <=? 138)%nat)
          || (n3 =? 168)%nat || (n3 =? 169)%nat || (n3 =? 175)%nat))
  || ((n1 =? 226)%nat && (n2 =? 129)%nat && (n3 =? 159)%nat)
  || ((n1 =? 227)%nat && (n2 =? 128)%nat && (n3 =? 128)%nat).

Fixpoint lstrip (s : string) : string :=
  match s with
  | EmptyString => EmptyString
  | String c1 s1 =>
      if is_space c1 then lstrip s1
      else
        match s1 with
        | EmptyString => s
        | String c2 s2 =>
            if is_space2 c1 c2 then lstrip s2
            else
              match s2 with
              | EmptyString => s
              | String c3 s3 => if is_space3 c1 c2 c3 then lstrip s3 else s
              end
        end
  end.

(** From the right: a byte goes when everything from it on is blank. *)
Fixpoint rstrip (s : string) : string :=
  match s with
  | EmptyString => EmptyString
  | String c s' =>
      match lstrip s with
      | EmptyString => EmptyString
      | _ => String c (rstrip s')
      end
  end.

Definition strip (s : string) : string := rstrip (lstrip s).

End Py.

Import Py.

Declare Scope py_scope.
Delimit Scope py_scope with py.
Notation "'let*' x := m 'in' k" := (bind m (fun x => k))
  (at level 10, x name, m at level 100, k at level 200) : py_scope.
Notation "'run' m 'then' k" := (bind m (fun _ => k))
  (at level 10, m at level 100, k at level 200) : py_scope.
Open Scope py_scope.

(* ================================================================== *)
(** ** The weather tool provider, [src/server/main.py] *)
(* ================================================================== *)

Module Server.

Definition WEATHER_API_BASE : string := "https://api.weather.gov".
Definition USER_AGENT : string := "weather-app/1.0".

(** What [client.get] hands back: the status line and what
    [response.json()] does with the body (it raises on a body that is not
    JSON). *)
Record http_response : Type := {
  status_code : Z;
  json_body : outcome json
}.

(** httpx: [raise_for_status] raises [HTTPStatusError] unless the status
    is 2xx. *)
Definition is_success (code : Z) : bool := (200 <=? code)%Z && (code <=? 299)%Z.

Definition HEADERS : list (string * string) :=
  [("User-Agent", USER_AGENT); ("Accept", "application/geo+json")].

(** The ways a request can fail inside the [try] block of
    [make_nws_request]: [client.get] raises (network failure, timeout), the
    status is not a success, or the body is not JSON. *)
Definition fetch_failed (r : outcome http_response) : bool :=
  match r with
  | Raised e => is_Exception e
  | Returned response =>
      negb (is_success (status_code response))
      || match json_body response with
         | Raised e => is_Exception e
         | Returned _ => false
         end
  end.

(** The sentinels of the two tools. *)
Definition ALERTS_UNAVAILABLE : string :=
  "アラートを取得できない、またはアラートが見つからない".
Definition NO_ACTIVE_ALERTS : string :=
  "この状態に対するアクティブなアラートはありません".
Definition POINTS_UNAVAILABLE : string :=
  "この場所の予報データを取得できません".
Definition FORECAST_UNAVAILABLE : string :=
  "詳細な予測を取得できない".

(** The separator of the sections of both reports. *)
Definition SEPARATOR : string := "
---
".

Section Tools.

(** Python's [str()] on a value, as used by f-strings. *)
Variable py_str : json -> string.

(** The network: [client.get(url, headers=..., timeout=...)] against some
    state of the outside world. *)
Variable World : Type.
Variable client_get :
  string -> list (string * string) -> Z -> World -> outcome http_response * World.

(** [make_nws_request(url)], lines 15-30.  [validate_call] rejects a [url]
    that is not a [str]; every [Exception] of the three calls in the [try]
    block becomes [None]. *)
Definition make_nws_request (url : json) : M World json :=
  match url with
  | JStr u =>
      try_except_Exception
        (let* response := client_get u HEADERS 30 in
         run (if is_success (status_code response) then ret tt
              else raise (External "HTTPStatusError")) then
         lift (json_body response))
        (fun _ => ret JNull)
  | _ => raise ValidationError
  end.

(** [format_alert(feature)], lines 33-45.  [validate_call] rejects a
    [feature] that is not a dict; the five [props.get] need [props] to be a
    dict as well. *)
Definition format_alert (feature : json) : outcome string :=
  match feature with
  | JObj _ =>
      match subscript feature "properties" with
      | Raised e => Raised e
      | Returned props =>
          match dict_get props "event" (JStr "Unknown"),
                dict_get props "areaDesc" (JStr "Unknown"),
                dict_get props "severity" (JStr "Unknown"),
                dict_get props "description" (JStr "No description available"),
                dict_get props "instruction" (JStr "No specific instructions provided")
          with
          | Returned ev, Returned ar, Returned sv, Returned ds, Returned ins =>
              Returned ("
Event: " +:+ py_str ev +:+ "
Area: " +:+ py_str ar +:+ "
Severity: " +:+ py_str sv +:+ "
Description: " +:+ py_str ds +:+ "
Instructions: " +:+ py_str ins +:+ "
")
          | _, _, _, _, _ => Raised AttributeError
          end
      end
  | _ => Raised ValidationError
  end.

Definition alerts_url (state : string) : string :=
  WEATHER_API_BASE +:+ "/alerts/active/area/" +:+ state.

(** [get_alerts(state)], lines 50-70. *)
Definition get_alerts (state : string) : M World string :=
  let* response_data := make_nws_request (JStr (alerts_url state)) in
  let* missing :=
    (if negb (truthy response_data) then ret true
     else let* present := lift (contains "features" response_data) in
          ret (negb present)) in
  if missing then ret ALERTS_UNAVAILABLE
  else
    let* features := lift (subscript response_data "features") in
    if negb (truthy features) then ret NO_ACTIVE_ALERTS
    else
      let* items := lift (iterate features) in
      let* alerts := mapM (fun feature => lift (format_alert feature)) items in
      ret (join SEPARATOR alerts).

(** The body of the loop of [get_forecast], lines 102-107: the six
    subscripts are evaluated left to right. *)
Definition format_period (period : json) : outcome string :=
  match subscript period "name" with Raised e => Raised e | Returned name =>
  match subscript period "temperature" with Raised e => Raised e | Returned temperature =>
  match subscript period "temperatureUnit" with Raised e => Raised e | Returned unit_ =>
  match subscript period "windSpeed" with Raised e => Raised e | Returned windSpeed =>
  match subscript period "windDirection" with Raised e => Raised e | Returned windDirection =>
  match subscript period "detailedForecast" with Raised e => Raised e | Returned detailed =>
    Returned ("
" +:+ py_str name +:+ ":
Temperature: " +:+ py_str temperature +:+ "°" +:+ py_str unit_ +:+ "
Wind: " +:+ py_str windSpeed +:+ " " +:+ py_str windDirection +:+ "
Forecast: " +:+ py_str detailed +:+ "
")
  end end end end end end.

Definition points_url (latitude longitude : spec_float) : string :=
  WEATHER_API_BASE +:+ "/points/" +:+ py_str (JFloat latitude) +:+ ","
    +:+ py_str (JFloat longitude).

(** [get_forecast(latitude, longitude)], lines 75-110. *)
Definition get_forecast (latitude longitude : spec_float) : M World string :=
  let* points_response_data := make_nws_request (JStr (points_url latitude longitude)) in
  if negb (truthy points_response_data) then ret POINTS_UNAVAILABLE
  else
    let* properties := lift (subscript points_response_data "properties") in
    let* forecast_url := lift (subscript properties "forecast") in
    let* forecast_response_data := make_nws_request forecast_url in
    if negb (truthy forecast_response_data) then ret FORECAST_UNAVAILABLE
    else
      let* properties' := lift (subscript forecast_response_data "properties") in
      let* periods := lift (subscript properties' "periods") in
      let* shown := lift (slice_to 5 periods) in
      let* items := lift (iterate shown) in
      let* forecasts := mapM (fun period => lift (format_period period)) items in
      ret (join SEPARATOR forecasts).

End Tools.

Arguments make_nws_request {World} client_get url _.
Arguments get_alerts py_str {World} client_get state _.
Arguments get_forecast py_str {World} client_get latitude longitude _.

End Server.

(* ================================================================== *)
(** ** The client, [src/client/main.py] *)
(* ================================================================== *)

Module Client.

(** A tool as listed by the session ([response.tools]). *)
Record ToolDescriptor : Type := {
  name : string;
  description : json;
  inputSchema : json
}.

(** The dict built for the completion service, lines 80-84. *)
Definition tool_schema (tool : ToolDescriptor) : json :=
  JObj [("name", JStr (name tool));
        ("description", description tool);
        ("input_schema", inputSchema tool)].

(** The type tags the loop of [process_query] does not look for. *)
Definition is_other_type (type : string) : bool :=
  negb (String.eqb type "text") && negb (String.eqb type "tool_use").

(** Content blocks.  The type tag of a block goes with its class, so a
    block tagged ["text"] has a [text] and a block tagged ["tool_use"] has
    [id], [name] and [input].  [OtherBlock] is a block of any further type
    the completion service may send; [ToolResult] is the dict of lines
    128-132. *)
Inductive ContentBlock : Type :=
| TextBlock (text : string)
| ToolUseBlock (id name : string) (input : json)
| ToolResult (tool_use_id : string) (content : json)
| OtherBlock (type : string) (other : is_other_type type = true).

(** [content.type] *)
Definition block_type (b : ContentBlock) : string :=
  match b with
  | TextBlock _ => "text"
  | ToolUseBlock _ _ _ => "tool_use"
  | ToolResult _ _ => "tool_result"
  | OtherBlock t _ => t
  end.

(** Attribute reads; a block without the attribute raises. *)
Definition attr_text (b : ContentBlock) : outcome string :=
  match b with TextBlock t => Returned t | _ => Raised AttributeError end.
Definition attr_name (b : ContentBlock) : outcome string :=
  match b with ToolUseBlock _ n _ => Returned n | _ => Raised AttributeError end.
Definition attr_input (b : ContentBlock) : outcome json :=
  match b with ToolUseBlock _ _ i => Returned i | _ => Raised AttributeError end.
Definition attr_id (b : ContentBlock) : outcome string :=
  match b with ToolUseBlock i _ _ => Returned i | _ => Raised AttributeError end.

(** [response.content[0]] *)
Definition index0 (content : list ContentBlock) : outcome ContentBlock :=
  match content with
  | [] => Raised IndexError
  | b :: _ => Returned b
  end.

(** The conversation.  The content of a message is the query string or a
    reference to a list object: the lists live in a store, so that two
    messages can hold the same list. *)
Definition loc : Type := nat.

Inductive Content : Type :=
| StrContent (s : string)
| ListRef (l : loc).

Record Message : Type := {
  role : string;
  content : Content
}.

(** A message as the completion service reads it at the time of a call. *)
Record SentMessage : Type := {
  sent_role : string;
  sent_content : string + list ContentBlock
}.

Definition Store : Type := list (list ContentBlock).

Definition resolve (store : Store) (m : Message) : SentMessage :=
  {| sent_role := role m;
     sent_content := match content m with
                     | StrContent s => inl s
                     | ListRef l => inr (default [] (store !! l))
                     end |}.

(** The locals of one [process_query] call. *)
Record Frame : Type := {
  messages : list Message;
  store : Store;
  final_text : list string
}.

(** What leaves the program, in order. *)
Inductive Event : Type :=
| StdioClient (command : string) (args : list string)
| SessionOpen
| Initialize
| ListTools
| CallTool (name : string) (args : json) (result : outcome json)
| Create (model : string) (max_tokens : Z) (sent : list SentMessage)
         (tools : list json) (result : outcome (list ContentBlock))
| Input (prompt : string)
| Print (text : string)
| PrintTools (names : list string)
| PrintError (e : exn)
| Cleanup.

(** The collaborators: the stdio transport (which spawns the child
    process), the MCP session, the completion service, the exit stack and
    the terminal, acting on a world [W]. *)
Record Collaborators (W : Type) : Type := {
  stdio_client : string -> list string -> W -> outcome unit * W;
  client_session : W -> outcome unit * W;
  session_initialize : W -> outcome unit * W;
  session_list_tools : W -> outcome (list ToolDescriptor) * W;
  session_call_tool : string -> json -> W -> outcome json * W;
  messages_create :
    string -> Z -> list SentMessage -> list json -> W -> outcome (list ContentBlock) * W;
  exit_stack_aclose : W -> outcome unit * W;
  input : string -> W -> outcome string * W
}.
Arguments stdio_client {W} _ _ _ _.
Arguments client_session {W} _ _.
Arguments session_initialize {W} _ _.
Arguments session_list_tools {W} _ _.
Arguments session_call_tool {W} _ _ _ _.
Arguments messages_create {W} _ _ _ _ _ _.
Arguments exit_stack_aclose {W} _ _.
Arguments input {W} _ _ _.

(** The client object together with the world and the log of events. *)
Record St (W : Type) : Type := {
  world : W;
  log : list Event;
  session : bool
}.
Arguments world {W} _.
Arguments log {W} _.
Arguments session {W} _.

Definition NEWLINE : string := "
".

Definition CONNECT_ERROR : string :=
  "サーバースクリプトは .py または .js ファイルでなければなりません。".
Definition MODEL : string := "claude-3-5-sonnet-20241022".
Definition USAGE : string := "Usage: python client.py <path_to_server_script>".
Definition BANNER : string := "
MCP Client 開始!".
Definition INSTRUCTIONS : string := "クエリーを入力するか、「quit」で終了してください。".

Section MCPClient.

Context {W : Type}.
Variable ext : Collaborators W.
Variable py_str : json -> string.

(** Run a collaborator and log it with its result. *)
Definition call {A} (op : W -> outcome A * W) (ev : outcome A -> Event) : M (St W) A :=
  fun st =>
    let r := op (world st) in
    (fst r, {| world := snd r; log := log st ++ [ev (fst r)]; session := session st |}).

Definition emit (ev : Event) : M (St W) unit :=
  fun st => (Returned tt, {| world := world st; log := log st ++ [ev]; session := session st |}).

(** [self.session.<method>]: [self.session] is [None] until connected. *)
Definition the_session : M (St W) unit :=
  fun st => if session st then (Returned tt, st) else (Raised AttributeError, st).

Definition set_session : M (St W) unit :=
  fun st => (Returned tt, {| world := world st; log := log st; session := true |}).

Definition list_tools : M (St W) (list ToolDescriptor) :=
  run the_session then call (session_list_tools ext) (fun _ => ListTools).

Definition call_tool (tool_name : string) (tool_args : json) : M (St W) json :=
  run the_session then
  call (session_call_tool ext tool_name tool_args) (CallTool tool_name tool_args).

Definition create (sent : list SentMessage) (tools : list json) : M (St W) (list ContentBlock) :=
  call (messages_create ext MODEL 1000 sent tools) (Create MODEL 1000 sent tools).

(** [connect_to_server], lines 24-61. *)
Definition connect_to_server (server_script_path : string) : M (St W) unit :=
  let is_python := endswith server_script_path ".py" in
  let is_js := endswith server_script_path ".js" in
  if negb (is_python || is_js) then raise (ValueError CONNECT_ERROR)
  else
    let command := if is_python then "python" else "node" in
    run call (stdio_client ext command [server_script_path])
             (fun _ => StdioClient command [server_script_path]) then
    run call (client_session ext) (fun _ => SessionOpen) then
    run set_session then
    run call (session_initialize ext) (fun _ => Initialize) then
    let* tools := list_tools in
    emit (PrintTools (map name tools)).

(** *** [process_query], lines 64-147 *)

Definition PQ : Type := St W * Frame.

Definition outer {A} (m : M (St W) A) : M PQ A :=
  fun s => let r := m (fst s) in (fst r, (snd r, snd s)).

Definition frame : M PQ Frame := fun s => (Returned (snd s), s).

Definition modify (f : Frame -> Frame) : M PQ unit :=
  fun s => (Returned tt, (fst s, f (snd s))).

(** [final_text.append(text)] *)
Definition append_text (text : string) (fr : Frame) : Frame :=
  {| messages := messages fr; store := store fr; final_text := final_text fr ++ [text] |}.

(** [l.append(b)] on the list object at [l] *)
Definition append_at (l : loc) (b : ContentBlock) (fr : Frame) : Frame :=
  {| messages := messages fr;
     store := alter (fun blocks => blocks ++ [b]) l (store fr);
     final_text := final_text fr |}.

(** [messages.append(m)] *)
Definition append_message (m : Message) (fr : Frame) : Frame :=
  {| messages := messages fr ++ [m]; store := store fr; final_text := final_text fr |}.

(** A new list object. *)
Definition alloc (blocks : list ContentBlock) : M PQ loc :=
  fun s =>
    let fr := snd s in
    (Returned (length (store fr)),
     (fst s, {| messages := messages fr;
                store := store fr ++ [blocks];
                final_text := final_text fr |})).

Definition trace_line (tool_name : string) (tool_args : json) : string :=
  "[Calling tool " +:+ tool_name +:+ " with args " +:+ py_str tool_args +:+ "]".

(** One turn of the loop of line 102, with [acc] the location of
    [assistant_message_content]. *)
Definition process_block (acc : loc) (available_tools : list json)
    (block : ContentBlock) : M PQ unit :=
  if String.eqb (block_type block) "text" then
    let* text := lift (attr_text block) in
    run modify (append_text text) then
    modify (append_at acc block)
  else if String.eqb (block_type block) "tool_use" then
    let* tool_name := lift (attr_name block) in
    let* tool_args := lift (attr_input block) in
    let* result := outer (call_tool tool_name tool_args) in
    run modify (append_text (trace_line tool_name tool_args)) then
    run modify (append_at acc block) then
    run modify (append_message {| role := "assistant"; content := ListRef acc |}) then
    let* tool_use_id := lift (attr_id block) in
    let* l := alloc [ToolResult tool_use_id result] in
    run modify (append_message {| role := "user"; content := ListRef l |}) then
    let* fr := frame in
    let* response := outer (create (map (resolve (store fr)) (messages fr)) available_tools) in
    let* first := lift (index0 response) in
    let* text := lift (attr_text first) in
    modify (append_text text)
  else ret tt.

Fixpoint process_blocks (acc : loc) (available_tools : list json)
    (blocks : list ContentBlock) : M PQ unit :=
  match blocks with
  | [] => ret tt
  | block :: rest =>
      run process_block acc available_tools block then
      process_blocks acc available_tools rest
  end.

Definition frame0 (query : string) : Frame :=
  {| messages := [{| role := "user"; content := StrContent query |}];
     store := [];
     final_text := [] |}.

(** The locals at line 101, before the loop: [assistant_message_content]
    is the list at location 0. *)
Definition frame1 (query : string) : Frame :=
  {| messages := messages (frame0 query); store := [[]]; final_text := [] |}.

Definition query_body : M PQ string :=
  let* tools := outer list_tools in
  let available_tools := map tool_schema tools in
  let* fr := frame in
  let* response := outer (create (map (resolve (store fr)) (messages fr)) available_tools) in
  let* acc := alloc [] in
  run process_blocks acc available_tools response then
  let* fr' := frame in
  ret (join NEWLINE (final_text fr')).

(** The whole call, with the locals it ends with. *)
Definition run_query (query : string) (st : St W) : outcome string * PQ :=
  query_body (st, frame0 query).

Definition process_query (query : string) : M (St W) string :=
  fun st => let r := run_query query st in (fst r, fst (snd r)).

(** *** The loop, one block at a time

    A relational reading of [process_block] for a connected client: the
    outcome of a turn, the state and the locals it ends with, and the
    events it adds to the log. *)

Definition with_events (st : St W) (w : W) (evs : list Event) : St W :=
  {| world := w; log := log st ++ evs; session := session st |}.

(** The locals after lines 113-135 of a tool-use turn. *)
Definition after_call (acc : loc) (block : ContentBlock) (line tool_use_id : string)
    (result : json) (fr : Frame) : Frame :=
  let fr1 :=
    append_message {| role := "assistant"; content := ListRef acc |}
      (append_at acc block (append_text line fr)) in
  append_message {| role := "user"; content := ListRef (length (store fr1)) |}
    {| messages := messages fr1;
       store := store fr1 ++ [[ToolResult tool_use_id result]];
       final_text := final_text fr1 |}.

Definition sent_messages (fr : Frame) : list SentMessage :=
  map (resolve (store fr)) (messages fr).

(** [response.content[0].text] *)
Definition first_text (response : list ContentBlock) : outcome string :=
  match index0 response with
  | Returned b => attr_text b
  | Raised e => Raised e
  end.

Inductive step (acc : loc) (tools : list json) :
    ContentBlock -> St W -> Frame -> outcome unit -> St W -> Frame -> list Event -> Prop :=
| step_text (t : string) (st : St W) (fr : Frame) :
    step acc tools (TextBlock t) st fr
      (Returned tt) st (append_at acc (TextBlock t) (append_text t fr)) []
| step_skip (b : ContentBlock) (st : St W) (fr : Frame) :
    is_other_type (block_type b) = true ->
    step acc tools b st fr (Returned tt) st fr []
| step_call_raised (id n : string) (i : json) (st : St W) (fr : Frame) (e : exn) (w1 : W) :
    session_call_tool ext n i (world st) = (Raised e, w1) ->
    step acc tools (ToolUseBlock id n i) st fr
      (Raised e) (with_events st w1 [CallTool n i (Raised e)]) fr
      [CallTool n i (Raised e)]
| step_create_raised (id n : string) (i : json) (st : St W) (fr : Frame)
    (result : json) (e : exn) (w1 w2 : W) :
    session_call_tool ext n i (world st) = (Returned result, w1) ->
    let fr1 := after_call acc (ToolUseBlock id n i) (trace_line n i) id result fr in
    messages_create ext MODEL 1000 (sent_messages fr1) tools w1 = (Raised e, w2) ->
    let evs := [CallTool n i (Returned result);
                Create MODEL 1000 (sent_messages fr1) tools (Raised e)] in
    step acc tools (ToolUseBlock id n i) st fr (Raised e) (with_events st w2 evs) fr1 evs
| step_no_text (id n : string) (i : json) (st : St W) (fr : Frame)
    (result : json) (response : list ContentBlock) (e : exn) (w1 w2 : W) :
    session_call_tool ext n i (world st) = (Returned result, w1) ->
    let fr1 := after_call acc (ToolUseBlock id n i) (trace_line n i) id result fr in
    messages_create ext MODEL 1000 (sent_messages fr1) tools w1 = (Returned response, w2) ->
    first_text response = Raised e ->
    let evs := [CallTool n i (Returned result);
                Create MODEL 1000 (sent_messages fr1) tools (Returned response)] in
    step acc tools (ToolUseBlock id n i) st fr (Raised e) (with_events st w2 evs) fr1 evs
| step_tool (id n : string) (i : json) (st : St W) (fr : Frame)
    (result : json) (response : list ContentBlock) (t : string) (w1 w2 : W) :
    session_call_tool ext n i (world st) = (Returned result, w1) ->
    let fr1 := after_call acc (ToolUseBlock id n i) (trace_line n i) id result fr in
    messages_create ext MODEL 1000 (sent_messages fr1) tools w1 = (Returned response, w2) ->
    first_text response = Returned t ->
    let evs := [CallTool n i (Returned result);
                Create MODEL 1000 (sent_messages fr1) tools (Returned response)] in
    step acc tools (ToolUseBlock id n i) st fr
      (Returned tt) (with_events st w2 evs) (append_text t fr1) evs.

Inductive steps (acc : loc) (tools : list json) :
    list ContentBlock -> St W -> Frame -> outcome unit -> St W -> Frame -> list Event -> Prop :=
| steps_done (st : St W) (fr : Frame) :
    steps acc tools [] st fr (Returned tt) st fr []
| steps_raised (b : ContentBlock) (rest : list ContentBlock) (st st' : St W)
    (fr fr' : Frame) (e : exn) (evs : list Event) :
    step acc tools b st fr (Raised e) st' fr' evs ->
    steps acc tools (b :: rest) st fr (Raised e) st' fr' evs
| steps_next (b : ContentBlock) (rest : list ContentBlock) (st st1 st' : St W)
    (fr fr1 fr' : Frame) (r : outcome unit) (evs1 evs2 : list Event) :
    step acc tools b st fr (Returned tt) st1 fr1 evs1 ->
    steps acc tools rest st1 fr1 r st' fr' evs2 ->
    steps acc tools (b :: rest) st fr r st' fr' (evs1 ++ evs2).

(** *** [chat_loop], lines 149-165 *)

(** The body of the [try] of one turn; [true] stands for [break]. *)
Definition chat_turn : M (St W) bool :=
  let* line := call (input ext "
Query: ") (fun _ => Input "
Query: ") in
  let query := strip line in
  if String.eqb (lower query) "quit" then ret true
  else
    let* response := process_query query in
    run emit (Print ("
" +:+ response)) then
    ret false.

(** [while True], lines 154-165: [fuel] bounds the number of turns, [None]
    is a loop still running when it is used up. *)
Fixpoint chat_turns (fuel : nat) (st : St W) : option (outcome unit * St W) :=
  match fuel with
  | O => None
  | S fuel' =>
      match chat_turn st with
      | (Returned true, st') => Some (Returned tt, st')
      | (Returned false, st') => chat_turns fuel' st'
      | (Raised e, st') =>
          if is_Exception e then
            chat_turns fuel' (snd (emit (PrintError e) st'))
          else Some (Raised e, st')
      end
  end.

(** The two prints of lines 151-152, then the loop. *)
Definition chat_loop (fuel : nat) (st : St W) : option (outcome unit * St W) :=
  chat_turns fuel
    (snd ((run emit (Print BANNER) then emit (Print INSTRUCTIONS)) st)).

(** [cleanup], lines 167-169 *)
Definition cleanup : M (St W) unit :=
  call (exit_stack_aclose ext) (fun _ => Cleanup).

(** *** [main], lines 172-183 *)
Definition main (fuel : nat) (argv : list string) (st : St W)
    : option (outcome unit * St W) :=
  if (length argv <? 2)%nat then
    Some ((run emit (Print USAGE) then raise (SystemExit 1)) st)
  else
    let tried :=
      match connect_to_server (nth 1 argv EmptyString) st with
      | (Returned _, st') => chat_loop fuel st'
      | (Raised e, st') => Some (Raised e, st')
      end in
    match tried with
    | None => None
    | Some (r, st') => Some (try_finally (lift r) cleanup st')
    end.

End MCPClient.

(** *** Reading a response and a log *)

Definition is_tool_use (b : ContentBlock) : bool :=
  match b with ToolUseBlock _ _ _ => true | _ => false end.

Definition is_text (b : ContentBlock) : bool :=
  match b with TextBlock _ => true | _ => false end.

(** The blocks the loop keeps in [assistant_message_content]. *)
Definition kept (b : ContentBlock) : bool := is_text b || is_tool_use b.

Fixpoint count_tool_use (blocks : list ContentBlock) : nat :=
  match blocks with
  | [] => 0
  | b :: rest => (if is_tool_use b then 1 else 0) + count_tool_use rest
  end.

(** The texts of the text blocks of a response, in order. *)
Fixpoint texts (blocks : list ContentBlock) : list string :=
  match blocks with
  | [] => []
  | TextBlock t :: rest => t :: texts rest
  | _ :: rest => texts rest
  end.

(** The calls a response asks for, in order. *)
Fixpoint tool_requests (blocks : list ContentBlock) : list (string * json) :=
  match blocks with
  | [] => []
  | ToolUseBlock _ n i :: rest => (n, i) :: tool_requests rest
  | _ :: rest => tool_requests rest
  end.

(** The [call_tool] invocations of a log. *)
Fixpoint call_log (evs : list Event) : list (string * json) :=
  match evs with
  | [] => []
  | CallTool n i _ :: rest => (n, i) :: call_log rest
  | _ :: rest => call_log rest
  end.

(** The completion calls of a log, with what each returned. *)
Fixpoint completions (evs : list Event) : list (outcome (list ContentBlock)) :=
  match evs with
  | [] => []
  | Create _ _ _ _ r :: rest => r :: completions rest
  | _ :: rest => completions rest
  end.

(** The messages handed to each completion call of a log. *)
Fixpoint sent_log (evs : list Event) : list (list SentMessage) :=
  match evs with
  | [] => []
  | Create _ _ sent _ _ :: rest => sent :: sent_log rest
  | _ :: rest => sent_log rest
  end.

(** A collaborator call that lets a tool-use turn go on: [call_tool]
    returned, the completion returned a response that starts with text. *)
Definition event_ok (ev : Event) : bool :=
  match ev with
  | CallTool _ _ r => is_returned r
  | Create _ _ _ _ (Returned (TextBlock _ :: _)) => true
  | Create _ _ _ _ _ => false
  | _ => true
  end.

(** The events a run added to the log. *)
Definition events_since {W : Type} (st st' : St W) : list Event :=
  drop (length (log st)) (log st').

(** The events of the loop of a [process_query] call: what follows its
    [list_tools] and its first completion call. *)
Definition loop_events {W : Type} (st st' : St W) : list Event :=
  drop 2 (events_since st st').

Definition is_cleanup (ev : Event) : bool :=
  match ev with Cleanup => true | _ => false end.

(** How often a log invokes the cleanup. *)
Fixpoint cleanups (evs : list Event) : nat :=
  match evs with
  | [] => 0
  | ev :: rest => (if is_cleanup ev then 1 else 0) + cleanups rest
  end.

(** A computation that only adds to the log, and never a cleanup; [view]
    reads the log off the state. *)
Definition adds_no_cleanup {S A : Type} (view : S -> list Event) (m : M S A) : Prop :=
  forall s : S, exists evs : list Event,
    view (snd (m s)) = view s ++ evs /\ cleanups evs = 0.

(** The log, seen from inside [process_query]. *)
Definition pq_log {W : Type} (s : St W * Frame) : list Event := log (fst s).

Definition is_assistant (m : Message) : bool := String.eqb (role m) "assistant".

Definition sent_by_assistant (m : SentMessage) : bool :=
  String.eqb (sent_role m) "assistant".

(** What sharing one list means for the messages of a completion call made
    when the loop has been through [blocks]: every assistant message shows
    all the blocks kept so far, and there is one such message per tool-use
    block. *)
Definition shares (blocks : list ContentBlock) (sent : list SentMessage) : Prop :=
  (forall m : SentMessage,
     In m sent -> sent_by_assistant m = true ->
     sent_content m = inr (List.filter kept blocks))
  /\ length (List.filter sent_by_assistant sent) = count_tool_use blocks.

(** The same for the locals: the list at [acc] holds the blocks kept so
    far and is the content of every assistant message. *)
Definition accumulates (acc : loc) (blocks : list ContentBlock) (fr : Frame) : Prop :=
  store fr !! acc = Some (List.filter kept blocks)
  /\ (forall m : Message, In m (messages fr) -> is_assistant m = true -> content m = ListRef acc)
  /\ length (List.filter is_assistant (messages fr)) = count_tool_use blocks.

Definition user_message (query : string) : SentMessage :=
  {| sent_role := "user"; sent_content := inl query |}.

Section Expected.

Variable py_str : json -> string.

(** The output buffer described from the first response and the
    continuation responses, one per tool-use block: a text block gives its
    text, a tool-use block gives the trace line and the text of the first
    block of its continuation. *)
Fixpoint expected_output (blocks : list ContentBlock)
    (continuations : list (outcome (list ContentBlock))) : list string :=
  match blocks with
  | [] => []
  | TextBlock t :: rest => t :: expected_output rest continuations
  | ToolUseBlock _ n i :: rest =>
      match continuations with
      | Returned (TextBlock t :: _) :: continuations' =>
          trace_line py_str n i :: t :: expected_output rest continuations'
      | _ => [trace_line py_str n i]
      end
  | _ :: rest => expected_output rest continuations
  end.

End Expected.

End Client.

(* ================================================================== *)
(** ** Concrete collaborators, used to run the models *)
(* ================================================================== *)

Module Demo.

(** [str()] on the scalars met in the runs below. *)
Definition str (v : json) : string :=
  match v with
  | JStr s => s
  | JNull => "None"
  | JBool true => "True"
  | JBool false => "False"
  | _ => "?"
  end.

Definition ok (body : json) : outcome Server.http_response :=
  Returned {| Server.status_code := 200; Server.json_body := Returned body |}.

(** An upstream that is down. *)
Definition unreachable (url : string) (headers : list (string * string)) (timeout : Z)
    (w : unit) : outcome Server.http_response * unit :=
  (Raised (External "ConnectError"), w).

(** An upstream that answers every request with status 503. *)
Definition overloaded (url : string) (headers : list (string * string)) (timeout : Z)
    (w : unit) : outcome Server.http_response * unit :=
  (Returned {| Server.status_code := 503;
               Server.json_body := Raised (External "JSONDecodeError") |}, w).

(** An upstream that answers every request with a JSON object that has
    none of the expected keys. *)
Definition off_schema (url : string) (headers : list (string * string)) (timeout : Z)
    (w : unit) : outcome Server.http_response * unit :=
  (ok (JObj [("title", JStr "Data Unavailable")]), w).

(** An upstream with no alert in any state. *)
Definition quiet (url : string) (headers : list (string * string)) (timeout : Z)
    (w : unit) : outcome Server.http_response * unit :=
  (ok (JObj [("type", JStr "FeatureCollection"); ("features", JArr [])]), w).

Definition period (n : string) : json :=
  JObj [("name", JStr n); ("temperature", JStr "60"); ("temperatureUnit", JStr "F");
        ("windSpeed", JStr "5 mph"); ("windDirection", JStr "NW");
        ("detailedForecast", JStr "Clear")].

Definition seven_periods : list json :=
  map period ["Mon"; "Tue"; "Wed"; "Thu"; "Fri"; "Sat"; "Sun"].

Definition FORECAST_URL : string := "https://api.weather.gov/gridpoints/TOP/31,80/forecast".

(** An upstream whose points answer names [FORECAST_URL] and whose forecast
    has seven periods. *)
Definition forecasting (url : string) (headers : list (string * string)) (timeout : Z)
    (w : unit) : outcome Server.http_response * unit :=
  if String.eqb url FORECAST_URL then
    (ok (JObj [("properties", JObj [("periods", JArr seven_periods)])]), w)
  else
    (ok (JObj [("properties", JObj [("forecast", JStr FORECAST_URL)])]), w).

(** As [forecasting], but the forecast request fails. *)
Definition half_down (url : string) (headers : list (string * string)) (timeout : Z)
    (w : unit) : outcome Server.http_response * unit :=
  if String.eqb url FORECAST_URL then (Raised (External "ReadTimeout"), w)
  else (ok (JObj [("properties", JObj [("forecast", JStr FORECAST_URL)])]), w).

Definition lat : spec_float := S754_finite false 39 0.
Definition lon : spec_float := S754_finite true 97 0.

(** *** A scripted completion service and terminal

    The world holds the answers the completion service has yet to give
    and the lines the user has yet to type. *)

Import Client.

Record world : Type := {
  answers : list (outcome (list ContentBlock));
  typed : list string
}.

Definition weather_tool : ToolDescriptor :=
  {| name := "get_alerts";
     description := JStr "Get weather alerts for a US state";
     inputSchema := JObj [("type", JStr "object")] |}.

Definition scripted : Collaborators world :=
  {| stdio_client := fun _ _ w => (Returned tt, w);
     client_session := fun w => (Returned tt, w);
     session_initialize := fun w => (Returned tt, w);
     session_list_tools := fun w => (Returned [weather_tool], w);
     session_call_tool := fun _ _ w => (Returned (JStr "No active alerts"), w);
     messages_create := fun _ _ _ _ w =>
       match answers w with
       | [] => (Raised (External "APIConnectionError"), w)
       | r :: rest => (r, {| answers := rest; typed := typed w |})
       end;
     exit_stack_aclose := fun w => (Returned tt, w);
     input := fun _ w =>
       match typed w with
       | [] => (Raised EOFError, w)
       | l :: rest => (Returned l, {| answers := answers w; typed := rest |})
       end |}.

(** As [scripted], with a transport that cannot start the server. *)
Definition no_server : Collaborators world :=
  {| stdio_client := fun _ _ w => (Raised (External "FileNotFoundError"), w);
     client_session := client_session scripted;
     session_initialize := session_initialize scripted;
     session_list_tools := session_list_tools scripted;
     session_call_tool := session_call_tool scripted;
     messages_create := messages_create scripted;
     exit_stack_aclose := exit_stack_aclose scripted;
     input := input scripted |}.

Definition connected (w : world) : St world :=
  {| Client.world := w; log := []; session := true |}.

Definition fresh (w : world) : St world :=
  {| Client.world := w; log := []; session := false |}.

Definition args_CA : json := JObj [("state", JStr "CA")].
Definition args_NY : json := JObj [("state", JStr "NY")].

(** [str()] of the two argument dicts of the runs. *)
Definition str_args (v : json) : string :=
  match v with
  | JObj [(k, JStr s)] => "{'" +:+ k +:+ "': '" +:+ s +:+ "'}"
  | _ => str v
  end.

Definition thinking : ContentBlock := OtherBlock "thinking" eq_refl.

Definition two_texts : list ContentBlock := [TextBlock "Hello"; TextBlock "world"].

Definition one_tool : list ContentBlock :=
  [thinking; TextBlock "Let me check."; ToolUseBlock "toolu_1" "get_alerts" args_CA].

Definition two_tools : list ContentBlock :=
  [TextBlock "Let me check."; ToolUseBlock "toolu_1" "get_alerts" args_CA;
   ToolUseBlock "toolu_2" "get_alerts" args_NY].

(** A service that answers with two text blocks. *)
Definition chatty : St world :=
  connected {| answers := [Returned two_texts]; typed := [] |}.

(** A service that asks for one tool, then answers with a text and a
    further tool request. *)
Definition one_hop : St world :=
  connected {| answers := [Returned one_tool;
                           Returned [TextBlock "No alerts."; ToolUseBlock "toolu_9" "get_forecast" JNull]];
               typed := [] |}.

(** A service that asks for two tools in its first answer. *)
Definition two_hops : St world :=
  connected {| answers := [Returned two_tools;
                           Returned [TextBlock "No alerts in CA."];
                           Returned [TextBlock "None in NY."]];
               typed := [] |}.

(** A service whose continuation has no content, and one whose
    continuation starts with a tool request. *)
Definition silent : St world :=
  connected {| answers := [Returned one_tool; Returned []]; typed := [] |}.

Definition insistent : St world :=
  connected {| answers := [Returned one_tool;
                           Returned [ToolUseBlock "toolu_9" "get_forecast" JNull]];
               typed := [] |}.

(** A user who asks one question and quits. *)
Definition session_start : St world :=
  fresh {| answers := [Returned two_texts]; typed := [" hi "; "QUIT "] |}.

End Demo.

(* ================================================================== *)
(** ** Shapes of data and of conversations *)
(* ================================================================== *)

Module Shapes.
Import Client.

Definition has_key (kv : list (string * json)) (key : string) : bool :=
  match assoc key kv with Some _ => true | None => false end.

(** The keys [get_forecast] reads from a period, lines 103-106. *)
Definition PERIOD_KEYS : list string :=
  ["name"; "temperature"; "temperatureUnit"; "windSpeed"; "windDirection";
   "detailedForecast"].

(** A period the loop of [get_forecast] can format: an object with the six
    keys. *)
Definition complete_period (period : json) : bool :=
  match period with
  | JObj kv => forallb (has_key kv) PERIOD_KEYS
  | _ => false
  end.

(** A feature [format_alert] can format: an object whose ["properties"] is
    an object. *)
Definition complete_feature (feature : json) : bool :=
  match feature with
  | JObj kv => match assoc "properties" kv with Some (JObj _) => true | _ => false end
  | _ => false
  end.

Definition is_dict (v : json) : bool :=
  match v with JObj _ => true | _ => false end.

(** The roles of a conversation after its first message, when [k] tool
    calls have been fed back. *)
Fixpoint tool_rounds (k : nat) : list string :=
  match k with
  | O => []
  | S k' => "assistant" :: "user" :: tool_rounds k'
  end.

(** The three kinds of event of a [process_query] call. *)
Definition is_query_event (ev : Event) : bool :=
  match ev with
  | ListTools | CallTool _ _ _ | Create _ _ _ _ _ => true
  | _ => false
  end.


End Shapes.

(* ================================================================== *)
(** ** Further collaborators *)
(* ================================================================== *)

Module Cases.
Import Client Demo.

(** A request interrupted from the keyboard. *)
Definition interrupted (url : string) (headers : list (string * string)) (timeout : Z)
    (w : unit) : outcome Server.http_response * unit :=
  (Raised KeyboardInterrupt, w).

(** An upstream that answers every request with the given body. *)
Definition answering (body : json) (url : string) (headers : list (string * string))
    (timeout : Z) (w : unit) : outcome Server.http_response * unit :=
  (ok body, w).

(** An upstream whose points answer names [FORECAST_URL] and whose forecast
    answer has the given periods. *)
Definition forecasting_with (periods : json) (url : string)
    (headers : list (string * string)) (timeout : Z) (w : unit)
    : outcome Server.http_response * unit :=
  if String.eqb url FORECAST_URL then
    (ok (JObj [("properties", JObj [("periods", periods)])]), w)
  else
    (ok (JObj [("properties", JObj [("forecast", JStr FORECAST_URL)])]), w).

Definition alert (event : string) : json :=
  JObj [("properties", JObj [("event", JStr event); ("severity", JStr "Severe")])].

(** [scripted] with one collaborator replaced. *)
Definition with_list_tools (op : world -> outcome (list ToolDescriptor) * world)
    : Collaborators world :=
  {| stdio_client := stdio_client scripted;
     client_session := client_session scripted;
     session_initialize := session_initialize scripted;
     session_list_tools := op;
     session_call_tool := session_call_tool scripted;
     messages_create := messages_create scripted;
     exit_stack_aclose := exit_stack_aclose scripted;
     input := input scripted |}.

Definition with_call_tool (op : string -> json -> world -> outcome json * world)
    : Collaborators world :=
  {| stdio_client := stdio_client scripted;
     client_session := client_session scripted;
     session_initialize := session_initialize scripted;
     session_list_tools := session_list_tools scripted;
     session_call_tool := op;
     messages_create := messages_create scripted;
     exit_stack_aclose := exit_stack_aclose scripted;
     input := input scripted |}.

Definition with_aclose (op : world -> outcome unit * world) : Collaborators world :=
  {| stdio_client := stdio_client scripted;
     client_session := client_session scripted;
     session_initialize := session_initialize scripted;
     session_list_tools := session_list_tools scripted;
     session_call_tool := session_call_tool scripted;
     messages_create := messages_create scripted;
     exit_stack_aclose := op;
     input := input scripted |}.


(** A session that cannot list its tools, a tool that fails, an exit stack
    that fails to close, a terminal at end of input. *)
Definition no_catalogue : Collaborators world :=
  with_list_tools (fun w => (Raised (External "McpError"), w)).

Definition failing_tool : Collaborators world :=
  with_call_tool (fun _ _ w => (Raised (External "McpError"), w)).

Definition stuck_close : Collaborators world :=
  with_aclose (fun w => (Raised (External "RuntimeError"), w)).


(** A service that answers with a block of another type only. *)
Definition pondering : St world :=
  connected {| answers := [Returned [thinking]]; typed := [] |}.

(** A client with some history in its log. *)
Definition seasoned : St world :=
  {| Client.world := {| answers := [Returned two_texts]; typed := [] |};
     log := [ListTools; Print "earlier answer"];
     session := true |}.

(** A user who quits at once. *)
Definition leaving : St world :=
  fresh {| answers := []; typed := [" Quit　"] |}.

End Cases.

(* ================================================================== *)
(** ** Stepping through a computation *)
(* ================================================================== *)

Module Steps.

Lemma bind_returned {S A B : Type} (m : M S A) (k : A -> M S B) (s s' : S) (a : A) :
  m s = (Returned a, s') -> bind m k s = k a s'.
Proof. intros H. unfold bind. rewrite H. reflexivity. Qed.

Lemma bind_lift {S A B : Type} (o : outcome A) (k : A -> M S B) (s : S) (a : A) :
  o = Returned a -> bind (lift o) k s = k a s.
Proof. intros ->. reflexivity. Qed.

Lemma append_nil_r (s : string) : s +:+ EmptyString = s.
Proof.
  induction s as [| c s IH]; [reflexivity |].
  change (String c s +:+ EmptyString) with (String c (s +:+ EmptyString)). rewrite IH. reflexivity.
Qed.

Lemma append_assoc (s1 s2 s3 : string) : (s1 +:+ s2) +:+ s3 = s1 +:+ s2 +:+ s3.
Proof.
  induction s1 as [| c s1 IH]; [reflexivity |].
  change (String c ((s1 +:+ s2) +:+ s3) = String c (s1 +:+ s2 +:+ s3)).
  rewrite IH. reflexivity.
Qed.

Lemma join_cons (sep x y : string) (l : list string) :
  join sep (x :: y :: l) = x +:+ sep +:+ join sep (y :: l).
Proof. reflexivity. Qed.

(** Two neighbours of a list stay neighbours, separator between them, in
    the joined string. *)
Lemma join_middle (sep x y : string) (l1 l2 : list string) :
  exists before after : string,
    join sep (l1 ++ x :: y :: l2) = before +:+ x +:+ sep +:+ y +:+ after.
Proof.
  induction l1 as [| a l1 (before & after & IH)].
  - exists EmptyString. destruct l2 as [| z l2].
    + exists EmptyString. rewrite append_nil_r. reflexivity.
    + exists (sep +:+ join sep (z :: l2)). reflexivity.
  - exists (a +:+ sep +:+ before), after.
    change ((a :: l1) ++ x :: y :: l2) with (a :: (l1 ++ x :: y :: l2)).
    destruct (l1 ++ x :: y :: l2) as [| b l] eqn:Hl.
    + destruct l1; discriminate.
    + rewrite join_cons, IH, !append_assoc. reflexivity.
Qed.

Lemma mapM_lift {S A B : Type} (f : A -> outcome B) (l : list A) (s : S) :
  mapM (fun a => lift (f a)) l s = (traverse f l, s).
Proof.
  induction l as [| a l IH]; simpl; [reflexivity |].
  unfold bind, lift at 1. destruct (f a) as [b | e]; [| reflexivity].
  rewrite IH. destruct (traverse f l); reflexivity.
Qed.

Lemma traverse_length {A B : Type} (f : A -> outcome B) (l : list A) (bs : list B) :
  traverse f l = Returned bs -> length bs = length l.
Proof.
  revert bs. induction l as [| a l IH]; simpl; intros bs.
  - intros [= <-]. reflexivity.
  - destruct (f a) as [b | e]; [| discriminate].
    destruct (traverse f l) as [bs' | e]; simpl; [| discriminate].
    intros [= <-]. simpl. f_equal. apply IH. reflexivity.
Qed.

End Steps.

(* ================================================================== *)
(** ** Properties of the weather tools *)
(* ================================================================== *)

Module ServerProps.
Import Server Steps.

Section Facts.

Variable py_str : json -> string.
Variable World : Type.
Variable client_get :
  string -> list (string * string) -> Z -> World -> outcome http_response * World.

(** A failed request is turned into [None]. *)
Lemma make_nws_request_failed (u : string) (w : World) :
  fetch_failed (fst (client_get u HEADERS 30 w)) = true ->
  make_nws_request client_get (JStr u) w = (Returned JNull, snd (client_get u HEADERS 30 w)).
Proof.
  unfold Server.make_nws_request, try_except_Exception, bind, lift, raise, ret, fetch_failed.
  destruct (client_get u HEADERS 30 w) as [[response | e] w']; simpl.
  - destruct (is_success (status_code response)); simpl.
    + destruct (json_body response) as [j | e]; simpl; [discriminate |].
      intros ->. reflexivity.
    + reflexivity.
  - intros ->. reflexivity.
Qed.

(** A successful request hands the decoded body over. *)
Lemma make_nws_request_ok (u : string) (w w' : World) (response : http_response)
    (data : json) :
  client_get u HEADERS 30 w = (Returned response, w') ->
  is_success (status_code response) = true ->
  json_body response = Returned data ->
  make_nws_request client_get (JStr u) w = (Returned data, w').
Proof.
  intros Hget Hok Hbody.
  unfold Server.make_nws_request, try_except_Exception, bind, lift, raise, ret.
  rewrite Hget, Hok, Hbody. reflexivity.
Qed.

(** Whatever happens to the request, [make_nws_request] raises only what
    [except Exception] lets through. *)
Lemma make_nws_request_raises (u : string) (w w' : World) (e : exn) :
  make_nws_request client_get (JStr u) w = (Raised e, w') -> is_Exception e = false.
Proof.
  unfold Server.make_nws_request, try_except_Exception, bind, lift, raise, ret.
  destruct (client_get u HEADERS 30 w) as [[response | e0] w0]; simpl.
  - destruct (is_success (status_code response)); simpl.
    + destruct (json_body response) as [j | e1]; simpl; [discriminate |].
      destruct (is_Exception e1) eqn:He1; [discriminate |].
      intros [= <- <-]. exact He1.
    + discriminate.
  - destruct (is_Exception e0) eqn:He0; [discriminate |].
    intros [= <- <-]. exact He0.
Qed.

Lemma get_alerts_unfetched (state : string) (w w' : World) (data : json) :
  make_nws_request client_get (JStr (alerts_url state)) w = (Returned data, w') ->
  truthy data = false ->
  get_alerts py_str client_get state w = (Returned ALERTS_UNAVAILABLE, w').
Proof.
  intros Hreq Hfalsy. unfold Server.get_alerts, bind at 1. rewrite Hreq.
  unfold bind, ret. rewrite Hfalsy. reflexivity.
Qed.

Lemma get_alerts_no_features (state : string) (w w' : World) (data : json) :
  make_nws_request client_get (JStr (alerts_url state)) w = (Returned data, w') ->
  contains "features" data = Returned false ->
  get_alerts py_str client_get state w = (Returned ALERTS_UNAVAILABLE, w').
Proof.
  intros Hreq Hin. unfold Server.get_alerts, bind at 1. rewrite Hreq.
  unfold bind, ret, lift. rewrite Hin.
  destruct (truthy data); reflexivity.
Qed.

Lemma get_alerts_empty (state : string) (w w' : World) (data : json) :
  make_nws_request client_get (JStr (alerts_url state)) w = (Returned data, w') ->
  truthy data = true ->
  subscript data "features" = Returned (JArr []) ->
  get_alerts py_str client_get state w = (Returned NO_ACTIVE_ALERTS, w').
Proof.
  intros Hreq Htruthy Hsub. unfold Server.get_alerts, bind at 1. rewrite Hreq.
  unfold bind, ret, lift. rewrite Htruthy. simpl.
  destruct data as [| | | | | |kv]; try discriminate.
  simpl in Hsub. destruct (assoc "features" kv) as [x|] eqn:Hk; [| discriminate].
  injection Hsub as ->. simpl. rewrite Hk. reflexivity.
Qed.

(** A ["features"] entry that is falsy, whatever its type. *)
Lemma get_alerts_falsy_features (state : string) (w w' : World) (data features : json) :
  make_nws_request client_get (JStr (alerts_url state)) w = (Returned data, w') ->
  subscript data "features" = Returned features ->
  truthy features = false ->
  get_alerts py_str client_get state w = (Returned NO_ACTIVE_ALERTS, w').
Proof.
  intros Hreq Hsub Hfalsy. unfold Server.get_alerts, bind at 1. rewrite Hreq.
  destruct data as [| | | | | | kv]; try discriminate.
  simpl in Hsub. destruct (assoc "features" kv) as [x |] eqn:Hk; [| discriminate].
  injection Hsub as ->.
  destruct kv as [| p kv]; [discriminate |].
  unfold bind, ret, lift. simpl. simpl in Hk. rewrite Hk. simpl. rewrite Hfalsy.
  reflexivity.
Qed.

Lemma sentinels_differ : ALERTS_UNAVAILABLE <> NO_ACTIVE_ALERTS.
Proof. discriminate. Qed.

Lemma get_forecast_unfetched (lat lon : spec_float) (w w' : World) (data : json) :
  make_nws_request client_get (JStr (points_url py_str lat lon)) w = (Returned data, w') ->
  truthy data = false ->
  get_forecast py_str client_get lat lon w = (Returned POINTS_UNAVAILABLE, w').
Proof.
  intros Hreq Hfalsy. unfold Server.get_forecast, bind at 1. rewrite Hreq, Hfalsy.
  reflexivity.
Qed.

(** The second request of [get_forecast], reached with the URL the points
    answer names. *)
Lemma get_forecast_second (lat lon : spec_float) (w w1 : World)
    (points properties forecast_url : json) :
  make_nws_request client_get (JStr (points_url py_str lat lon)) w = (Returned points, w1) ->
  truthy points = true ->
  subscript points "properties" = Returned properties ->
  subscript properties "forecast" = Returned forecast_url ->
  get_forecast py_str client_get lat lon w =
    (let* forecast_response_data := make_nws_request client_get forecast_url in
     if negb (truthy forecast_response_data) then ret FORECAST_UNAVAILABLE
     else
       let* properties' := lift (subscript forecast_response_data "properties") in
       let* periods := lift (subscript properties' "periods") in
       let* shown := lift (slice_to 5 periods) in
       let* items := lift (iterate shown) in
       let* forecasts := mapM (fun period => lift (format_period py_str period)) items in
       ret (join SEPARATOR forecasts)) w1.
Proof.
  intros Hreq Htruthy Hprops Hurl. unfold Server.get_forecast.
  rewrite (bind_returned _ _ _ _ _ Hreq), Htruthy. cbn [negb].
  rewrite (bind_lift _ _ _ _ Hprops), (bind_lift _ _ _ _ Hurl).
  reflexivity.
Qed.

Lemma firstn_le_length {A : Type} (n : nat) (l : list A) : length (firstn n l) <= n.
Proof. rewrite length_firstn. lia. Qed.

(** C5 (as amended): whenever a request fails inside [make_nws_request]
    (the call raises an [Exception], the status is not a success or the
    body is not JSON), [get_alerts] and [get_forecast] return one of their
    fixed informational strings and raise nothing; this holds for the only
    request of [get_alerts] and for each of the two requests of
    [get_forecast]. *)
Theorem tools_absorb_failed_requests (state : string) (lat lon : spec_float) (w : World) :
  (fetch_failed (fst (client_get (alerts_url state) HEADERS 30 w)) = true ->
   get_alerts py_str client_get state w =
     (Returned ALERTS_UNAVAILABLE, snd (client_get (alerts_url state) HEADERS 30 w)))
  /\ (fetch_failed (fst (client_get (points_url py_str lat lon) HEADERS 30 w)) = true ->
      get_forecast py_str client_get lat lon w =
        (Returned POINTS_UNAVAILABLE,
         snd (client_get (points_url py_str lat lon) HEADERS 30 w)))
  /\ (forall (points properties : json) (u : string) (w1 : World),
        make_nws_request client_get (JStr (points_url py_str lat lon)) w
          = (Returned points, w1) ->
        truthy points = true ->
        subscript points "properties" = Returned properties ->
        subscript properties "forecast" = Returned (JStr u) ->
        fetch_failed (fst (client_get u HEADERS 30 w1)) = true ->
        get_forecast py_str client_get lat lon w =
          (Returned FORECAST_UNAVAILABLE, snd (client_get u HEADERS 30 w1))).
Proof.
  split; [| split].
  - intros Hfail. eapply get_alerts_unfetched.
    + apply make_nws_request_failed, Hfail.
    + reflexivity.
  - intros Hfail. eapply get_forecast_unfetched.
    + apply make_nws_request_failed, Hfail.
    + reflexivity.
  - intros points properties u w1 Hreq Htruthy Hprops Hurl Hfail.
    rewrite (get_forecast_second _ _ _ _ _ _ _ Hreq Htruthy Hprops Hurl).
    rewrite (bind_returned _ _ _ _ _ (make_nws_request_failed _ _ Hfail)).
    reflexivity.
Qed.

(** C6 (as amended): [get_alerts] answers with the fixed string of line 63
    when the request failed, when its data is falsy or when the data does
    not contain ["features"]; it answers with the fixed string of line 66
    when the data is an object whose ["features"] entry is falsy (an empty
    list, but [None] as well); and the two strings differ. *)
Theorem get_alerts_sentinels (state : string) (w : World) :
  (fetch_failed (fst (client_get (alerts_url state) HEADERS 30 w)) = true ->
   get_alerts py_str client_get state w =
     (Returned ALERTS_UNAVAILABLE, snd (client_get (alerts_url state) HEADERS 30 w)))
  /\ (forall (data : json) (w' : World),
        make_nws_request client_get (JStr (alerts_url state)) w = (Returned data, w') ->
        truthy data = false \/ contains "features" data = Returned false ->
        get_alerts py_str client_get state w = (Returned ALERTS_UNAVAILABLE, w'))
  /\ (forall (data features : json) (w' : World),
        make_nws_request client_get (JStr (alerts_url state)) w = (Returned data, w') ->
        subscript data "features" = Returned features ->
        truthy features = false ->
        get_alerts py_str client_get state w = (Returned NO_ACTIVE_ALERTS, w'))
  /\ ALERTS_UNAVAILABLE = "アラートを取得できない、またはアラートが見つからない"
  /\ NO_ACTIVE_ALERTS = "この状態に対するアクティブなアラートはありません"
  /\ ALERTS_UNAVAILABLE <> NO_ACTIVE_ALERTS.
Proof.
  split; [| split; [| split; [| split; [| split]]]].
  - intros Hfail. eapply get_alerts_unfetched.
    + apply make_nws_request_failed, Hfail.
    + reflexivity.
  - intros data w' Hreq [Hfalsy | Hnone].
    + eapply get_alerts_unfetched; eassumption.
    + eapply get_alerts_no_features; eassumption.
  - intros data features w' Hreq Hsub Hfalsy.
    eapply get_alerts_falsy_features; eassumption.
  - reflexivity.
  - reflexivity.
  - apply sentinels_differ.
Qed.

(** C7: when the forecast answer holds a list of periods, the report of
    [get_forecast] is the formatting of the first five of them, joined by
    the separator: it has at most five sections and no later period takes
    part in it. *)
Theorem get_forecast_first_five (lat lon : spec_float) (w w1 w2 : World)
    (points properties forecast_url data properties' : json) (periods : list json) :
  make_nws_request client_get (JStr (points_url py_str lat lon)) w = (Returned points, w1) ->
  truthy points = true ->
  subscript points "properties" = Returned properties ->
  subscript properties "forecast" = Returned forecast_url ->
  make_nws_request client_get forecast_url w1 = (Returned data, w2) ->
  truthy data = true ->
  subscript data "properties" = Returned properties' ->
  subscript properties' "periods" = Returned (JArr periods) ->
  get_forecast py_str client_get lat lon w =
    (outcome_map (join SEPARATOR) (traverse (format_period py_str) (firstn 5 periods)), w2)
  /\ (forall sections : list string,
        traverse (format_period py_str) (firstn 5 periods) = Returned sections ->
        length sections <= 5).
Proof.
  intros Hreq Htruthy Hprops Hurl Hreq2 Htruthy2 Hprops2 Hperiods. split.
  - rewrite (get_forecast_second _ _ _ _ _ _ _ Hreq Htruthy Hprops Hurl).
    rewrite (bind_returned _ _ _ _ _ Hreq2), Htruthy2. cbn [negb].
    rewrite (bind_lift _ _ _ _ Hprops2), (bind_lift _ _ _ _ Hperiods).
    rewrite (bind_lift _ _ _ (JArr (firstn 5 periods)) eq_refl).
    rewrite (bind_lift _ _ _ (firstn 5 periods) eq_refl).
    unfold bind. rewrite mapM_lift.
    destruct (traverse (format_period py_str) (firstn 5 periods)); reflexivity.
  - intros sections Hsections. rewrite (traverse_length _ _ _ Hsections).
    apply firstn_le_length.
Qed.

End Facts.

(** Runs on concrete upstreams. *)

Lemma tools_absorb_failed_requests_witness :
  (fetch_failed (fst (Demo.unreachable (alerts_url "CA") HEADERS 30 tt)) = true
   /\ get_alerts Demo.str Demo.unreachable "CA" tt = (Returned ALERTS_UNAVAILABLE, tt))
  /\ (fetch_failed
        (fst (Demo.overloaded (points_url Demo.str Demo.lat Demo.lon) HEADERS 30 tt)) = true
      /\ get_forecast Demo.str Demo.overloaded Demo.lat Demo.lon tt
         = (Returned POINTS_UNAVAILABLE, tt))
  /\ (fetch_failed (fst (Demo.half_down Demo.FORECAST_URL HEADERS 30 tt)) = true
      /\ get_forecast Demo.str Demo.half_down Demo.lat Demo.lon tt
         = (Returned FORECAST_UNAVAILABLE, tt)).
Proof.
  split; [| split]; (split; [reflexivity |]).
  - apply (proj1 (tools_absorb_failed_requests
                    Demo.str unit Demo.unreachable "CA" Demo.lat Demo.lon tt)).
    reflexivity.
  - apply (proj1 (proj2 (tools_absorb_failed_requests
                           Demo.str unit Demo.overloaded "CA" Demo.lat Demo.lon tt))).
    reflexivity.
  - apply (proj2 (proj2 (tools_absorb_failed_requests
                           Demo.str unit Demo.half_down "CA" Demo.lat Demo.lon tt))
             (JObj [("properties", JObj [("forecast", JStr Demo.FORECAST_URL)])])
             (JObj [("forecast", JStr Demo.FORECAST_URL)])
             Demo.FORECAST_URL tt); reflexivity.
Defined.

(** C5 (as stated) fails: a successful answer whose object lacks
    ["properties"] makes [get_forecast] raise [KeyError]. *)
Lemma get_forecast_raises_off_schema :
  fetch_failed (fst (Demo.off_schema (points_url Demo.str Demo.lat Demo.lon) HEADERS 30 tt))
    = false
  /\ get_forecast Demo.str Demo.off_schema Demo.lat Demo.lon tt = (Raised KeyError, tt).
Proof. split; reflexivity. Qed.

Lemma get_alerts_sentinels_witness :
  (fetch_failed (fst (Demo.unreachable (alerts_url "CA") HEADERS 30 tt)) = true
   /\ get_alerts Demo.str Demo.unreachable "CA" tt = (Returned ALERTS_UNAVAILABLE, tt))
  /\ (contains "features" (JObj [("title", JStr "Data Unavailable")]) = Returned false
      /\ get_alerts Demo.str Demo.off_schema "CA" tt = (Returned ALERTS_UNAVAILABLE, tt))
  /\ (subscript (JObj [("type", JStr "FeatureCollection"); ("features", JArr [])]) "features"
        = Returned (JArr [])
      /\ get_alerts Demo.str Demo.quiet "CA" tt = (Returned NO_ACTIVE_ALERTS, tt))
  /\ get_alerts Demo.str (Cases.answering (JObj [("features", JNull)])) "CA" tt
     = (Returned NO_ACTIVE_ALERTS, tt).
Proof.
  split; [| split; [| split]]; [split; [reflexivity |] .. | ].
  - apply (proj1 (get_alerts_sentinels Demo.str unit Demo.unreachable "CA" tt)).
    reflexivity.
  - apply (proj1 (proj2 (get_alerts_sentinels Demo.str unit Demo.off_schema "CA" tt))
             (JObj [("title", JStr "Data Unavailable")]) tt);
      [reflexivity | right; reflexivity].
  - apply (proj1 (proj2 (proj2 (get_alerts_sentinels Demo.str unit Demo.quiet "CA" tt)))
             (JObj [("type", JStr "FeatureCollection"); ("features", JArr [])])
             (JArr []) tt);
      reflexivity.
  - apply (proj1 (proj2 (proj2 (get_alerts_sentinels
                                  Demo.str unit
                                  (Cases.answering (JObj [("features", JNull)])) "CA" tt)))
             (JObj [("features", JNull)]) JNull tt);
      reflexivity.
Defined.

(** C6 (as stated) fails: an answer that arrives but is unusable does not
    give the string of line 63.  A list holding ["features"], or a number,
    makes [get_alerts] raise [TypeError]; an object whose ["features"] is an
    object, or holds an alert without ["properties"], makes it raise
    [ValidationError], resp. [KeyError]; and an object whose ["features"] is
    [None] gives the string of line 66, as if there were no alert. *)
Lemma get_alerts_unusable_answers :
  (fetch_failed
     (fst (Cases.answering (JArr [JStr "features"]) (alerts_url "CA") HEADERS 30 tt)) = false
   /\ get_alerts Demo.str (Cases.answering (JArr [JStr "features"])) "CA" tt
      = (Raised TypeError, tt))
  /\ get_alerts Demo.str (Cases.answering (JInt 5)) "CA" tt = (Raised TypeError, tt)
  /\ get_alerts Demo.str (Cases.answering (JObj [("features", JObj [("a", JInt 1)])])) "CA" tt
     = (Raised ValidationError, tt)
  /\ get_alerts Demo.str (Cases.answering (JObj [("features", JArr [JObj []])])) "CA" tt
     = (Raised KeyError, tt)
  /\ (get_alerts Demo.str (Cases.answering (JObj [("features", JNull)])) "CA" tt
      = (Returned NO_ACTIVE_ALERTS, tt)
      /\ NO_ACTIVE_ALERTS <> ALERTS_UNAVAILABLE).
Proof.
  split; [split; reflexivity |].
  split; [reflexivity |].
  split; [reflexivity |].
  split; [reflexivity |].
  split; [reflexivity | discriminate].
Qed.

Lemma get_forecast_first_five_witness :
  length Demo.seven_periods = 7
  /\ get_forecast Demo.str Demo.forecasting Demo.lat Demo.lon tt =
       (outcome_map (join SEPARATOR)
          (traverse (format_period Demo.str) (map Demo.period ["Mon"; "Tue"; "Wed"; "Thu"; "Fri"])),
        tt).
Proof.
  split; [reflexivity |].
  apply (proj1 (get_forecast_first_five Demo.str unit Demo.forecasting
                  Demo.lat Demo.lon tt tt tt
                  (JObj [("properties", JObj [("forecast", JStr Demo.FORECAST_URL)])])
                  (JObj [("forecast", JStr Demo.FORECAST_URL)])
                  (JStr Demo.FORECAST_URL)
                  (JObj [("properties", JObj [("periods", JArr Demo.seven_periods)])])
                  (JObj [("periods", JArr Demo.seven_periods)])
                  Demo.seven_periods
                  eq_refl eq_refl eq_refl eq_refl eq_refl eq_refl eq_refl eq_refl)).
Defined.

End ServerProps.

(* ================================================================== *)
(** ** Properties of the client *)
(* ================================================================== *)

Module ClientProps.
Import Client Steps.

Section Facts.

Context {W : Type}.
Variable ext : Collaborators W.
Variable py_str : json -> string.

Lemma other_type_tests (type : string) :
  is_other_type type = true ->
  String.eqb type "text" = false /\ String.eqb type "tool_use" = false.
Proof.
  unfold is_other_type. intros H. apply andb_prop in H as [H1 H2].
  split; apply negb_true_iff; assumption.
Qed.

Ltac run_block :=
  unfold process_block, call_tool, create;
  unfold bind, lift, outer, the_session, call, modify, alloc, frame, ret; cbn.

Lemma process_block_call_raised (acc : loc) (tools : list json) (id n : string) (i : json)
    (st : St W) (fr : Frame) (e : exn) (w1 : W) :
  session st = true ->
  session_call_tool ext n i (world st) = (Raised e, w1) ->
  process_block ext py_str acc tools (ToolUseBlock id n i) (st, fr)
  = (Raised e, (with_events st w1 [CallTool n i (Raised e)], fr)).
Proof.
  intros Hs Hcall. run_block. rewrite Hs. cbn. rewrite Hcall. reflexivity.
Qed.

Lemma process_block_called (acc : loc) (tools : list json) (id n : string) (i : json)
    (st : St W) (fr : Frame) (result : json) (w1 : W) :
  session st = true ->
  session_call_tool ext n i (world st) = (Returned result, w1) ->
  let fr1 := after_call acc (ToolUseBlock id n i) (trace_line py_str n i) id result fr in
  let created := messages_create ext MODEL 1000 (sent_messages fr1) tools w1 in
  let evs := [CallTool n i (Returned result);
              Create MODEL 1000 (sent_messages fr1) tools (fst created)] in
  process_block ext py_str acc tools (ToolUseBlock id n i) (st, fr)
  = match fst created with
    | Raised e => (Raised e, (with_events st (snd created) evs, fr1))
    | Returned response =>
        match first_text response with
        | Raised e => (Raised e, (with_events st (snd created) evs, fr1))
        | Returned t => (Returned tt, (with_events st (snd created) evs, append_text t fr1))
        end
    end.
Proof.
  intros Hs Hcall fr1 created evs. run_block. rewrite Hs. cbn. rewrite Hcall. cbn.
  change (messages_create ext MODEL 1000 _ tools w1) with created.
  subst evs. unfold with_events. cbn. rewrite <- !app_assoc. cbn.
  destruct (fst created) as [response | e]; [| reflexivity].
  unfold first_text. destruct (index0 response) as [b | e]; [| reflexivity].
  destruct (attr_text b); reflexivity.
Qed.

(** [process_block] does what [step] says. *)
Lemma process_block_step (acc : loc) (tools : list json) (b : ContentBlock)
    (st : St W) (fr : Frame) :
  session st = true ->
  exists evs,
    step ext py_str acc tools b st fr
      (fst (process_block ext py_str acc tools b (st, fr)))
      (fst (snd (process_block ext py_str acc tools b (st, fr))))
      (snd (snd (process_block ext py_str acc tools b (st, fr))))
      evs.
Proof.
  intros Hs. destruct b as [t | id n i | id c | type Hother].
  - exists []. apply step_text.
  - destruct (session_call_tool ext n i (world st)) as [[result | e] w1] eqn:Hcall.
    + rewrite (process_block_called acc tools id n i st fr result w1 Hs Hcall).
      destruct (messages_create ext MODEL 1000
                  (sent_messages
                     (after_call acc (ToolUseBlock id n i) (trace_line py_str n i) id result fr))
                  tools w1) as [[response | e] w2] eqn:Hcreate; cbn [fst snd].
      * destruct (first_text response) as [t | e] eqn:Hfirst; cbn [fst snd];
          eexists; [eapply step_tool | eapply step_no_text]; eassumption.
      * eexists. eapply step_create_raised; eassumption.
    + rewrite (process_block_call_raised acc tools id n i st fr e w1 Hs Hcall).
      eexists. apply step_call_raised. exact Hcall.
  - exists []. apply step_skip. reflexivity.
  - exists []. unfold process_block. cbn [block_type].
    destruct (other_type_tests type Hother) as [-> ->]. apply step_skip. exact Hother.
Qed.

(** The loop does what [steps] says. *)
Lemma process_blocks_steps (acc : loc) (tools : list json) (blocks : list ContentBlock) :
  forall (st : St W) (fr : Frame),
    session st = true ->
    exists evs,
      steps ext py_str acc tools blocks st fr
        (fst (process_blocks ext py_str acc tools blocks (st, fr)))
        (fst (snd (process_blocks ext py_str acc tools blocks (st, fr))))
        (snd (snd (process_blocks ext py_str acc tools blocks (st, fr))))
        evs.
Proof.
  induction blocks as [| b rest IH]; intros st fr Hs.
  - exists []. apply steps_done.
  - destruct (process_block_step acc tools b st fr Hs) as [evs1 Hstep].
    cbn [process_blocks]. unfold bind at 1 2 3.
    destruct (process_block ext py_str acc tools b (st, fr)) as [[[] | e] [st1 fr1]];
      cbn [fst snd] in *.
    + assert (Hs1 : session st1 = true).
      { inversion Hstep; subst; try assumption; reflexivity. }
      destruct (IH st1 fr1 Hs1) as [evs2 Hsteps].
      exists (evs1 ++ evs2). eapply steps_next; eassumption.
    + exists evs1. apply steps_raised. exact Hstep.
Qed.

(** *** What a run of the loop leaves in the log *)

Lemma step_log (acc : loc) (tools : list json) (b : ContentBlock) (st st' : St W)
    (fr fr' : Frame) (r : outcome unit) (evs : list Event) :
  step ext py_str acc tools b st fr r st' fr' evs ->
  log st' = log st ++ evs /\ session st' = session st.
Proof.
  destruct 1; cbn; rewrite ?app_nil_r; split; reflexivity.
Qed.

Lemma steps_log (acc : loc) (tools : list json) (blocks : list ContentBlock)
    (st st' : St W) (fr fr' : Frame) (r : outcome unit) (evs : list Event) :
  steps ext py_str acc tools blocks st fr r st' fr' evs ->
  log st' = log st ++ evs /\ session st' = session st.
Proof.
  induction 1 as [st fr | b rest st st' fr fr' e evs Hstep
                 | b rest st st1 st' fr fr1 fr' r evs1 evs2 Hstep Hrest IH].
  - rewrite app_nil_r. split; reflexivity.
  - eapply step_log, Hstep.
  - destruct (step_log _ _ _ _ _ _ _ _ _ Hstep) as [Hlog1 Hs1].
    destruct IH as [Hlog2 Hs2]. split; [| congruence].
    rewrite Hlog2, Hlog1, app_assoc. reflexivity.
Qed.

Lemma call_log_app (evs1 evs2 : list Event) :
  call_log (evs1 ++ evs2) = call_log evs1 ++ call_log evs2.
Proof.
  induction evs1 as [| ev evs1 IH]; [reflexivity |].
  destruct ev; cbn; rewrite ?IH; reflexivity.
Qed.

Lemma completions_app (evs1 evs2 : list Event) :
  completions (evs1 ++ evs2) = completions evs1 ++ completions evs2.
Proof.
  induction evs1 as [| ev evs1 IH]; [reflexivity |].
  destruct ev; cbn; rewrite ?IH; reflexivity.
Qed.

Lemma count_tool_use_requests (blocks : list ContentBlock) :
  count_tool_use blocks = length (tool_requests blocks).
Proof.
  induction blocks as [| b rest IH]; [reflexivity |].
  destruct b; cbn; rewrite IH; reflexivity.
Qed.

(** A turn that goes through asks for exactly the calls of its block. *)
Lemma step_returned (acc : loc) (tools : list json) (b : ContentBlock) (st st' : St W)
    (fr fr' : Frame) (evs : list Event) :
  step ext py_str acc tools b st fr (Returned tt) st' fr' evs ->
  call_log evs = tool_requests [b]
  /\ length (completions evs) = count_tool_use [b]
  /\ forallb event_ok evs = true
  /\ forall (rest : list ContentBlock) (cs : list (outcome (list ContentBlock))),
       final_text fr' ++ expected_output py_str rest cs
       = final_text fr ++ expected_output py_str (b :: rest) (completions evs ++ cs).
Proof.
  inversion 1; subst.
  - split; [| split; [| split]]; try reflexivity.
    intros rest cs. cbn. rewrite <- app_assoc. reflexivity.
  - split; [| split; [| split]]; destruct b; try discriminate; reflexivity.
  - match goal with H : first_text ?response = Returned _ |- _ =>
      destruct response as [| [t' | | |] more]; try discriminate; injection H as ->
    end.
    split; [| split; [| split]]; try reflexivity.
    intros rest cs. cbn. rewrite <- !app_assoc. reflexivity.
Qed.

(** Whatever its outcome, a turn calls at most the tool of its block, and
    asks for a continuation only after such a call. *)
Lemma step_calls (acc : loc) (tools : list json) (b : ContentBlock) (st st' : St W)
    (fr fr' : Frame) (r : outcome unit) (evs : list Event) :
  step ext py_str acc tools b st fr r st' fr' evs ->
  call_log evs = tool_requests [b] /\ length (completions evs) <= count_tool_use [b].
Proof.
  destruct 1; cbn; try (split; [reflexivity | lia]).
  destruct b; try discriminate; split; reflexivity || lia.
Qed.

Lemma steps_returned (acc : loc) (tools : list json) (blocks : list ContentBlock)
    (st st' : St W) (fr fr' : Frame) (evs : list Event) :
  steps ext py_str acc tools blocks st fr (Returned tt) st' fr' evs ->
  call_log evs = tool_requests blocks
  /\ length (completions evs) = count_tool_use blocks
  /\ forallb event_ok evs = true
  /\ final_text fr' = final_text fr ++ expected_output py_str blocks (completions evs).
Proof.
  intros H. remember (Returned tt) as r eqn:Hr.
  induction H as [st fr | b rest st st' fr fr' e evs Hstep
                 | b rest st st1 st' fr fr1 fr' r evs1 evs2 Hstep Hrest IH].
  - cbn. rewrite app_nil_r. split; [| split; [| split]]; reflexivity.
  - discriminate.
  - destruct (IH Hr) as (Hcalls & Hcount & Hok & Hout).
    destruct (step_returned _ _ _ _ _ _ _ _ Hstep) as (Hcalls1 & Hcount1 & Hok1 & Hout1).
    rewrite call_log_app, completions_app, length_app, forallb_app.
    rewrite Hcalls, Hcalls1, Hcount, Hcount1, Hok, Hok1.
    split; [| split; [| split]].
    + destruct b; reflexivity.
    + cbn. lia.
    + reflexivity.
    + rewrite Hout. apply Hout1.
Qed.

Lemma steps_calls (acc : loc) (tools : list json) (blocks : list ContentBlock)
    (st st' : St W) (fr fr' : Frame) (r : outcome unit) (evs : list Event) :
  steps ext py_str acc tools blocks st fr r st' fr' evs ->
  call_log evs `prefix_of` tool_requests blocks
  /\ length (completions evs) <= count_tool_use blocks.
Proof.
  induction 1 as [st fr | b rest st st' fr fr' e evs Hstep
                 | b rest st st1 st' fr fr1 fr' r evs1 evs2 Hstep Hrest IH].
  - split; [reflexivity | cbn; lia].
  - destruct (step_calls _ _ _ _ _ _ _ _ _ Hstep) as [Hcalls Hcount]. split.
    + rewrite Hcalls. exists (tool_requests rest). destruct b; reflexivity.
    + cbn in *. lia.
  - destruct (step_calls _ _ _ _ _ _ _ _ _ Hstep) as [Hcalls Hcount].
    destruct IH as [[k Hk] Hcount2]. split.
    + exists k. rewrite call_log_app, Hcalls, <- app_assoc, <- Hk.
      destruct b; reflexivity.
    + rewrite completions_app, length_app. cbn in *. lia.
Qed.

(** When every collaborator call of a run went well, the run returned. *)
Lemma steps_ok_returned (acc : loc) (tools : list json) (blocks : list ContentBlock)
    (st st' : St W) (fr fr' : Frame) (r : outcome unit) (evs : list Event) :
  steps ext py_str acc tools blocks st fr r st' fr' evs ->
  forallb event_ok evs = true -> r = Returned tt.
Proof.
  induction 1 as [st fr | b rest st st' fr fr' e evs Hstep
                 | b rest st st1 st' fr fr1 fr' r evs1 evs2 Hstep Hrest IH].
  - reflexivity.
  - inversion Hstep; subst; cbn; try discriminate.
    match goal with H : first_text ?response = Raised _ |- _ =>
      destruct response as [| [t' | | |] more]; try discriminate
    end.
  - rewrite forallb_app. intros Hok. apply andb_prop in Hok as [_ Hok]. exact (IH Hok).
Qed.

(** A continuation whose first block carries no text ends the run with the
    exception of [response.content[0].text]. *)
Lemma steps_no_text (acc : loc) (tools : list json) (blocks : list ContentBlock)
    (st st' : St W) (fr fr' : Frame) (r : outcome unit) (evs : list Event) :
  steps ext py_str acc tools blocks st fr r st' fr' evs ->
  forall (model : string) (max_tokens : Z) (sent : list SentMessage) (tools' : list json)
         (response : list ContentBlock) (e : exn),
    In (Create model max_tokens sent tools' (Returned response)) evs ->
    first_text response = Raised e ->
    r = Raised e.
Proof.
  induction 1 as [st fr | b rest st st' fr fr' e0 evs Hstep
                 | b rest st st1 st' fr fr1 fr' r evs1 evs2 Hstep Hrest IH];
    intros model max_tokens sent tools' response e Hin Hfirst.
  - destruct Hin.
  - inversion Hstep; subst; cbn in Hin;
      repeat (destruct Hin as [Hin | Hin]; try discriminate); try contradiction.
    injection Hin as _ _ _ _ Hresp. rewrite Hresp in *. congruence.
  - apply in_app_or in Hin as [Hin | Hin].
    + exfalso. inversion Hstep; subst; cbn in Hin;
        repeat (destruct Hin as [Hin | Hin]; try discriminate); try contradiction.
      injection Hin as _ _ _ _ Hresp. rewrite Hresp in *. congruence.
    + eapply IH; eassumption.
Qed.

(** *** From the call to the loop *)

(** Once [list_tools] and the first completion call have returned,
    [process_query] is a run of the loop on the blocks of the response. *)
Lemma run_query_steps (query : string) (st : St W) (tools : list ToolDescriptor)
    (response : list ContentBlock) (w1 w2 : W) :
  session st = true ->
  session_list_tools ext (world st) = (Returned tools, w1) ->
  messages_create ext MODEL 1000 [user_message query] (map tool_schema tools) w1
    = (Returned response, w2) ->
  exists (r : outcome unit) (st' : St W) (fr' : Frame) (evs : list Event),
    steps ext py_str 0 (map tool_schema tools) response
      (with_events st w2
         [ListTools;
          Create MODEL 1000 [user_message query] (map tool_schema tools) (Returned response)])
      (frame1 query) r st' fr' evs
    /\ run_query ext py_str query st
       = (outcome_map (fun _ => join NEWLINE (final_text fr')) r, (st', fr')).
Proof.
  intros Hs Ht Hc.
  set (st0 := with_events st w2
         [ListTools;
          Create MODEL 1000 [user_message query] (map tool_schema tools) (Returned response)]).
  assert (Hs0 : session st0 = true) by exact Hs.
  destruct (process_blocks_steps 0 (map tool_schema tools) response st0 (frame1 query) Hs0)
    as [evs Hsteps].
  destruct (process_blocks ext py_str 0 (map tool_schema tools) response (st0, frame1 query))
    as [r [st' fr']] eqn:Hrun.
  exists r, st', fr', evs. split; [exact Hsteps |].
  unfold run_query, query_body, list_tools, create.
  unfold bind, lift, outer, the_session, call, modify, alloc, frame, ret. cbn.
  rewrite Hs. cbn. rewrite Ht. cbn.
  change [resolve [] {| role := "user"; content := StrContent query |}]
    with [user_message query].
  rewrite Hc. cbn. rewrite <- app_assoc. cbn.
  change (process_blocks ext py_str 0 (map tool_schema tools) response _)
    with (process_blocks ext py_str 0 (map tool_schema tools) response (st0, frame1 query)).
  rewrite Hrun. destruct r; reflexivity.
Qed.

(** The same for what [process_query] hands back: its outcome, and the log
    with the events of the loop after the two of the prelude. *)
Lemma process_query_steps (query : string) (st : St W) (tools : list ToolDescriptor)
    (response : list ContentBlock) (w1 w2 : W) :
  session st = true ->
  session_list_tools ext (world st) = (Returned tools, w1) ->
  messages_create ext MODEL 1000 [user_message query] (map tool_schema tools) w1
    = (Returned response, w2) ->
  exists (r : outcome unit) (st0 st' : St W) (fr' : Frame),
    steps ext py_str 0 (map tool_schema tools) response st0 (frame1 query) r st' fr'
      (loop_events st (snd (process_query ext py_str query st)))
    /\ fst (process_query ext py_str query st)
       = outcome_map (fun _ => join NEWLINE (final_text fr')) r
    /\ run_query ext py_str query st
       = (fst (process_query ext py_str query st), (st', fr'))
    /\ events_since st (snd (process_query ext py_str query st))
       = ListTools
         :: Create MODEL 1000 [user_message query] (map tool_schema tools) (Returned response)
         :: loop_events st (snd (process_query ext py_str query st)).
Proof.
  intros Hs Ht Hc.
  destruct (run_query_steps query st tools response w1 w2 Hs Ht Hc)
    as (r & st' & fr' & evs & Hsteps & Hrun).
  destruct (steps_log _ _ _ _ _ _ _ _ _ Hsteps) as [Hlog _].
  assert (Hsince : events_since st st'
            = ListTools
              :: Create MODEL 1000 [user_message query] (map tool_schema tools)
                   (Returned response) :: evs).
  { unfold events_since. rewrite Hlog. cbn [with_events log].
    rewrite <- app_assoc, drop_app_length. reflexivity. }
  unfold process_query, loop_events. rewrite Hrun. cbn [fst snd]. rewrite Hsince.
  cbn [drop]. eexists r, _, st', fr'. repeat split. exact Hsteps.
Qed.


(** A run that raised had called a tool. *)
Lemma steps_raised_called (acc : loc) (tools : list json) (blocks : list ContentBlock)
    (st st' : St W) (fr fr' : Frame) (r : outcome unit) (evs : list Event) :
  steps ext py_str acc tools blocks st fr r st' fr' evs ->
  forall e : exn, r = Raised e -> call_log evs <> [].
Proof.
  induction 1 as [st fr | b rest st st' fr fr' e0 evs Hstep
                 | b rest st st1 st' fr fr1 fr' r evs1 evs2 Hstep Hrest IH];
    intros e Hr.
  - discriminate.
  - inversion Hstep; subst; discriminate.
  - rewrite call_log_app. intros Happ. apply app_eq_nil in Happ as [_ Hnil].
    exact (IH e Hr Hnil).
Qed.

Lemma tool_requests_in (blocks : list ContentBlock) (id n : string) (i : json) :
  In (ToolUseBlock id n i) blocks -> In (n, i) (tool_requests blocks).
Proof.
  induction blocks as [| b rest IH]; [intros [] |].
  intros [-> | Hin].
  - left. reflexivity.
  - destruct b; cbn; auto.
Qed.

Lemma tool_requests_single (blocks : list ContentBlock) (id n : string) (i : json) :
  count_tool_use blocks = 1 ->
  In (ToolUseBlock id n i) blocks ->
  tool_requests blocks = [(n, i)].
Proof.
  intros Hcount Hin. apply tool_requests_in in Hin.
  rewrite count_tool_use_requests in Hcount.
  destruct (tool_requests blocks) as [| p [| q l]]; try discriminate.
  destruct Hin as [-> | []]. reflexivity.
Qed.

Lemma completions_ok (evs : list Event) :
  forallb event_ok evs = true ->
  forall c : outcome (list ContentBlock),
    In c (completions evs) -> exists t more, c = Returned (TextBlock t :: more).
Proof.
  induction evs as [| ev evs IH]; [intros _ c [] |].
  cbn [forallb]. intros Hok. apply andb_prop in Hok as [Hev Hok].
  destruct ev; cbn [completions]; try exact (IH Hok).
  intros c [<- | Hin]; [| exact (IH Hok c Hin)].
  destruct result as [[| [t | | |] more] |]; try discriminate. eauto.
Qed.

(** With one tool-use block and its continuation, the expected output has
    the trace line and the continuation text side by side. *)
Lemma expected_output_single (blocks : list ContentBlock) (id n : string) (i : json)
    (t : string) (more : list ContentBlock) :
  count_tool_use blocks = 1 ->
  In (ToolUseBlock id n i) blocks ->
  exists l1 l2 : list string,
    expected_output py_str blocks [Returned (TextBlock t :: more)]
    = l1 ++ trace_line py_str n i :: t :: l2.
Proof.
  induction blocks as [| b rest IH]; [intros _ [] |].
  intros Hcount [-> | Hin].
  - exists [], (expected_output py_str rest []). reflexivity.
  - destruct b as [t0 | id0 n0 i0 | id0 c0 | type0 H0]; cbn in Hcount.
    + destruct (IH Hcount Hin) as (l1 & l2 & Heq).
      exists (t0 :: l1), l2. cbn. rewrite Heq. reflexivity.
    + apply tool_requests_in in Hin. rewrite count_tool_use_requests in Hcount.
      destruct (tool_requests rest); [destruct Hin | discriminate].
    + exact (IH Hcount Hin).
    + exact (IH Hcount Hin).
Qed.

(** A run over text blocks alone. *)
Lemma steps_texts (acc : loc) (tools : list json) (ts : list string) :
  forall (st st' : St W) (fr fr' : Frame) (r : outcome unit) (evs : list Event),
    steps ext py_str acc tools (map TextBlock ts) st fr r st' fr' evs ->
    r = Returned tt /\ evs = [] /\ final_text fr' = final_text fr ++ ts.
Proof.
  induction ts as [| t ts IH]; intros st st' fr fr' r evs Hsteps.
  - inversion Hsteps; subst. rewrite app_nil_r. repeat split.
  - inversion Hsteps as [| b rest st1 st2 fr1 fr2 e evs1 Hstep
                         | b rest st1 st2 st3 fr1 fr2 fr3 r1 evs1 evs2 Hstep Hrest]; subst.
    + inversion Hstep.
    + inversion Hstep; subst; [| discriminate].
      destruct (IH _ _ _ _ _ _ Hrest) as (-> & -> & Hout).
      split; [reflexivity | split; [reflexivity |]].
      rewrite Hout. cbn. rewrite <- app_assoc. reflexivity.
Qed.

(** C1: once the first completion has returned, [process_query] asks for at
    most one further completion per tool-use block of that response, calls
    no tool but those of that response, in their order, and returns, when
    it returns, the join of an output buffer that takes from each
    continuation the text of its first block only; it returns whenever
    each tool call returned and each continuation started with text. *)
Theorem process_query_single_hop (query : string) (st : St W)
    (tools : list ToolDescriptor) (response : list ContentBlock) (w1 w2 : W) :
  session st = true ->
  session_list_tools ext (world st) = (Returned tools, w1) ->
  messages_create ext MODEL 1000 [user_message query] (map tool_schema tools) w1
    = (Returned response, w2) ->
  let res := process_query ext py_str query st in
  let evs := loop_events st (snd res) in
  length (completions evs) <= count_tool_use response
  /\ call_log evs `prefix_of` tool_requests response
  /\ (forall s : string,
        fst res = Returned s ->
        s = join NEWLINE (expected_output py_str response (completions evs)))
  /\ (forallb event_ok evs = true -> exists s : string, fst res = Returned s).
Proof.
  intros Hs Ht Hc res evs.
  destruct (process_query_steps query st tools response w1 w2 Hs Ht Hc)
    as (r & st0 & st' & fr' & Hsteps & Hout & _ & _).
  fold res in Hsteps, Hout. fold evs in Hsteps.
  destruct (steps_calls _ _ _ _ _ _ _ _ _ Hsteps) as [Hprefix Hcount].
  split; [exact Hcount | split; [exact Hprefix | split]].
  - intros s Hret. rewrite Hout in Hret. destruct r as [[] | e]; [| discriminate].
    destruct (steps_returned _ _ _ _ _ _ _ _ Hsteps) as (_ & _ & _ & Hfinal).
    injection Hret as <-. rewrite Hfinal. reflexivity.
  - intros Hok. rewrite Hout, (steps_ok_returned _ _ _ _ _ _ _ _ _ Hsteps Hok).
    eexists. reflexivity.
Qed.

(** C2: when the first response holds exactly one tool-use block,
    [call_tool] is invoked exactly once, with the name and the input of
    that block; the text returned holds the line
    [[Calling tool <name> with args <str(input)>]] of line 113, with the
    name and the input of that block, followed on the next line by the text
    of the continuation; and the call returns whenever the tool call
    returned and the continuation started with text. *)
Theorem single_tool_use_query (query : string) (st : St W)
    (tools : list ToolDescriptor) (response : list ContentBlock) (w1 w2 : W)
    (id n : string) (i : json) :
  session st = true ->
  session_list_tools ext (world st) = (Returned tools, w1) ->
  messages_create ext MODEL 1000 [user_message query] (map tool_schema tools) w1
    = (Returned response, w2) ->
  count_tool_use response = 1 ->
  In (ToolUseBlock id n i) response ->
  let res := process_query ext py_str query st in
  let evs := loop_events st (snd res) in
  call_log (events_since st (snd res)) = [(n, i)]
  /\ (forall s : string,
        fst res = Returned s ->
        exists (t : string) (more : list ContentBlock) (before after : string),
          completions evs = [Returned (TextBlock t :: more)]
          /\ s = before
                 +:+ ("[Calling tool " +:+ n +:+ " with args " +:+ py_str i +:+ "]")
                 +:+ NEWLINE +:+ t +:+ after)
  /\ (forallb event_ok evs = true -> exists s : string, fst res = Returned s).
Proof.
  intros Hs Ht Hc Hone Hin res evs.
  destruct (process_query_steps query st tools response w1 w2 Hs Ht Hc)
    as (r & st0 & st' & fr' & Hsteps & Hout & _ & Hsince).
  fold res in Hsteps, Hout, Hsince. fold evs in Hsteps, Hsince.
  pose proof (tool_requests_single response id n i Hone Hin) as Hreq.
  split; [| split].
  - rewrite Hsince. cbn [call_log]. destruct r as [[] | e].
    + destruct (steps_returned _ _ _ _ _ _ _ _ Hsteps) as (Hcalls & _).
      rewrite Hcalls. exact Hreq.
    + destruct (steps_calls _ _ _ _ _ _ _ _ _ Hsteps) as [[k Hk] _].
      pose proof (steps_raised_called _ _ _ _ _ _ _ _ _ Hsteps e eq_refl) as Hne.
      rewrite Hreq in Hk. destruct (call_log evs) as [| p l]; [contradiction |].
      injection Hk as <- Hl. destruct l; [reflexivity | discriminate].
  - intros s Hret. rewrite Hout in Hret. destruct r as [[] | e]; [| discriminate].
    injection Hret as <-.
    destruct (steps_returned _ _ _ _ _ _ _ _ Hsteps) as (_ & Hlen & Hok & Hfinal).
    rewrite Hone in Hlen.
    destruct (completions evs) as [| c [| c' cs]] eqn:Hcs; try discriminate.
    destruct (completions_ok evs Hok c) as (t & more & ->);
      [rewrite Hcs; left; reflexivity |].
    destruct (expected_output_single response id n i t more Hone Hin) as (l1 & l2 & Hexp).
    destruct (join_middle NEWLINE (trace_line py_str n i) t (final_text (frame1 query) ++ l1) l2)
      as (before & after & Hjoin).
    exists t, more, before, after. split; [reflexivity |].
    rewrite Hfinal, Hexp. cbn [frame1 final_text app] in *. exact Hjoin.
  - intros Hok. rewrite Hout, (steps_ok_returned _ _ _ _ _ _ _ _ _ Hsteps Hok).
    eexists. reflexivity.
Qed.

(** C3 (as amended): when the first response consists of text blocks only,
    [process_query] invokes [call_tool] not once and returns the texts of
    the blocks joined by newlines. *)
Theorem text_only_query (query : string) (st : St W)
    (tools : list ToolDescriptor) (ts : list string) (w1 w2 : W) :
  session st = true ->
  session_list_tools ext (world st) = (Returned tools, w1) ->
  messages_create ext MODEL 1000 [user_message query] (map tool_schema tools) w1
    = (Returned (map TextBlock ts), w2) ->
  let res := process_query ext py_str query st in
  fst res = Returned (join NEWLINE ts)
  /\ call_log (events_since st (snd res)) = []
  /\ length (completions (events_since st (snd res))) = 1.
Proof.
  intros Hs Ht Hc res.
  destruct (process_query_steps query st tools (map TextBlock ts) w1 w2 Hs Ht Hc)
    as (r & st0 & st' & fr' & Hsteps & Hout & _ & Hsince).
  fold res in Hsteps, Hout, Hsince.
  destruct (steps_texts _ _ _ _ _ _ _ _ _ Hsteps) as (-> & Hevs & Hfinal).
  rewrite Hsince, Hevs, Hout, Hfinal. repeat split.
Qed.

(** C10: when a continuation comes back with no content, or with a first
    block that is not a text block, [process_query] raises ([IndexError],
    resp. [AttributeError]) and returns no string. *)
Theorem continuation_without_text_raises (query : string) (st : St W)
    (tools : list ToolDescriptor) (response : list ContentBlock) (w1 w2 : W)
    (model : string) (max_tokens : Z) (sent : list SentMessage) (tools' : list json)
    (continuation : list ContentBlock) :
  session st = true ->
  session_list_tools ext (world st) = (Returned tools, w1) ->
  messages_create ext MODEL 1000 [user_message query] (map tool_schema tools) w1
    = (Returned response, w2) ->
  let res := process_query ext py_str query st in
  In (Create model max_tokens sent tools' (Returned continuation))
     (loop_events st (snd res)) ->
  (continuation = [] -> fst res = Raised IndexError)
  /\ (forall (b : ContentBlock) (more : list ContentBlock),
        continuation = b :: more -> is_text b = false -> fst res = Raised AttributeError).
Proof.
  intros Hs Ht Hc res Hin.
  destruct (process_query_steps query st tools response w1 w2 Hs Ht Hc)
    as (r & st0 & st' & fr' & Hsteps & Hout & _ & _).
  fold res in Hsteps, Hout.
  split.
  - intros ->. rewrite Hout.
    rewrite (steps_no_text _ _ _ _ _ _ _ _ _ Hsteps _ _ _ _ _ IndexError Hin eq_refl).
    reflexivity.
  - intros b more -> Hb. rewrite Hout.
    assert (Hfirst : first_text (b :: more) = Raised AttributeError).
    { destruct b; try discriminate; reflexivity. }
    rewrite (steps_no_text _ _ _ _ _ _ _ _ _ Hsteps _ _ _ _ _ _ Hin Hfirst).
    reflexivity.
Qed.

(** *** The shared accumulator *)

Lemma count_tool_use_app (l1 l2 : list ContentBlock) :
  count_tool_use (l1 ++ l2) = count_tool_use l1 + count_tool_use l2.
Proof. induction l1 as [| b l1 IH]; cbn; [reflexivity | rewrite IH; lia]. Qed.

Lemma accumulates_skip (acc : loc) (done : list ContentBlock) (b : ContentBlock) (fr : Frame) :
  is_other_type (block_type b) = true ->
  accumulates acc done fr -> accumulates acc (done ++ [b]) fr.
Proof.
  intros Hother (Hstore & Hmsgs & Hcount). unfold accumulates.
  rewrite List.filter_app, count_tool_use_app.
  destruct b; try discriminate; cbn; rewrite app_nil_r, Nat.add_0_r; auto.
Qed.

Lemma accumulates_text (acc : loc) (done : list ContentBlock) (t : string) (fr : Frame) :
  accumulates acc done fr ->
  accumulates acc (done ++ [TextBlock t]) (append_at acc (TextBlock t) (append_text t fr)).
Proof.
  intros (Hstore & Hmsgs & Hcount). unfold accumulates, append_at, append_text.
  cbn [store messages final_text]. unfold loc, Store in *.
  rewrite List.filter_app, count_tool_use_app, list_lookup_alter_eq, Hstore.
  cbn. rewrite Nat.add_0_r. auto.
Qed.

Lemma filter_assistant_app (l1 l2 : list Message) :
  length (List.filter is_assistant (l1 ++ l2))
  = length (List.filter is_assistant l1) + length (List.filter is_assistant l2).
Proof. rewrite List.filter_app, length_app. reflexivity. Qed.

Lemma accumulates_call (acc : loc) (done : list ContentBlock) (id n : string) (i : json)
    (line : string) (result : json) (fr : Frame) :
  accumulates acc done fr ->
  accumulates acc (done ++ [ToolUseBlock id n i])
    (after_call acc (ToolUseBlock id n i) line id result fr).
Proof.
  intros (Hstore & Hmsgs & Hcount).
  unfold accumulates, after_call, append_message, append_at, append_text.
  cbn [store messages final_text]. unfold loc, Store in *.
  pose proof (lookup_lt_Some _ _ _ Hstore) as Hlt.
  rewrite List.filter_app, count_tool_use_app.
  cbn [List.filter kept is_text is_tool_use orb count_tool_use]. split; [| split].
  - rewrite lookup_app_l by (rewrite length_alter; exact Hlt).
    rewrite list_lookup_alter_eq, Hstore. reflexivity.
  - intros m Hin Hrole. apply in_app_or in Hin as [Hin | [<- | []]].
    + apply in_app_or in Hin as [Hin | [<- | []]]; [auto | reflexivity].
    + discriminate.
  - rewrite !filter_assistant_app, Hcount. cbn. lia.
Qed.

Lemma filter_sent (blocks : Store) (l : list Message) :
  length (List.filter sent_by_assistant (map (resolve blocks) l))
  = length (List.filter is_assistant l).
Proof.
  induction l as [| m l IH]; [reflexivity |].
  cbn [map List.filter].
  change (sent_by_assistant (resolve blocks m)) with (is_assistant m).
  destruct (is_assistant m); cbn [length]; rewrite IH; reflexivity.
Qed.

(** The messages a completion call reads, resolved against the store. *)
Lemma shares_sent (acc : loc) (blocks : list ContentBlock) (fr : Frame) :
  accumulates acc blocks fr -> shares blocks (sent_messages fr).
Proof.
  intros (Hstore & Hmsgs & Hcount). unfold shares, sent_messages. split.
  - intros m Hin Hrole. apply in_map_iff in Hin as (m0 & <- & Hin0).
    unfold resolve. cbn. rewrite (Hmsgs m0 Hin0 Hrole), Hstore. reflexivity.
  - rewrite filter_sent. exact Hcount.
Qed.

Lemma step_accumulates (acc : loc) (tools : list json) (b : ContentBlock) (st st' : St W)
    (fr fr' : Frame) (r : outcome unit) (evs : list Event) (done : list ContentBlock) :
  step ext py_str acc tools b st fr r st' fr' evs ->
  accumulates acc done fr ->
  (accumulates acc (done ++ [b]) fr' \/ (r <> Returned tt /\ accumulates acc done fr'))
  /\ forall sent : list SentMessage, In sent (sent_log evs) -> shares (done ++ [b]) sent.
Proof.
  intros Hstep Hacc.
  destruct Hstep; cbn [sent_log].
  - split; [left; apply accumulates_text, Hacc | intros sent []].
  - split; [left; apply accumulates_skip; assumption | intros sent []].
  - split; [right; split; [discriminate | exact Hacc] | intros sent []].
  - split; [left; apply accumulates_call, Hacc |].
    intros sent [<- | []]. eapply shares_sent, accumulates_call, Hacc.
  - split; [left; apply accumulates_call, Hacc |].
    intros sent [<- | []]. eapply shares_sent, accumulates_call, Hacc.
  - split.
    + left. pose proof (accumulates_call acc done id n i (trace_line py_str n i) result fr Hacc)
        as (Hstore' & Hmsgs' & Hcount').
      split; [exact Hstore' | split; [exact Hmsgs' | exact Hcount']].
    + intros sent [<- | []]. eapply shares_sent, accumulates_call, Hacc.
Qed.

Lemma sent_log_app (evs1 evs2 : list Event) :
  sent_log (evs1 ++ evs2) = sent_log evs1 ++ sent_log evs2.
Proof.
  induction evs1 as [| ev evs1 IH]; [reflexivity |].
  destruct ev; cbn; rewrite ?IH; reflexivity.
Qed.

Lemma steps_accumulates (acc : loc) (tools : list json) (blocks : list ContentBlock)
    (st st' : St W) (fr fr' : Frame) (r : outcome unit) (evs : list Event) :
  steps ext py_str acc tools blocks st fr r st' fr' evs ->
  forall done : list ContentBlock,
    accumulates acc done fr ->
    (exists k : nat, accumulates acc (done ++ firstn k blocks) fr')
    /\ (r = Returned tt -> accumulates acc (done ++ blocks) fr')
    /\ forall sent : list SentMessage,
         In sent (sent_log evs) -> exists k : nat, shares (done ++ firstn k blocks) sent.
Proof.
  induction 1 as [st fr | b rest st st' fr fr' e evs Hstep
                 | b rest st st1 st' fr fr1 fr' r evs1 evs2 Hstep Hrest IH];
    intros done Hacc.
  - split; [exists 0; cbn | split; [intros _ |]]; rewrite ?app_nil_r; try exact Hacc.
    intros sent [].
  - destruct (step_accumulates _ _ _ _ _ _ _ _ _ done Hstep Hacc) as [Hfr Hsent].
    split; [| split; [discriminate |]].
    + destruct Hfr as [Hfr | [_ Hfr]]; [exists 1 | exists 0; cbn; rewrite app_nil_r]; exact Hfr.
    + intros sent Hin. exists 1. exact (Hsent sent Hin).
  - destruct (step_accumulates _ _ _ _ _ _ _ _ _ done Hstep Hacc) as [Hfr Hsent].
    destruct Hfr as [Hfr | [Hne _]]; [| congruence].
    destruct (IH (done ++ [b]) Hfr) as ((k & Hk) & Hret & Hsent2).
    split; [| split].
    + exists (S k). cbn. rewrite <- app_assoc in Hk. exact Hk.
    + intros Hr. specialize (Hret Hr). rewrite <- app_assoc in Hret. exact Hret.
    + intros sent Hin. rewrite sent_log_app in Hin. apply in_app_or in Hin as [Hin | Hin].
      * exists 1. exact (Hsent sent Hin).
      * destruct (Hsent2 sent Hin) as (k' & Hk'). exists (S k').
        cbn. rewrite <- app_assoc in Hk'. exact Hk'.
Qed.

Lemma accumulates_frame1 (query : string) : accumulates 0 [] (frame1 query).
Proof. unfold accumulates. cbn. split; [reflexivity | split; [| reflexivity]].
  intros m [<- | []]. discriminate.
Qed.

(** C9: the assistant messages that [process_query] appends all have the
    one accumulator list (location 0) as their content.  So whenever a
    completion is asked for, each assistant message of the conversation,
    however early it was appended, shows every block kept up to then; and
    when the call returns, each of the assistant messages (one per
    tool-use block, so two or more) shows every text and tool-use block of
    the response. *)
Theorem assistant_messages_share_accumulator (query : string) (st : St W)
    (tools : list ToolDescriptor) (response : list ContentBlock) (w1 w2 : W) :
  session st = true ->
  session_list_tools ext (world st) = (Returned tools, w1) ->
  messages_create ext MODEL 1000 [user_message query] (map tool_schema tools) w1
    = (Returned response, w2) ->
  2 <= count_tool_use response ->
  let res := run_query ext py_str query st in
  let fr' := snd (snd res) in
  let evs := loop_events st (fst (snd res)) in
  (forall m : Message, In m (messages fr') -> is_assistant m = true -> content m = ListRef 0)
  /\ (exists k : nat, store fr' !! 0 = Some (List.filter kept (firstn k response)))
  /\ (forall sent : list SentMessage,
        In sent (sent_log evs) -> exists k : nat, shares (firstn k response) sent)
  /\ (forall s : string,
        fst res = Returned s ->
        store fr' !! 0 = Some (List.filter kept response)
        /\ 2 <= length (List.filter is_assistant (messages fr'))
        /\ shares response (sent_messages fr')).
Proof.
  intros Hs Ht Hc Htwo res fr' evs.
  destruct (process_query_steps query st tools response w1 w2 Hs Ht Hc)
    as (r & st0 & st' & fr0 & Hsteps & Hout & Hrun & _).
  assert (Hres : res = (fst (process_query ext py_str query st), (st', fr0))) by exact Hrun.
  assert (Hfr : fr' = fr0) by (unfold fr'; rewrite Hres; reflexivity).
  assert (Hevs : evs = loop_events st (snd (process_query ext py_str query st))) by reflexivity.
  rewrite <- Hevs in Hsteps. rewrite Hfr.
  destruct (steps_accumulates _ _ _ _ _ _ _ _ _ Hsteps [] (accumulates_frame1 query))
    as ((k & Hk) & Hret & Hsent).
  cbn [app] in *.
  split; [| split; [| split]].
  - exact (proj1 (proj2 Hk)).
  - exists k. exact (proj1 Hk).
  - exact Hsent.
  - intros s Hs'. rewrite Hres in Hs'. cbn [fst] in Hs'. rewrite Hout in Hs'.
    destruct r as [[] | e]; [| discriminate].
    pose proof (Hret eq_refl) as Hacc.
    split; [exact (proj1 Hacc) | split].
    + rewrite (proj2 (proj2 Hacc)). exact Htwo.
    + eapply shares_sent, Hacc.
Qed.

(** *** Connecting, the chat loop and the cleanup *)

Lemma cleanups_app (evs1 evs2 : list Event) :
  cleanups (evs1 ++ evs2) = cleanups evs1 + cleanups evs2.
Proof. induction evs1 as [| ev evs1 IH]; cbn; [reflexivity | rewrite IH; lia]. Qed.

Section NoCleanup.

Context {S : Type} (view : S -> list Event).

Lemma quiet_ret {A : Type} (a : A) : adds_no_cleanup view (ret a).
Proof. intros s. exists []. cbn. rewrite app_nil_r. split; reflexivity. Qed.

Lemma quiet_raise {A : Type} (e : exn) : adds_no_cleanup view (@raise S A e).
Proof. intros s. exists []. cbn. rewrite app_nil_r. split; reflexivity. Qed.

Lemma quiet_lift {A : Type} (o : outcome A) : adds_no_cleanup view (lift o).
Proof. intros s. exists []. cbn. rewrite app_nil_r. split; reflexivity. Qed.

Lemma quiet_bind {A B : Type} (m : M S A) (k : A -> M S B) :
  adds_no_cleanup view m ->
  (forall a : A, adds_no_cleanup view (k a)) ->
  adds_no_cleanup view (bind m k).
Proof.
  intros Hm Hk s. unfold bind. destruct (Hm s) as (evs1 & Hlog1 & Hc1).
  destruct (m s) as [[a | e] s1]; cbn [snd] in *.
  - destruct (Hk a s1) as (evs2 & Hlog2 & Hc2).
    exists (evs1 ++ evs2). rewrite Hlog2, Hlog1, app_assoc, cleanups_app, Hc1, Hc2.
    split; reflexivity.
  - exists evs1. split; assumption.
Qed.

Lemma quiet_if {A : Type} (c : bool) (m1 m2 : M S A) :
  adds_no_cleanup view m1 -> adds_no_cleanup view m2 ->
  adds_no_cleanup view (if c then m1 else m2).
Proof. destruct c; auto. Qed.

End NoCleanup.

Lemma quiet_call {A : Type} (op : W -> outcome A * W) (ev : outcome A -> Event) :
  (forall r : outcome A, is_cleanup (ev r) = false) ->
  adds_no_cleanup log (call op ev).
Proof.
  intros Hev st. eexists [_]. cbn. rewrite Hev. split; reflexivity.
Qed.

Lemma quiet_emit (ev : Event) : is_cleanup ev = false -> adds_no_cleanup log (@emit W ev).
Proof. intros Hev st. exists [ev]. cbn. rewrite Hev. split; reflexivity. Qed.

Lemma quiet_the_session : adds_no_cleanup log (@the_session W).
Proof.
  intros st. exists []. unfold the_session. rewrite app_nil_r.
  destruct (session st); split; reflexivity.
Qed.

Lemma quiet_set_session : adds_no_cleanup log (@set_session W).
Proof. intros st. exists []. cbn. rewrite app_nil_r. split; reflexivity. Qed.

Lemma quiet_outer {A : Type} (m : M (St W) A) :
  adds_no_cleanup log m -> adds_no_cleanup pq_log (outer m).
Proof. intros Hm [st fr]. exact (Hm st). Qed.

Lemma quiet_modify (f : Frame -> Frame) : adds_no_cleanup pq_log (@modify W f).
Proof. intros s. exists []. cbn. unfold pq_log. rewrite app_nil_r. split; reflexivity. Qed.

Lemma quiet_alloc (blocks : list ContentBlock) : adds_no_cleanup pq_log (@alloc W blocks).
Proof. intros s. exists []. cbn. unfold pq_log. rewrite app_nil_r. split; reflexivity. Qed.

Lemma quiet_frame : adds_no_cleanup pq_log (@frame W).
Proof. intros s. exists []. cbn. unfold pq_log. rewrite app_nil_r. split; reflexivity. Qed.

Ltac quiet :=
  repeat first
    [ apply quiet_bind; [| intros ?]
    | apply quiet_if
    | apply quiet_ret
    | apply quiet_raise
    | apply quiet_lift
    | apply quiet_call; intros ?; reflexivity
    | apply quiet_emit; reflexivity
    | apply quiet_the_session
    | apply quiet_set_session
    | apply quiet_outer
    | apply quiet_modify
    | apply quiet_alloc
    | apply quiet_frame ].

Lemma quiet_connect_to_server (path : string) :
  adds_no_cleanup log (connect_to_server ext path).
Proof. unfold connect_to_server. quiet. Qed.

Lemma quiet_process_block (acc : loc) (tools : list json) (b : ContentBlock) :
  adds_no_cleanup pq_log (process_block ext py_str acc tools b).
Proof.
  unfold process_block. quiet.
Qed.

Lemma quiet_process_blocks (acc : loc) (tools : list json) (blocks : list ContentBlock) :
  adds_no_cleanup pq_log (process_blocks ext py_str acc tools blocks).
Proof.
  induction blocks as [| b rest IH]; cbn [process_blocks].
  - apply quiet_ret.
  - apply quiet_bind; [apply quiet_process_block | intros _; exact IH].
Qed.

Lemma quiet_process_query (query : string) :
  adds_no_cleanup log (process_query ext py_str query).
Proof.
  assert (Hbody : adds_no_cleanup pq_log (query_body ext py_str)).
  { unfold query_body.
    apply quiet_bind; [quiet | intros tools].
    apply quiet_bind; [quiet | intros fr].
    apply quiet_bind; [quiet | intros response].
    apply quiet_bind; [quiet | intros acc].
    apply quiet_bind; [apply quiet_process_blocks | intros _].
    quiet. }
  intros st. exact (Hbody (st, frame0 query)).
Qed.

Lemma quiet_chat_turn : adds_no_cleanup log (chat_turn ext py_str).
Proof.
  unfold chat_turn. apply quiet_bind; [quiet | intros line].
  apply quiet_if; [quiet |].
  apply quiet_bind; [apply quiet_process_query | intros response]. quiet.
Qed.

Lemma chat_turns_log (fuel : nat) :
  forall (st st' : St W) (r : outcome unit),
    chat_turns ext py_str fuel st = Some (r, st') ->
    exists evs : list Event, log st' = log st ++ evs /\ cleanups evs = 0.
Proof.
  induction fuel as [| fuel IH]; intros st st' r; [discriminate |].
  cbn [chat_turns]. destruct (quiet_chat_turn st) as (evs1 & Hlog1 & Hc1).
  destruct (chat_turn ext py_str st) as [[[|] | e] st1]; cbn [snd] in Hlog1.
  - intros [= <- <-]. exists evs1. split; assumption.
  - intros Hloop. destruct (IH _ _ _ Hloop) as (evs2 & Hlog2 & Hc2).
    exists (evs1 ++ evs2). rewrite Hlog2, Hlog1, app_assoc, cleanups_app, Hc1, Hc2.
    split; reflexivity.
  - destruct (is_Exception e).
    + intros Hloop. destruct (IH _ _ _ Hloop) as (evs2 & Hlog2 & Hc2).
      exists (evs1 ++ PrintError e :: evs2). cbn [emit snd log] in Hlog2.
      rewrite Hlog2, Hlog1, <- !app_assoc, cleanups_app, Hc1. cbn. rewrite Hc2.
      split; reflexivity.
    + intros [= <- <-]. exists evs1. split; assumption.
Qed.

Lemma chat_loop_log (fuel : nat) :
  forall (st st' : St W) (r : outcome unit),
    chat_loop ext py_str fuel st = Some (r, st') ->
    exists evs : list Event, log st' = log st ++ evs /\ cleanups evs = 0.
Proof.
  intros st st' r Hloop. unfold chat_loop in Hloop.
  destruct (chat_turns_log fuel _ _ _ Hloop) as (evs & Hlog & Hc).
  exists (Print BANNER :: Print INSTRUCTIONS :: evs).
  rewrite Hlog. cbn. rewrite <- !app_assoc. split; [reflexivity | exact Hc].
Qed.

Lemma chat_turns_more_fuel (fuel : nat) :
  forall (st : St W) (x : outcome unit * St W),
    chat_turns ext py_str fuel st = Some x ->
    chat_turns ext py_str (S fuel) st = Some x.
Proof.
  induction fuel as [| fuel IH]; intros st x; [discriminate |].
  intros Hloop. cbn [chat_turns] in Hloop.
  change (chat_turns ext py_str (S (S fuel)) st)
    with (match chat_turn ext py_str st with
          | (Returned true, st') => Some (Returned tt, st')
          | (Returned false, st') => chat_turns ext py_str (S fuel) st'
          | (Raised e, st') =>
              if is_Exception e
              then chat_turns ext py_str (S fuel) (snd (emit (PrintError e) st'))
              else Some (Raised e, st')
          end).
  destruct (chat_turn ext py_str st) as [[[|] | e] st1]; auto.
  destruct (is_Exception e); auto.
Qed.

(** More fuel does not change a loop that has ended. *)
Lemma chat_loop_more_fuel (fuel : nat) :
  forall (st : St W) (x : outcome unit * St W),
    chat_loop ext py_str fuel st = Some x ->
    chat_loop ext py_str (S fuel) st = Some x.
Proof.
  intros st x. unfold chat_loop. apply chat_turns_more_fuel.
Qed.

Lemma main_more_fuel (fuel : nat) (argv : list string) (st : St W)
    (x : outcome unit * St W) :
  main ext py_str fuel argv st = Some x -> main ext py_str (S fuel) argv st = Some x.
Proof.
  unfold main. destruct (length argv <? 2)%nat; [auto |].
  destruct (connect_to_server ext (nth 1 argv EmptyString) st) as [[[] | e] st1]; [| auto].
  destruct (chat_loop ext py_str fuel st1) as [y |] eqn:Hloop; [| discriminate].
  rewrite (chat_loop_more_fuel fuel st1 y Hloop). auto.
Qed.

Lemma endswith_py_not_js (path : string) :
  endswith path ".py" = true -> endswith path ".js" = false.
Proof.
  unfold endswith. cbn [String.length].
  destruct (3 <=? String.length path)%nat; [| discriminate].
  intros Hpy. apply String.eqb_eq in Hpy. rewrite Hpy. reflexivity.
Qed.

(** Once the suffix is accepted, the transport is the first thing asked
    for, with the command chosen from the suffix. *)
Lemma connect_to_server_spawns (path : string) (st : St W) :
  endswith path ".py" || endswith path ".js" = true ->
  exists evs : list Event,
    events_since st (snd (connect_to_server ext path st))
    = StdioClient (if endswith path ".py" then "python" else "node") [path] :: evs.
Proof.
  intros Hok. unfold connect_to_server. rewrite Hok. cbn [negb].
  set (command := if endswith path ".py" then "python" else "node").
  unfold bind at 1.
  destruct (call (stdio_client ext command [path]) (fun _ => StdioClient command [path]) st)
    as [[[] | e] st1] eqn:Hcall;
    assert (Hlog1 : log st1 = log st ++ [StdioClient command [path]])
      by (unfold call in Hcall; injection Hcall as _ <-; reflexivity).
  - match goal with |- context [snd (?m st1)] =>
      assert (Hrest : adds_no_cleanup log m) by quiet;
      destruct (Hrest st1) as (evs & Hlog & _)
    end.
    exists evs. unfold events_since. rewrite Hlog, Hlog1, <- app_assoc, drop_app_length.
    reflexivity.
  - exists []. unfold events_since. cbn [snd]. rewrite Hlog1, drop_app_length. reflexivity.
Qed.

(** C4: a path that ends in neither [".py"] nor [".js"] makes
    [connect_to_server] raise its configuration error ([ValueError]) with
    nothing done: no event is logged, so no transport and no child process
    were asked for.  A path ending in [".py"] starts the transport with
    [python], one ending in [".js"] with [node]. *)
Theorem connect_to_server_suffix (path : string) (st : St W) :
  (endswith path ".py" = false -> endswith path ".js" = false ->
   connect_to_server ext path st = (Raised (ValueError CONNECT_ERROR), st))
  /\ (endswith path ".py" = true ->
      exists evs : list Event,
        events_since st (snd (connect_to_server ext path st))
        = StdioClient "python" [path] :: evs)
  /\ (endswith path ".js" = true ->
      exists evs : list Event,
        events_since st (snd (connect_to_server ext path st))
        = StdioClient "node" [path] :: evs).
Proof.
  split; [| split].
  - intros Hpy Hjs. unfold connect_to_server. rewrite Hpy, Hjs. reflexivity.
  - intros Hpy. destruct (connect_to_server_spawns path st) as (evs & Hevs).
    + rewrite Hpy. reflexivity.
    + rewrite Hpy in Hevs. exists evs. exact Hevs.
  - intros Hjs. destruct (connect_to_server_spawns path st) as (evs & Hevs).
    + rewrite Hjs. apply orb_true_r.
    + destruct (endswith path ".py") eqn:Hpy.
      * rewrite (endswith_py_not_js path Hpy) in Hjs. discriminate.
      * exists evs. exact Hevs.
Qed.

(** C8 (as amended): when a script path is given, every way out of [main]
    (the chat loop ended by [quit], an exception that left the chat loop,
    a failed connection) has invoked the cleanup exactly once, as the last
    thing done. *)
Theorem main_cleans_up_once (fuel : nat) (argv : list string) (st st' : St W)
    (r : outcome unit) :
  2 <= length argv ->
  main ext py_str fuel argv st = Some (r, st') ->
  cleanups (events_since st st') = 1
  /\ exists evs : list Event, events_since st st' = evs ++ [Cleanup].
Proof.
  intros Hargv. unfold main.
  destruct (Nat.ltb_spec (length argv) 2) as [Hlt | _]; [lia |].
  assert (Htried : forall (r0 : outcome unit) (st0 : St W),
            match connect_to_server ext (nth 1 argv EmptyString) st with
            | (Returned _, st1) => chat_loop ext py_str fuel st1
            | (Raised e, st1) => Some (Raised e, st1)
            end = Some (r0, st0) ->
            exists evs : list Event, log st0 = log st ++ evs /\ cleanups evs = 0).
  { intros r0 st0.
    destruct (quiet_connect_to_server (nth 1 argv EmptyString) st) as (evs1 & Hlog1 & Hc1).
    destruct (connect_to_server ext (nth 1 argv EmptyString) st) as [[[] | e] st1]; cbn [snd] in Hlog1.
    - intros Hloop. destruct (chat_loop_log _ _ _ _ Hloop) as (evs2 & Hlog2 & Hc2).
      exists (evs1 ++ evs2). rewrite Hlog2, Hlog1, app_assoc, cleanups_app, Hc1, Hc2.
      split; reflexivity.
    - intros [= <- <-]. exists evs1. split; assumption. }
  destruct (match connect_to_server ext (nth 1 argv EmptyString) st with
            | (Returned _, st1) => chat_loop ext py_str fuel st1
            | (Raised e, st1) => Some (Raised e, st1)
            end) as [[r0 st0] |]; [| discriminate].
  destruct (Htried r0 st0 eq_refl) as (evs & Hlog & Hc).
  unfold try_finally, lift, cleanup, call. cbn [fst snd].
  intros Hmain.
  assert (Hlog' : log st' = log st0 ++ [Cleanup]).
  { destruct (exit_stack_aclose ext (world st0)) as [[[] | e] w'];
      cbn [fst snd] in Hmain; injection Hmain as _ <-; reflexivity. }
  unfold events_since. rewrite Hlog', Hlog, <- app_assoc, drop_app_length, cleanups_app, Hc.
  split; [reflexivity | exists evs; reflexivity].
Qed.

End Facts.

(** Runs with the scripted collaborators. *)

Lemma process_query_single_hop_witness :
  let res := process_query Demo.scripted Demo.str_args "hi" Demo.one_hop in
  let evs := loop_events Demo.one_hop (snd res) in
  count_tool_use Demo.one_tool = 1
  /\ length (completions evs) <= 1
  /\ call_log evs `prefix_of` [("get_alerts", Demo.args_CA)]
  /\ (forall s : string,
        fst res = Returned s ->
        s = join NEWLINE
              (expected_output Demo.str_args Demo.one_tool (completions evs))).
Proof.
  pose proof (process_query_single_hop Demo.scripted Demo.str_args "hi" Demo.one_hop
                [Demo.weather_tool] Demo.one_tool _ _ eq_refl eq_refl eq_refl)
    as (Hcount & Hcalls & Hout & _).
  split; [reflexivity | split; [exact Hcount | split; [exact Hcalls | exact Hout]]].
Defined.

Lemma single_tool_use_query_witness :
  let res := process_query Demo.scripted Demo.str_args "hi" Demo.one_hop in
  call_log (events_since Demo.one_hop (snd res)) = [("get_alerts", Demo.args_CA)]
  /\ fst res = Returned "Let me check.
[Calling tool get_alerts with args {'state': 'CA'}]
No alerts."
  /\ exists (t : string) (more : list ContentBlock) (before after : string),
       completions (loop_events Demo.one_hop (snd res)) = [Returned (TextBlock t :: more)]
       /\ "Let me check.
[Calling tool get_alerts with args {'state': 'CA'}]
No alerts."
          = before +:+ "[Calling tool get_alerts with args {'state': 'CA'}]"
            +:+ NEWLINE +:+ t +:+ after.
Proof.
  pose proof (single_tool_use_query Demo.scripted Demo.str_args "hi" Demo.one_hop
                [Demo.weather_tool] Demo.one_tool _ _ "toolu_1" "get_alerts" Demo.args_CA
                eq_refl eq_refl eq_refl eq_refl
                (or_intror (or_intror (or_introl eq_refl))))
    as (Hcalls & Htext & _).
  split; [exact Hcalls | split; [reflexivity | exact (Htext _ eq_refl)]].
Defined.

Lemma text_only_query_witness :
  fst (process_query Demo.scripted Demo.str_args "hi" Demo.chatty)
  = Returned (join NEWLINE ["Hello"; "world"]).
Proof.
  exact (proj1 (text_only_query Demo.scripted Demo.str_args "hi" Demo.chatty
                  [Demo.weather_tool] ["Hello"; "world"] _ _ eq_refl eq_refl eq_refl)).
Defined.

(** C3 (as stated) fails: two text blocks come back with a newline between
    them, which their concatenation does not have. *)
Lemma text_blocks_not_concatenated :
  fst (process_query Demo.scripted Demo.str_args "hi" Demo.chatty) = Returned "Hello
world"
  /\ fst (process_query Demo.scripted Demo.str_args "hi" Demo.chatty)
     <> Returned (String.concat EmptyString (texts Demo.two_texts)).
Proof. split; [reflexivity | discriminate]. Qed.

Lemma continuation_without_text_raises_witness :
  fst (process_query Demo.scripted Demo.str_args "hi" Demo.silent) = Raised IndexError
  /\ fst (process_query Demo.scripted Demo.str_args "hi" Demo.insistent)
     = Raised AttributeError.
Proof.
  split.
  - refine (proj1 (continuation_without_text_raises Demo.scripted Demo.str_args "hi"
                     Demo.silent [Demo.weather_tool] Demo.one_tool _ _ MODEL 1000
                     (sent_messages
                        (after_call 0 (ToolUseBlock "toolu_1" "get_alerts" Demo.args_CA)
                           (trace_line Demo.str_args "get_alerts" Demo.args_CA) "toolu_1"
                           (JStr "No active alerts")
                           (append_at 0 (TextBlock "Let me check.")
                              (append_text "Let me check." (frame1 "hi")))))
                     (map tool_schema [Demo.weather_tool]) []
                     eq_refl eq_refl eq_refl _) eq_refl).
    vm_compute. right. left. reflexivity.
  - refine (proj2 (continuation_without_text_raises Demo.scripted Demo.str_args "hi"
                     Demo.insistent [Demo.weather_tool] Demo.one_tool _ _ MODEL 1000
                     (sent_messages
                        (after_call 0 (ToolUseBlock "toolu_1" "get_alerts" Demo.args_CA)
                           (trace_line Demo.str_args "get_alerts" Demo.args_CA) "toolu_1"
                           (JStr "No active alerts")
                           (append_at 0 (TextBlock "Let me check.")
                              (append_text "Let me check." (frame1 "hi")))))
                     (map tool_schema [Demo.weather_tool])
                     [ToolUseBlock "toolu_9" "get_forecast" JNull]
                     eq_refl eq_refl eq_refl _) _ _ eq_refl eq_refl).
    vm_compute. right. left. reflexivity.
Defined.

Lemma assistant_messages_share_accumulator_witness :
  let res := run_query Demo.scripted Demo.str_args "hi" Demo.two_hops in
  count_tool_use Demo.two_tools = 2
  /\ (forall m : Message,
        In m (messages (snd (snd res))) -> is_assistant m = true -> content m = ListRef 0)
  /\ (forall sent : list SentMessage,
        In sent (sent_log (loop_events Demo.two_hops (fst (snd res)))) ->
        exists k : nat, shares (firstn k Demo.two_tools) sent).
Proof.
  pose proof (assistant_messages_share_accumulator Demo.scripted Demo.str_args "hi"
                Demo.two_hops [Demo.weather_tool] Demo.two_tools _ _
                eq_refl eq_refl eq_refl (le_n 2))
    as (Hmsgs & _ & Hsent & _).
  split; [reflexivity | split; [exact Hmsgs | exact Hsent]].
Defined.

Lemma connect_to_server_suffix_witness :
  connect_to_server Demo.scripted "server.rb" Demo.session_start
    = (Raised (ValueError CONNECT_ERROR), Demo.session_start)
  /\ (exists evs : list Event,
        events_since Demo.session_start
          (snd (connect_to_server Demo.scripted "weather.py" Demo.session_start))
        = StdioClient "python" ["weather.py"] :: evs)
  /\ (exists evs : list Event,
        events_since Demo.session_start
          (snd (connect_to_server Demo.scripted "build/index.js" Demo.session_start))
        = StdioClient "node" ["build/index.js"] :: evs).
Proof.
  split; [| split].
  - apply (proj1 (connect_to_server_suffix Demo.scripted "server.rb" Demo.session_start));
      reflexivity.
  - apply (proj1 (proj2 (connect_to_server_suffix Demo.scripted "weather.py"
                           Demo.session_start))).
    reflexivity.
  - apply (proj2 (proj2 (connect_to_server_suffix Demo.scripted "build/index.js"
                           Demo.session_start))).
    reflexivity.
Defined.

Lemma main_cleans_up_once_witness :
  (exists (r : outcome unit) (st' : St Demo.world),
      main Demo.scripted Demo.str_args 3 ["client.py"; "weather.py"] Demo.session_start
        = Some (r, st')
      /\ cleanups (events_since Demo.session_start st') = 1)
  /\ (exists (r : outcome unit) (st' : St Demo.world),
        main Demo.no_server Demo.str_args 3 ["client.py"; "weather.py"] Demo.session_start
          = Some (r, st')
        /\ r = Raised (External "FileNotFoundError")
        /\ cleanups (events_since Demo.session_start st') = 1).
Proof.
  split.
  - destruct (main Demo.scripted Demo.str_args 3 ["client.py"; "weather.py"]
                Demo.session_start) as [[r st'] |] eqn:Hmain.
    + exists r, st'. split; [reflexivity |].
      refine (proj1 (main_cleans_up_once Demo.scripted Demo.str_args 3
                       ["client.py"; "weather.py"] Demo.session_start st' r _ Hmain)).
      cbn. lia.
    + vm_compute in Hmain. discriminate.
  - destruct (main Demo.no_server Demo.str_args 3 ["client.py"; "weather.py"]
                Demo.session_start) as [[r st'] |] eqn:Hmain.
    + exists r, st'. split; [reflexivity | split].
      * pose proof Hmain as Hrun. vm_compute in Hrun. injection Hrun as <- _. reflexivity.
      * refine (proj1 (main_cleans_up_once Demo.no_server Demo.str_args 3
                         ["client.py"; "weather.py"] Demo.session_start st' r _ Hmain)).
        cbn. lia.
    + vm_compute in Hmain. discriminate.
Defined.

(** C8 (as stated) fails: without a script path [main] prints the usage
    line and exits with status 1, and the cleanup is not invoked. *)
Lemma main_usage_exit_skips_cleanup :
  main Demo.scripted Demo.str_args 3 ["client.py"] Demo.session_start
  = Some (Raised (SystemExit 1),
          {| world := world Demo.session_start; log := [Print USAGE]; session := false |})
  /\ cleanups (events_since Demo.session_start
                 {| world := world Demo.session_start; log := [Print USAGE];
                    session := false |}) = 0.
Proof. split; vm_compute; reflexivity. Qed.

End ClientProps.

(* ================================================================== *)
(** ** Further properties of the weather tools *)
(* ================================================================== *)

Module ServerMore.
Import Server Steps ServerProps Shapes.

Section Facts.

Variable py_str : json -> string.
Variable World : Type.
Variable client_get :
  string -> list (string * string) -> Z -> World -> outcome http_response * World.

Lemma traverse_returned {A B : Type} (f : A -> outcome B) (l : list A) :
  forallb (fun a => is_returned (f a)) l = true ->
  exists bs : list B, traverse f l = Returned bs /\ length bs = length l.
Proof.
  induction l as [| a l IH]; cbn [forallb traverse].
  - exists []. split; reflexivity.
  - intros Hall. apply andb_prop in Hall as [Ha Hl].
    destruct (f a) as [b | e]; [| discriminate].
    destruct (IH Hl) as (bs & -> & Hlen).
    exists (b :: bs). cbn. rewrite Hlen. split; reflexivity.
Qed.

(** X1: [format_period] formats exactly the objects that have the six
    keys; an object that lacks one raises [KeyError], anything that is not
    an object raises [TypeError]. *)
Theorem format_period_outcome (period : json) :
  is_returned (format_period py_str period) = complete_period period
  /\ (complete_period period = false ->
      format_period py_str period
      = Raised (if is_dict period then KeyError else TypeError)).
Proof.
  destruct period as [| b | z | f | s | l | kv]; try (split; [reflexivity | reflexivity]).
  unfold format_period, complete_period, PERIOD_KEYS, has_key, subscript.
  cbn [forallb is_dict].
  destruct (assoc "name" kv); [| split; reflexivity].
  destruct (assoc "temperature" kv); [| split; reflexivity].
  destruct (assoc "temperatureUnit" kv); [| split; reflexivity].
  destruct (assoc "windSpeed" kv); [| split; reflexivity].
  destruct (assoc "windDirection" kv); [| split; reflexivity].
  destruct (assoc "detailedForecast" kv); split; try reflexivity; discriminate.
Qed.

(** X2: [format_alert] formats exactly the objects whose ["properties"] is
    an object, whatever keys that object has; otherwise it raises
    [ValidationError] (the feature is not an object), [KeyError] (no
    ["properties"]) or [AttributeError] (["properties"] is not an
    object). *)
Theorem format_alert_outcome (feature : json) :
  is_returned (format_alert py_str feature) = complete_feature feature
  /\ (is_dict feature = false -> format_alert py_str feature = Raised ValidationError)
  /\ (forall kv : list (string * json),
        feature = JObj kv -> assoc "properties" kv = None ->
        format_alert py_str feature = Raised KeyError)
  /\ (forall (kv : list (string * json)) (props : json),
        feature = JObj kv -> assoc "properties" kv = Some props -> is_dict props = false ->
        format_alert py_str feature = Raised AttributeError).
Proof.
  split; [| split; [| split]].
  - destruct feature as [| b | z | f | s | l | kv]; try reflexivity.
    unfold format_alert, complete_feature, subscript.
    destruct (assoc "properties" kv) as [[| b | z | f | s | l | pkv] |]; reflexivity.
  - destruct feature; try reflexivity. discriminate.
  - intros kv -> Hnone. unfold format_alert, subscript. rewrite Hnone. reflexivity.
  - intros kv props -> Hsome Hprops. unfold format_alert, subscript. rewrite Hsome.
    destruct props; try reflexivity. discriminate.
Qed.

(** X3: a feature whose properties have none of the five fields is
    formatted with the defaults of lines 40-44. *)
Theorem format_alert_defaults (kv pkv : list (string * json)) :
  assoc "properties" kv = Some (JObj pkv) ->
  forallb (fun key => negb (has_key pkv key))
    ["event"; "areaDesc"; "severity"; "description"; "instruction"] = true ->
  format_alert py_str (JObj kv)
  = Returned ("
Event: " +:+ py_str (JStr "Unknown") +:+ "
Area: " +:+ py_str (JStr "Unknown") +:+ "
Severity: " +:+ py_str (JStr "Unknown") +:+ "
Description: " +:+ py_str (JStr "No description available") +:+ "
Instructions: " +:+ py_str (JStr "No specific instructions provided") +:+ "
").
Proof.
  intros Hprops Hnone. unfold format_alert, subscript, dict_get.
  rewrite Hprops. cbn [forallb] in Hnone. unfold has_key in Hnone.
  destruct (assoc "event" pkv); [discriminate |].
  destruct (assoc "areaDesc" pkv); [discriminate |].
  destruct (assoc "severity" pkv); [discriminate |].
  destruct (assoc "description" pkv); [discriminate |].
  destruct (assoc "instruction" pkv); [discriminate |].
  reflexivity.
Qed.

Lemma traverse_is_returned {A B : Type} (f : A -> outcome B) (l : list A) :
  is_returned (traverse f l) = forallb (fun a => is_returned (f a)) l.
Proof.
  induction l as [| a l IH]; [reflexivity |].
  cbn [traverse forallb]. destruct (f a) as [b | e]; [| reflexivity].
  rewrite <- IH. destruct (traverse f l); reflexivity.
Qed.

Lemma forallb_ext_eq {A : Type} (f g : A -> bool) (l : list A) :
  (forall a : A, f a = g a) -> forallb f l = forallb g l.
Proof. intros H. induction l as [| a l IH]; cbn; [reflexivity | rewrite H, IH; reflexivity]. Qed.

(** The report of [get_alerts], once the data hold features to iterate
    over. *)
Lemma get_alerts_report (state : string) (w w' : World) (data features : json)
    (items : list json) :
  make_nws_request client_get (JStr (alerts_url state)) w = (Returned data, w') ->
  subscript data "features" = Returned features ->
  truthy features = true ->
  iterate features = Returned items ->
  get_alerts py_str client_get state w
  = (outcome_map (join SEPARATOR) (traverse (format_alert py_str) items), w').
Proof.
  intros Hreq Hsub Htruthy Hiter. unfold Server.get_alerts.
  rewrite (bind_returned _ _ _ _ _ Hreq).
  destruct data as [| | | | | | kv]; try discriminate.
  cbn [subscript] in Hsub. destruct (assoc "features" kv) as [x |] eqn:Hk; [| discriminate].
  injection Hsub as ->.
  assert (Hdata : truthy (JObj kv) = true) by (destruct kv; [discriminate | reflexivity]).
  rewrite Hdata. cbn [negb].
  assert (Hin : contains "features" (JObj kv) = Returned true)
    by (cbn [contains]; rewrite Hk; reflexivity).
  unfold bind at 1. rewrite (bind_lift _ _ _ _ Hin). cbn [negb ret].
  assert (Hsub : subscript (JObj kv) "features" = Returned features)
    by (cbn [subscript]; rewrite Hk; reflexivity).
  rewrite (bind_lift _ _ _ _ Hsub), Htruthy. cbn [negb].
  rewrite (bind_lift _ _ _ _ Hiter). unfold bind. rewrite mapM_lift.
  destruct (traverse (format_alert py_str) items); reflexivity.
Qed.

(** X4: when the data hold a non-empty list of features, the report of
    [get_alerts] is the formatting of every one of them, in order and
    without a cap, joined by the separator; it is returned exactly when
    every feature is an object whose ["properties"] is an object, and has
    then one section per feature. *)
Theorem get_alerts_all_features (state : string) (w w' : World) (data feature : json)
    (features : list json) :
  make_nws_request client_get (JStr (alerts_url state)) w = (Returned data, w') ->
  subscript data "features" = Returned (JArr (feature :: features)) ->
  get_alerts py_str client_get state w
  = (outcome_map (join SEPARATOR)
       (traverse (format_alert py_str) (feature :: features)), w')
  /\ is_returned (fst (get_alerts py_str client_get state w))
     = forallb complete_feature (feature :: features)
  /\ (forall sections : list string,
        traverse (format_alert py_str) (feature :: features) = Returned sections ->
        length sections = S (length features)).
Proof.
  intros Hreq Hsub.
  pose proof (get_alerts_report state w w' data _ _ Hreq Hsub eq_refl eq_refl) as Hrep.
  split; [exact Hrep | split].
  - rewrite Hrep. cbn [fst].
    rewrite <- (forallb_ext_eq _ _ (feature :: features)
                  (fun f => proj1 (format_alert_outcome f))).
    rewrite <- traverse_is_returned.
    destruct (traverse (format_alert py_str) (feature :: features)); reflexivity.
  - intros sections Hsections. exact (traverse_length _ _ _ Hsections).
Qed.

(** X5: data that are not an object never give a report: [get_alerts]
    answers that no alert could be fetched, or raises [TypeError]. *)
Theorem get_alerts_not_an_object (state : string) (w w' : World) (data : json) :
  make_nws_request client_get (JStr (alerts_url state)) w = (Returned data, w') ->
  is_dict data = false ->
  get_alerts py_str client_get state w = (Returned ALERTS_UNAVAILABLE, w')
  \/ get_alerts py_str client_get state w = (Raised TypeError, w').
Proof.
  intros Hreq Hdict. unfold Server.get_alerts. rewrite (bind_returned _ _ _ _ _ Hreq).
  destruct data as [| b | z | f | s | l | kv]; try discriminate.
  - left. reflexivity.
  - destruct b; [right | left]; reflexivity.
  - destruct (truthy (JInt z)); [right | left]; reflexivity.
  - destruct (truthy (JFloat f)); [right | left]; reflexivity.
  - destruct (truthy (JStr s)); [| left; reflexivity]. cbn [negb].
    unfold bind, lift, ret, contains.
    destruct (String.index 0 "features" s); [right | left]; reflexivity.
  - destruct (truthy (JArr l)); [| left; reflexivity]. cbn [negb].
    unfold bind, lift, ret, contains.
    destruct (existsb (is_str "features") l); [right | left]; reflexivity.
Qed.

(** The report of [get_forecast], once both requests have answered and the
    forecast holds a list of periods. *)
Lemma get_forecast_report (lat lon : spec_float) (w w1 w2 : World)
    (points properties forecast_url data properties' : json) (periods : list json) :
  make_nws_request client_get (JStr (points_url py_str lat lon)) w = (Returned points, w1) ->
  truthy points = true ->
  subscript points "properties" = Returned properties ->
  subscript properties "forecast" = Returned forecast_url ->
  make_nws_request client_get forecast_url w1 = (Returned data, w2) ->
  truthy data = true ->
  subscript data "properties" = Returned properties' ->
  subscript properties' "periods" = Returned (JArr periods) ->
  get_forecast py_str client_get lat lon w =
    (outcome_map (join SEPARATOR) (traverse (format_period py_str) (firstn 5 periods)), w2).
Proof.
  intros Hreq Htruthy Hprops Hurl Hreq2 Htruthy2 Hprops2 Hperiods.
  rewrite (get_forecast_second _ _ _ _ _ _ _ _ _ _ Hreq Htruthy Hprops Hurl).
  rewrite (bind_returned _ _ _ _ _ Hreq2), Htruthy2. cbn [negb].
  rewrite (bind_lift _ _ _ _ Hprops2), (bind_lift _ _ _ _ Hperiods).
  rewrite (bind_lift _ _ _ (JArr (firstn 5 periods)) eq_refl).
  rewrite (bind_lift _ _ _ (firstn 5 periods) eq_refl).
  unfold bind. rewrite mapM_lift.
  destruct (traverse (format_period py_str) (firstn 5 periods)); reflexivity.
Qed.

(** X6: with both requests answered and a list of periods, [get_forecast]
    returns exactly when each of the first five periods is an object with
    the six keys (later periods are not looked at), and the report has
    then [min 5 n] sections for [n] periods. *)
Theorem get_forecast_complete_periods (lat lon : spec_float) (w w1 w2 : World)
    (points properties forecast_url data properties' : json) (periods : list json) :
  make_nws_request client_get (JStr (points_url py_str lat lon)) w = (Returned points, w1) ->
  truthy points = true ->
  subscript points "properties" = Returned properties ->
  subscript properties "forecast" = Returned forecast_url ->
  make_nws_request client_get forecast_url w1 = (Returned data, w2) ->
  truthy data = true ->
  subscript data "properties" = Returned properties' ->
  subscript properties' "periods" = Returned (JArr periods) ->
  is_returned (fst (get_forecast py_str client_get lat lon w))
    = forallb complete_period (firstn 5 periods)
  /\ (forallb complete_period (firstn 5 periods) = true ->
      exists sections : list string,
        get_forecast py_str client_get lat lon w = (Returned (join SEPARATOR sections), w2)
        /\ length sections = Nat.min 5 (length periods)).
Proof.
  intros Hreq Htruthy Hprops Hurl Hreq2 Htruthy2 Hprops2 Hperiods.
  rewrite (get_forecast_report _ _ _ _ _ _ _ _ _ _ _ Hreq Htruthy Hprops Hurl
             Hreq2 Htruthy2 Hprops2 Hperiods).
  cbn [fst].
  assert (Hret : is_returned (traverse (format_period py_str) (firstn 5 periods))
                 = forallb complete_period (firstn 5 periods)).
  { rewrite traverse_is_returned. apply forallb_ext_eq.
    intros p. exact (proj1 (format_period_outcome p)). }
  split.
  - rewrite <- Hret.
    destruct (traverse (format_period py_str) (firstn 5 periods)); reflexivity.
  - intros Hall. rewrite <- Hret in Hall.
    destruct (traverse (format_period py_str) (firstn 5 periods)) as [sections | e] eqn:Ht;
      [| discriminate].
    exists sections. split; [reflexivity |].
    rewrite (traverse_length _ _ _ Ht), length_firstn. reflexivity.
Qed.

(** X7: a forecast without periods gives the empty string, not one of the
    informational strings. *)
Theorem get_forecast_no_periods (lat lon : spec_float) (w w1 w2 : World)
    (points properties forecast_url data properties' : json) :
  make_nws_request client_get (JStr (points_url py_str lat lon)) w = (Returned points, w1) ->
  truthy points = true ->
  subscript points "properties" = Returned properties ->
  subscript properties "forecast" = Returned forecast_url ->
  make_nws_request client_get forecast_url w1 = (Returned data, w2) ->
  truthy data = true ->
  subscript data "properties" = Returned properties' ->
  subscript properties' "periods" = Returned (JArr []) ->
  get_forecast py_str client_get lat lon w = (Returned EmptyString, w2)
  /\ EmptyString <> POINTS_UNAVAILABLE /\ EmptyString <> FORECAST_UNAVAILABLE.
Proof.
  intros Hreq Htruthy Hprops Hurl Hreq2 Htruthy2 Hprops2 Hperiods.
  rewrite (get_forecast_report _ _ _ _ _ _ _ _ _ _ _ Hreq Htruthy Hprops Hurl
             Hreq2 Htruthy2 Hprops2 Hperiods).
  split; [reflexivity | split; discriminate].
Qed.

(** X8: when the points answer names a forecast URL that is not a string,
    [get_forecast] raises [ValidationError] and no second request is made
    (the world is the one left by the first request). *)
Theorem get_forecast_url_not_a_string (lat lon : spec_float) (w w1 : World)
    (points properties forecast_url : json) :
  make_nws_request client_get (JStr (points_url py_str lat lon)) w = (Returned points, w1) ->
  truthy points = true ->
  subscript points "properties" = Returned properties ->
  subscript properties "forecast" = Returned forecast_url ->
  (forall u : string, forecast_url <> JStr u) ->
  get_forecast py_str client_get lat lon w = (Raised ValidationError, w1).
Proof.
  intros Hreq Htruthy Hprops Hurl Hnot.
  rewrite (get_forecast_second _ _ _ _ _ _ _ _ _ _ Hreq Htruthy Hprops Hurl).
  destruct forecast_url as [| b | z | f | s | l | kv]; try reflexivity.
  destruct (Hnot s eq_refl).
Qed.

(** X9: a subscript that fails on the answers ([KeyError] on a missing
    key, [TypeError] on a value that is not an object) leaves
    [get_forecast] as it is raised, at any of the four subscripts of lines
    90 and 97. *)
Theorem get_forecast_subscript_errors (lat lon : spec_float) (w w1 : World)
    (points : json) (e : exn) :
  make_nws_request client_get (JStr (points_url py_str lat lon)) w = (Returned points, w1) ->
  truthy points = true ->
  (subscript points "properties" = Raised e ->
   get_forecast py_str client_get lat lon w = (Raised e, w1))
  /\ (forall properties : json,
        subscript points "properties" = Returned properties ->
        subscript properties "forecast" = Raised e ->
        get_forecast py_str client_get lat lon w = (Raised e, w1))
  /\ (forall (properties forecast_url data : json) (w2 : World),
        subscript points "properties" = Returned properties ->
        subscript properties "forecast" = Returned forecast_url ->
        make_nws_request client_get forecast_url w1 = (Returned data, w2) ->
        truthy data = true ->
        (subscript data "properties" = Raised e ->
         get_forecast py_str client_get lat lon w = (Raised e, w2))
        /\ (forall properties' : json,
              subscript data "properties" = Returned properties' ->
              subscript properties' "periods" = Raised e ->
              get_forecast py_str client_get lat lon w = (Raised e, w2))).
Proof.
  intros Hreq Htruthy. split; [| split].
  - intros Hsub. unfold Server.get_forecast.
    rewrite (bind_returned _ _ _ _ _ Hreq), Htruthy. cbn [negb].
    unfold bind, lift. rewrite Hsub. reflexivity.
  - intros properties Hprops Hsub. unfold Server.get_forecast.
    rewrite (bind_returned _ _ _ _ _ Hreq), Htruthy. cbn [negb].
    rewrite (bind_lift _ _ _ _ Hprops). unfold bind, lift. rewrite Hsub. reflexivity.
  - intros properties forecast_url data w2 Hprops Hurl Hreq2 Htruthy2.
    rewrite (get_forecast_second _ _ _ _ _ _ _ _ _ _ Hreq Htruthy Hprops Hurl).
    rewrite (bind_returned _ _ _ _ _ Hreq2), Htruthy2. cbn [negb]. split.
    + intros Hsub. unfold bind, lift. rewrite Hsub. reflexivity.
    + intros properties' Hprops2 Hsub. rewrite (bind_lift _ _ _ _ Hprops2).
      unfold bind, lift. rewrite Hsub. reflexivity.
Qed.

(** X10: for a URL that is a string, [make_nws_request] makes one request
    and then: hands back the decoded body of a successful answer, hands
    back [None] when the request failed (the call raised an [Exception],
    the status is not a success, the body is not JSON), and raises only
    what is not an [Exception]. *)
Theorem make_nws_request_outcomes (u : string) (w : World) :
  snd (make_nws_request client_get (JStr u) w) = snd (client_get u HEADERS 30 w)
  /\ (fetch_failed (fst (client_get u HEADERS 30 w)) = true ->
      fst (make_nws_request client_get (JStr u) w) = Returned JNull)
  /\ (forall (response : http_response) (data : json),
        fst (client_get u HEADERS 30 w) = Returned response ->
        is_success (status_code response) = true ->
        json_body response = Returned data ->
        fst (make_nws_request client_get (JStr u) w) = Returned data)
  /\ (forall e : exn,
        fst (make_nws_request client_get (JStr u) w) = Raised e -> is_Exception e = false).
Proof.
  split; [| split; [| split]].
  - unfold Server.make_nws_request, try_except_Exception, bind, lift, raise, ret.
    destruct (client_get u HEADERS 30 w) as [[response | e] w']; cbn [snd].
    + destruct (is_success (status_code response)); cbn.
      * destruct (json_body response) as [j | e]; cbn; [reflexivity |].
        destruct (is_Exception e); reflexivity.
      * reflexivity.
    + destruct (is_Exception e); reflexivity.
  - intros Hfail. rewrite (make_nws_request_failed World client_get u w Hfail). reflexivity.
  - intros response data Hget Hok Hbody.
    rewrite (make_nws_request_ok World client_get u w (snd (client_get u HEADERS 30 w))
               response data);
      [reflexivity | | exact Hok | exact Hbody].
    rewrite <- Hget. destruct (client_get u HEADERS 30 w); reflexivity.
  - intros e Hraised.
    apply (make_nws_request_raises World client_get u w
             (snd (make_nws_request client_get (JStr u) w)) e).
    rewrite <- Hraised. destruct (make_nws_request client_get (JStr u) w); reflexivity.
Qed.

End Facts.

(** Runs on concrete upstreams. *)

Lemma format_period_outcome_witness :
  format_period Demo.str (JObj [("name", JStr "Tonight"); ("temperature", JInt 60)])
  = Raised KeyError.
Proof.
  apply (proj2 (format_period_outcome Demo.str
                  (JObj [("name", JStr "Tonight"); ("temperature", JInt 60)]))).
  reflexivity.
Defined.

Lemma format_alert_outcome_witness :
  format_alert Demo.str (JObj [("properties", JArr [])]) = Raised AttributeError.
Proof.
  apply (proj2 (proj2 (proj2 (format_alert_outcome Demo.str
                                (JObj [("properties", JArr [])]))))
           [("properties", JArr [])] (JArr [])); reflexivity.
Defined.

Lemma format_alert_defaults_witness :
  format_alert Demo.str (JObj [("id", JStr "urn:1"); ("properties", JObj [("headline", JStr "Wind")])])
  = Returned "
Event: Unknown
Area: Unknown
Severity: Unknown
Description: No description available
Instructions: No specific instructions provided
".
Proof.
  apply (format_alert_defaults Demo.str
           [("id", JStr "urn:1"); ("properties", JObj [("headline", JStr "Wind")])]
           [("headline", JStr "Wind")]); reflexivity.
Defined.

Lemma get_alerts_all_features_witness :
  is_returned
    (fst (get_alerts Demo.str
            (Cases.answering
               (JObj [("features",
                       JArr (map Cases.alert ["Flood"; "Wind"; "Heat"; "Frost"; "Fog"; "Ice"]))]))
            "CA" tt)) = true.
Proof.
  rewrite (proj1 (proj2 (get_alerts_all_features Demo.str unit
             (Cases.answering
                (JObj [("features",
                        JArr (map Cases.alert ["Flood"; "Wind"; "Heat"; "Frost"; "Fog"; "Ice"]))]))
             "CA" tt tt
             (JObj [("features",
                     JArr (map Cases.alert ["Flood"; "Wind"; "Heat"; "Frost"; "Fog"; "Ice"]))])
             (Cases.alert "Flood") (map Cases.alert ["Wind"; "Heat"; "Frost"; "Fog"; "Ice"])
             eq_refl eq_refl))).
  reflexivity.
Defined.

Lemma get_alerts_not_an_object_witness :
  get_alerts Demo.str (Cases.answering (JArr [JStr "features"])) "CA" tt
    = (Returned ALERTS_UNAVAILABLE, tt)
  \/ get_alerts Demo.str (Cases.answering (JArr [JStr "features"])) "CA" tt
     = (Raised TypeError, tt).
Proof.
  exact (get_alerts_not_an_object Demo.str unit (Cases.answering (JArr [JStr "features"]))
           "CA" tt tt (JArr [JStr "features"]) eq_refl eq_refl).
Defined.

Lemma get_forecast_complete_periods_witness :
  exists sections : list string,
    get_forecast Demo.str Demo.forecasting Demo.lat Demo.lon tt
      = (Returned (join SEPARATOR sections), tt)
    /\ length sections = 5.
Proof.
  apply (proj2 (get_forecast_complete_periods Demo.str unit Demo.forecasting
                  Demo.lat Demo.lon tt tt tt
                  (JObj [("properties", JObj [("forecast", JStr Demo.FORECAST_URL)])])
                  (JObj [("forecast", JStr Demo.FORECAST_URL)])
                  (JStr Demo.FORECAST_URL)
                  (JObj [("properties", JObj [("periods", JArr Demo.seven_periods)])])
                  (JObj [("periods", JArr Demo.seven_periods)])
                  Demo.seven_periods
                  eq_refl eq_refl eq_refl eq_refl eq_refl eq_refl eq_refl eq_refl)).
  reflexivity.
Defined.

Lemma get_forecast_no_periods_witness :
  get_forecast Demo.str (Cases.forecasting_with (JArr [])) Demo.lat Demo.lon tt
  = (Returned EmptyString, tt).
Proof.
  exact (proj1 (get_forecast_no_periods Demo.str unit (Cases.forecasting_with (JArr []))
                  Demo.lat Demo.lon tt tt tt
                  (JObj [("properties", JObj [("forecast", JStr Demo.FORECAST_URL)])])
                  (JObj [("forecast", JStr Demo.FORECAST_URL)])
                  (JStr Demo.FORECAST_URL)
                  (JObj [("properties", JObj [("periods", JArr [])])])
                  (JObj [("periods", JArr [])])
                  eq_refl eq_refl eq_refl eq_refl eq_refl eq_refl eq_refl eq_refl)).
Defined.

Lemma get_forecast_url_not_a_string_witness :
  get_forecast Demo.str
    (Cases.answering (JObj [("properties", JObj [("forecast", JNull)])]))
    Demo.lat Demo.lon tt
  = (Raised ValidationError, tt).
Proof.
  apply (get_forecast_url_not_a_string Demo.str unit
           (Cases.answering (JObj [("properties", JObj [("forecast", JNull)])]))
           Demo.lat Demo.lon tt tt
           (JObj [("properties", JObj [("forecast", JNull)])])
           (JObj [("forecast", JNull)]) JNull); try reflexivity.
  intros u. discriminate.
Defined.

Lemma get_forecast_subscript_errors_witness :
  get_forecast Demo.str (Cases.answering (JObj [("properties", JArr [JInt 1])]))
    Demo.lat Demo.lon tt
  = (Raised TypeError, tt).
Proof.
  apply (proj1 (proj2 (get_forecast_subscript_errors Demo.str unit
                         (Cases.answering (JObj [("properties", JArr [JInt 1])]))
                         Demo.lat Demo.lon tt tt
                         (JObj [("properties", JArr [JInt 1])]) TypeError
                         eq_refl eq_refl))
           (JArr [JInt 1])); reflexivity.
Defined.

Lemma make_nws_request_outcomes_witness :
  fst (make_nws_request Demo.overloaded (JStr "https://api.weather.gov/alerts/active/area/CA") tt)
    = Returned JNull
  /\ fst (make_nws_request Demo.quiet (JStr "https://api.weather.gov/alerts/active/area/CA") tt)
     = Returned (JObj [("type", JStr "FeatureCollection"); ("features", JArr [])])
  /\ is_Exception KeyboardInterrupt = false.
Proof.
  split; [| split].
  - apply (proj1 (proj2 (make_nws_request_outcomes unit Demo.overloaded
                           "https://api.weather.gov/alerts/active/area/CA" tt))).
    reflexivity.
  - apply (proj1 (proj2 (proj2 (make_nws_request_outcomes unit Demo.quiet
                                   "https://api.weather.gov/alerts/active/area/CA" tt)))
             {| status_code := 200;
                json_body := Returned (JObj [("type", JStr "FeatureCollection");
                                             ("features", JArr [])]) |});
      reflexivity.
  - apply (proj2 (proj2 (proj2 (make_nws_request_outcomes unit Cases.interrupted
                                   "https://api.weather.gov/alerts/active/area/CA" tt)))).
    reflexivity.
Defined.

End ServerMore.

(* ================================================================== *)
(** ** Further properties of the client *)
(* ================================================================== *)

Module ClientMore.
Import Client Steps ClientProps Shapes.

Section Facts.

Context {W : Type}.
Variable ext : Collaborators W.
Variable py_str : json -> string.

Ltac run_query_body :=
  unfold process_query, run_query, query_body, list_tools, create;
  unfold bind, lift, outer, the_session, call, modify, alloc, frame, ret; cbn.

(** X11: on a client that is not connected, [process_query] raises
    [AttributeError] and nothing has been asked of any collaborator. *)
Theorem process_query_not_connected (query : string) (st : St W) :
  session st = false ->
  process_query ext py_str query st = (Raised AttributeError, st).
Proof.
  intros Hs. run_query_body. rewrite Hs. reflexivity.
Qed.

Lemma process_query_list_tools_raised (query : string) (st : St W) (e : exn) (w1 : W) :
  session st = true ->
  session_list_tools ext (world st) = (Raised e, w1) ->
  process_query ext py_str query st = (Raised e, with_events st w1 [ListTools]).
Proof.
  intros Hs Ht. run_query_body. rewrite Hs. cbn. rewrite Ht. reflexivity.
Qed.

Lemma process_query_create_raised (query : string) (st : St W) (e : exn)
    (tools : list ToolDescriptor) (w1 w2 : W) :
  session st = true ->
  session_list_tools ext (world st) = (Returned tools, w1) ->
  messages_create ext MODEL 1000 [user_message query] (map tool_schema tools) w1
    = (Raised e, w2) ->
  process_query ext py_str query st
  = (Raised e,
     with_events st w2
       [ListTools;
        Create MODEL 1000 [user_message query] (map tool_schema tools) (Raised e)]).
Proof.
  intros Hs Ht Hc. run_query_body. rewrite Hs. cbn. rewrite Ht. cbn.
  change [resolve [] {| role := "user"; content := StrContent query |}]
    with [user_message query].
  rewrite Hc. cbn. unfold with_events. rewrite <- app_assoc. reflexivity.
Qed.

(** X12: an exception of [list_tools] or of the first completion call
    leaves [process_query] as it is raised; no completion is asked for in
    the first case and no tool is called in either. *)
Theorem process_query_prelude_failures (query : string) (st : St W) (e : exn) :
  session st = true ->
  (forall w1 : W,
     session_list_tools ext (world st) = (Raised e, w1) ->
     process_query ext py_str query st = (Raised e, with_events st w1 [ListTools]))
  /\ (forall (tools : list ToolDescriptor) (w1 w2 : W),
        session_list_tools ext (world st) = (Returned tools, w1) ->
        messages_create ext MODEL 1000 [user_message query] (map tool_schema tools) w1
          = (Raised e, w2) ->
        process_query ext py_str query st
        = (Raised e,
           with_events st w2
             [ListTools;
              Create MODEL 1000 [user_message query] (map tool_schema tools) (Raised e)])).
Proof.
  intros Hs. split.
  - intros w1. apply process_query_list_tools_raised, Hs.
  - intros tools w1 w2. apply process_query_create_raised, Hs.
Qed.

(** X13: whatever came before, the first completion request of a call
    holds one message, the query as the user's, with the model, the token
    budget of 1000 and the catalogue just listed (name, description and
    input schema of each tool): nothing of an earlier query is sent. *)
Theorem first_request_is_fresh (query : string) (st : St W)
    (tools : list ToolDescriptor) (w1 : W) :
  session st = true ->
  session_list_tools ext (world st) = (Returned tools, w1) ->
  exists (r : outcome (list ContentBlock)) (evs : list Event),
    events_since st (snd (process_query ext py_str query st))
    = ListTools
      :: Create MODEL 1000
           [{| sent_role := "user"; sent_content := inl query |}]
           (map (fun tool => JObj [("name", JStr (name tool));
                                   ("description", description tool);
                                   ("input_schema", inputSchema tool)]) tools)
           r
      :: evs.
Proof.
  intros Hs Ht.
  destruct (messages_create ext MODEL 1000 [user_message query] (map tool_schema tools) w1)
    as [[response | e] w2] eqn:Hc.
  - destruct (process_query_steps ext py_str query st tools response w1 w2 Hs Ht Hc)
      as (r & st0 & st' & fr' & _ & _ & _ & Hsince).
    eexists _, _. exact Hsince.
  - rewrite (process_query_create_raised query st e tools w1 w2 Hs Ht Hc).
    exists (Raised e), []. unfold events_since. cbn [snd with_events log].
    rewrite drop_app_length. reflexivity.
Qed.

(** X14: when [process_query] returns, every tool the first response asked
    for has been called, once each and in the order of the blocks, and one
    continuation has been asked for per tool-use block. *)
Theorem returned_query_dispatched_all (query : string) (st : St W)
    (tools : list ToolDescriptor) (response : list ContentBlock) (w1 w2 : W) (s : string) :
  session st = true ->
  session_list_tools ext (world st) = (Returned tools, w1) ->
  messages_create ext MODEL 1000 [user_message query] (map tool_schema tools) w1
    = (Returned response, w2) ->
  fst (process_query ext py_str query st) = Returned s ->
  call_log (events_since st (snd (process_query ext py_str query st)))
    = tool_requests response
  /\ length (completions (events_since st (snd (process_query ext py_str query st))))
     = S (count_tool_use response).
Proof.
  intros Hs Ht Hc Hret.
  destruct (process_query_steps ext py_str query st tools response w1 w2 Hs Ht Hc)
    as (r & st0 & st' & fr' & Hsteps & Hout & _ & Hsince).
  rewrite Hout in Hret. destruct r as [[] | e]; [| discriminate].
  destruct (steps_returned _ _ _ _ _ _ _ _ _ _ Hsteps) as (Hcalls & Hcount & _).
  rewrite Hsince. cbn [call_log completions length]. rewrite Hcalls, Hcount.
  split; reflexivity.
Qed.

(** A failed tool call is where a run ends. *)
Lemma steps_call_raised (acc : loc) (tools : list json) (blocks : list ContentBlock)
    (st st' : St W) (fr fr' : Frame) (r : outcome unit) (evs : list Event) :
  steps ext py_str acc tools blocks st fr r st' fr' evs ->
  forall (n : string) (i : json) (e : exn),
    In (CallTool n i (Raised e)) evs ->
    r = Raised e /\ exists evs' : list Event, evs = evs' ++ [CallTool n i (Raised e)].
Proof.
  induction 1 as [st fr | b rest st st' fr fr' e0 evs Hstep
                 | b rest st st1 st' fr fr1 fr' r evs1 evs2 Hstep Hrest IH];
    intros n i e Hin.
  - destruct Hin.
  - inversion Hstep; subst; cbn in Hin;
      repeat (destruct Hin as [Hin | Hin]; try discriminate); try contradiction.
    injection Hin as <- <- <-. split; [reflexivity | exists []; reflexivity].
  - apply in_app_or in Hin as [Hin | Hin].
    + exfalso. inversion Hstep; subst; cbn in Hin;
        repeat (destruct Hin as [Hin | Hin]; try discriminate); contradiction.
    + destruct (IH n i e Hin) as (Hr & evs' & ->). split; [exact Hr |].
      exists (evs1 ++ evs'). rewrite app_assoc. reflexivity.
Qed.

(** X15: a tool call that raises ends the query: [process_query] raises
    the same exception, and the failed call is the last thing it did (no
    continuation is asked for, no later tool is called). *)
Theorem failed_tool_call_ends_query (query : string) (st : St W)
    (tools : list ToolDescriptor) (response : list ContentBlock) (w1 w2 : W)
    (n : string) (i : json) (e : exn) :
  session st = true ->
  session_list_tools ext (world st) = (Returned tools, w1) ->
  messages_create ext MODEL 1000 [user_message query] (map tool_schema tools) w1
    = (Returned response, w2) ->
  In (CallTool n i (Raised e))
     (events_since st (snd (process_query ext py_str query st))) ->
  fst (process_query ext py_str query st) = Raised e
  /\ last (events_since st (snd (process_query ext py_str query st)))
     = Some (CallTool n i (Raised e)).
Proof.
  intros Hs Ht Hc Hin.
  destruct (process_query_steps ext py_str query st tools response w1 w2 Hs Ht Hc)
    as (r & st0 & st' & fr' & Hsteps & Hout & _ & Hsince).
  rewrite Hsince in Hin |- *.
  destruct Hin as [Hin | [Hin | Hin]]; try discriminate.
  destruct (steps_call_raised _ _ _ _ _ _ _ _ _ Hsteps n i e Hin) as (-> & evs' & Hevs).
  split; [rewrite Hout; reflexivity |].
  rewrite Hevs.
  change (ListTools :: ?c :: evs' ++ ?l) with ((ListTools :: c :: evs') ++ l).
  apply last_snoc.
Qed.

Lemma steps_no_tool_use (acc : loc) (tools : list json) (blocks : list ContentBlock)
    (st st' : St W) (fr fr' : Frame) (r : outcome unit) (evs : list Event) :
  steps ext py_str acc tools blocks st fr r st' fr' evs ->
  count_tool_use blocks = 0 ->
  r = Returned tt /\ evs = [] /\ st' = st /\ final_text fr' = final_text fr ++ texts blocks.
Proof.
  induction 1 as [st fr | b rest st st' fr fr' e0 evs Hstep
                 | b rest st st1 st' fr fr1 fr' r evs1 evs2 Hstep Hrest IH];
    intros Hcount.
  - rewrite app_nil_r. split; [| split; [| split]]; reflexivity.
  - inversion Hstep; subst; discriminate.
  - assert (Hrest0 : count_tool_use rest = 0) by (cbn in Hcount; lia).
    destruct (IH Hrest0) as (-> & -> & -> & Hout).
    inversion Hstep; subst; try discriminate.
    + split; [reflexivity | split; [reflexivity | split; [reflexivity |]]].
      rewrite Hout. cbn. rewrite <- app_assoc. reflexivity.
    + split; [reflexivity | split; [reflexivity | split; [reflexivity |]]].
      rewrite Hout. destruct b; try discriminate; reflexivity.
Qed.

(** X16: a first response without tool-use blocks (also an empty one, or
    one of blocks of other types) is answered without any tool call or
    further completion: the texts of its text blocks come back joined by
    newlines and every other block is skipped. *)
Theorem query_without_tool_use (query : string) (st : St W)
    (tools : list ToolDescriptor) (response : list ContentBlock) (w1 w2 : W) :
  session st = true ->
  session_list_tools ext (world st) = (Returned tools, w1) ->
  messages_create ext MODEL 1000 [user_message query] (map tool_schema tools) w1
    = (Returned response, w2) ->
  count_tool_use response = 0 ->
  process_query ext py_str query st
  = (Returned (join NEWLINE (texts response)),
     with_events st w2
       [ListTools;
        Create MODEL 1000 [user_message query] (map tool_schema tools) (Returned response)]).
Proof.
  intros Hs Ht Hc Hcount.
  destruct (run_query_steps ext py_str query st tools response w1 w2 Hs Ht Hc)
    as (r & st' & fr' & evs & Hsteps & Hrun).
  destruct (steps_no_tool_use _ _ _ _ _ _ _ _ _ Hsteps Hcount) as (-> & -> & -> & Hfinal).
  unfold process_query. rewrite Hrun. cbn [fst snd outcome_map].
  rewrite Hfinal. reflexivity.
Qed.

(** The loop logs tool calls and completion calls only. *)
Lemma steps_query_events (acc : loc) (tools : list json) (blocks : list ContentBlock)
    (st st' : St W) (fr fr' : Frame) (r : outcome unit) (evs : list Event) :
  steps ext py_str acc tools blocks st fr r st' fr' evs ->
  forallb is_query_event evs = true.
Proof.
  induction 1 as [st fr | b rest st st' fr fr' e0 evs Hstep
                 | b rest st st1 st' fr fr1 fr' r evs1 evs2 Hstep Hrest IH].
  - reflexivity.
  - inversion Hstep; subst; reflexivity.
  - rewrite forallb_app, IH. inversion Hstep; subst; reflexivity.
Qed.

(** X17: whatever the state and the outcome, a [process_query] call only
    lists the tools, asks for completions and calls tools (it starts no
    transport, reads no input, prints nothing, cleans nothing up), and it
    leaves the connection flag as it was. *)
Theorem process_query_footprint (query : string) (st : St W) :
  forallb is_query_event (events_since st (snd (process_query ext py_str query st))) = true
  /\ session (snd (process_query ext py_str query st)) = session st
  /\ exists evs : list Event,
       log (snd (process_query ext py_str query st)) = log st ++ evs.
Proof.
  destruct (session st) eqn:Hs.
  - destruct (session_list_tools ext (world st)) as [[tools | e] w1] eqn:Ht.
    + destruct (messages_create ext MODEL 1000 [user_message query]
                  (map tool_schema tools) w1) as [[response | e] w2] eqn:Hc.
      * destruct (process_query_steps ext py_str query st tools response w1 w2 Hs Ht Hc)
          as (r & st0 & st' & fr' & Hsteps & _ & Hrun & Hsince).
        destruct (run_query_steps ext py_str query st tools response w1 w2 Hs Ht Hc)
          as (r1 & st1 & fr1 & evs1 & Hsteps1 & Hrun1).
        destruct (steps_log _ _ _ _ _ _ _ _ _ _ _ Hsteps1) as [Hlog1 Hsession1].
        assert (Hst : snd (process_query ext py_str query st) = st1)
          by (unfold process_query; rewrite Hrun1; reflexivity).
        rewrite Hst in *. split; [| split].
        -- rewrite Hsince. cbn [forallb is_query_event andb].
           exact (steps_query_events _ _ _ _ _ _ _ _ _ Hsteps).
        -- rewrite Hsession1. exact Hs.
        -- eexists. rewrite Hlog1. cbn [with_events log]. rewrite <- app_assoc. reflexivity.
      * rewrite (process_query_create_raised query st e tools w1 w2 Hs Ht Hc).
        unfold events_since. cbn [snd with_events log session].
        rewrite drop_app_length. split; [reflexivity | split; [exact Hs | eauto]].
    + rewrite (process_query_list_tools_raised query st e w1 Hs Ht).
      unfold events_since. cbn [snd with_events log session].
      rewrite drop_app_length. split; [reflexivity | split; [exact Hs | eauto]].
  - assert (Hrun : process_query ext py_str query st = (Raised AttributeError, st))
      by (run_query_body; rewrite Hs; reflexivity).
    rewrite Hrun. cbn [snd].
    unfold events_since. rewrite drop_all. split; [reflexivity | split; [exact Hs |]].
    exists []. rewrite app_nil_r. reflexivity.
Qed.

(** *** The shape of the conversation *)

Lemma tool_rounds_snoc (k : nat) :
  tool_rounds k ++ ["assistant"; "user"] = tool_rounds (S k).
Proof.
  induction k as [| k IH]; [reflexivity |].
  change (tool_rounds (S k)) with ("assistant" :: "user" :: tool_rounds k).
  cbn [app]. rewrite IH. reflexivity.
Qed.

Lemma sent_roles (fr : Frame) :
  map sent_role (sent_messages fr) = map role (messages fr).
Proof.
  unfold sent_messages. induction (messages fr) as [| m l IH]; [reflexivity |].
  cbn [map]. rewrite IH. reflexivity.
Qed.

Lemma after_call_roles (acc : loc) (b : ContentBlock) (line id : string) (result : json)
    (fr : Frame) (k : nat) :
  map role (messages fr) = "user" :: tool_rounds k ->
  map role (messages (after_call acc b line id result fr)) = "user" :: tool_rounds (S k).
Proof.
  intros Hroles. unfold after_call, append_message, append_at, append_text.
  cbn [messages]. rewrite !map_app, Hroles. cbn [map role].
  rewrite <- tool_rounds_snoc, <- app_assoc. reflexivity.
Qed.

Lemma step_roles (acc : loc) (tools : list json) (b : ContentBlock) (st st' : St W)
    (fr fr' : Frame) (r : outcome unit) (evs : list Event) (k : nat) :
  step ext py_str acc tools b st fr r st' fr' evs ->
  map role (messages fr) = "user" :: tool_rounds k ->
  (exists k' : nat, map role (messages fr') = "user" :: tool_rounds k')
  /\ forall sent : list SentMessage,
       In sent (sent_log evs) -> exists k' : nat, map sent_role sent = "user" :: tool_rounds (S k').
Proof.
  intros Hstep Hroles. destruct Hstep; cbn [sent_log].
  - split; [exists k; exact Hroles | intros sent []].
  - split; [exists k; exact Hroles | intros sent []].
  - split; [exists k; exact Hroles | intros sent []].
  - split; [exists (S k); apply after_call_roles, Hroles |].
    intros sent [<- | []]. exists k. rewrite sent_roles. apply after_call_roles, Hroles.
  - split; [exists (S k); apply after_call_roles, Hroles |].
    intros sent [<- | []]. exists k. rewrite sent_roles. apply after_call_roles, Hroles.
  - split.
    + exists (S k).
      exact (after_call_roles acc (ToolUseBlock id n i) (trace_line py_str n i) id result
               fr k Hroles).
    + intros sent [<- | []]. exists k. rewrite sent_roles. apply after_call_roles, Hroles.
Qed.

Lemma steps_roles (acc : loc) (tools : list json) (blocks : list ContentBlock)
    (st st' : St W) (fr fr' : Frame) (r : outcome unit) (evs : list Event) :
  steps ext py_str acc tools blocks st fr r st' fr' evs ->
  forall k : nat,
    map role (messages fr) = "user" :: tool_rounds k ->
    (exists k' : nat, map role (messages fr') = "user" :: tool_rounds k')
    /\ forall sent : list SentMessage,
         In sent (sent_log evs) ->
         exists k' : nat, map sent_role sent = "user" :: tool_rounds (S k').
Proof.
  induction 1 as [st fr | b rest st st' fr fr' e0 evs Hstep
                 | b rest st st1 st' fr fr1 fr' r evs1 evs2 Hstep Hrest IH];
    intros k Hroles.
  - split; [exists k; exact Hroles | intros sent []].
  - exact (step_roles _ _ _ _ _ _ _ _ _ k Hstep Hroles).
  - destruct (step_roles _ _ _ _ _ _ _ _ _ k Hstep Hroles) as [(k1 & Hk1) Hsent1].
    destruct (IH k1 Hk1) as [Hfinal Hsent2]. split; [exact Hfinal |].
    intros sent Hin. rewrite sent_log_app in Hin. apply in_app_or in Hin as [Hin | Hin]; auto.
Qed.

(** X18: user and assistant take turns in the conversation: every
    continuation request, and the conversation the call ends with, starts
    with the user's query followed by pairs of an assistant message and a
    user message (the tool result), so it begins and ends with the
    user. *)
Theorem conversation_roles_alternate (query : string) (st : St W)
    (tools : list ToolDescriptor) (response : list ContentBlock) (w1 w2 : W) :
  session st = true ->
  session_list_tools ext (world st) = (Returned tools, w1) ->
  messages_create ext MODEL 1000 [user_message query] (map tool_schema tools) w1
    = (Returned response, w2) ->
  (forall sent : list SentMessage,
     In sent (sent_log (loop_events st (fst (snd (run_query ext py_str query st))))) ->
     exists k : nat, map sent_role sent = "user" :: tool_rounds (S k))
  /\ exists k : nat,
       map role (messages (snd (snd (run_query ext py_str query st))))
       = "user" :: tool_rounds k.
Proof.
  intros Hs Ht Hc.
  destruct (process_query_steps ext py_str query st tools response w1 w2 Hs Ht Hc)
    as (r & st0 & st' & fr' & Hsteps & _ & Hrun & _).
  assert (Hst : snd (process_query ext py_str query st) = st')
    by (unfold process_query; rewrite Hrun; reflexivity).
  rewrite Hst in Hsteps. rewrite Hrun. cbn [fst snd].
  destruct (steps_roles _ _ _ _ _ _ _ _ _ Hsteps 0 eq_refl) as [Hfinal Hsent].
  split; [exact Hsent | exact Hfinal].
Qed.

Lemma after_call_last (acc : loc) (b : ContentBlock) (line id : string) (result : json)
    (fr : Frame) :
  last (sent_messages (after_call acc b line id result fr))
  = Some {| sent_role := "user"; sent_content := inr [ToolResult id result] |}.
Proof.
  unfold sent_messages, after_call, append_message, append_at, append_text.
  cbn [messages store]. rewrite map_app. cbn [map]. rewrite last_snoc.
  unfold resolve. cbn [role content]. unfold loc, Store in *.
  rewrite list_lookup_middle by reflexivity. reflexivity.
Qed.

Lemma step_feeds_back (acc : loc) (tools : list json) (b : ContentBlock) (st st' : St W)
    (fr fr' : Frame) (r : outcome unit) (evs : list Event) :
  step ext py_str acc tools b st fr r st' fr' evs ->
  forall (model : string) (max_tokens : Z) (sent : list SentMessage) (tools' : list json)
         (res : outcome (list ContentBlock)),
    In (Create model max_tokens sent tools' res) evs ->
    exists (id n : string) (i result : json),
      b = ToolUseBlock id n i
      /\ In (CallTool n i (Returned result)) evs
      /\ last sent
         = Some {| sent_role := "user"; sent_content := inr [ToolResult id result] |}.
Proof.
  intros Hstep model max_tokens sent tools' res Hin.
  destruct Hstep; cbn in Hin;
    repeat (destruct Hin as [Hin | Hin]; try discriminate); try contradiction;
    injection Hin as _ _ <- _ _; exists id, n, i, result;
    (split;
       [reflexivity
       | split;
           [left; reflexivity
           | exact (after_call_last acc (ToolUseBlock id n i) (trace_line py_str n i)
                      id result fr)]]).
Qed.

Lemma steps_feed_back (acc : loc) (tools : list json) (blocks : list ContentBlock)
    (st st' : St W) (fr fr' : Frame) (r : outcome unit) (evs : list Event) :
  steps ext py_str acc tools blocks st fr r st' fr' evs ->
  forall (model : string) (max_tokens : Z) (sent : list SentMessage) (tools' : list json)
         (res : outcome (list ContentBlock)),
    In (Create model max_tokens sent tools' res) evs ->
    exists (id n : string) (i result : json),
      In (ToolUseBlock id n i) blocks
      /\ In (CallTool n i (Returned result)) evs
      /\ last sent
         = Some {| sent_role := "user"; sent_content := inr [ToolResult id result] |}.
Proof.
  induction 1 as [st fr | b rest st st' fr fr' e0 evs Hstep
                 | b rest st st1 st' fr fr1 fr' r evs1 evs2 Hstep Hrest IH];
    intros model max_tokens sent tools' res Hin.
  - destruct Hin.
  - destruct (step_feeds_back _ _ _ _ _ _ _ _ _ Hstep _ _ _ _ _ Hin)
      as (id & n & i & result & -> & Hcall & Hlast).
    exists id, n, i, result. split; [left; reflexivity | split; assumption].
  - apply in_app_or in Hin as [Hin | Hin].
    + destruct (step_feeds_back _ _ _ _ _ _ _ _ _ Hstep _ _ _ _ _ Hin)
        as (id & n & i & result & -> & Hcall & Hlast).
      exists id, n, i, result.
      split; [left; reflexivity | split; [apply in_or_app; left; exact Hcall | exact Hlast]].
    + destruct (IH _ _ _ _ _ Hin) as (id & n & i & result & Hb & Hcall & Hlast).
      exists id, n, i, result.
      split; [right; exact Hb | split; [apply in_or_app; right; exact Hcall | exact Hlast]].
Qed.

(** X19: each continuation request ends with the result of a tool call:
    its last message is a user message holding one tool result, which
    carries the id of a tool-use block of the first response and the
    content returned by a call of that block's tool with that block's
    input. *)
Theorem continuation_carries_tool_result (query : string) (st : St W)
    (tools : list ToolDescriptor) (response : list ContentBlock) (w1 w2 : W)
    (model : string) (max_tokens : Z) (sent : list SentMessage) (tools' : list json)
    (res : outcome (list ContentBlock)) :
  session st = true ->
  session_list_tools ext (world st) = (Returned tools, w1) ->
  messages_create ext MODEL 1000 [user_message query] (map tool_schema tools) w1
    = (Returned response, w2) ->
  In (Create model max_tokens sent tools' res)
     (loop_events st (snd (process_query ext py_str query st))) ->
  exists (id n : string) (i result : json),
    In (ToolUseBlock id n i) response
    /\ In (CallTool n i (Returned result))
         (loop_events st (snd (process_query ext py_str query st)))
    /\ last sent = Some {| sent_role := "user"; sent_content := inr [ToolResult id result] |}.
Proof.
  intros Hs Ht Hc Hin.
  destruct (process_query_steps ext py_str query st tools response w1 w2 Hs Ht Hc)
    as (r & st0 & st' & fr' & Hsteps & _ & _ & _).
  exact (steps_feed_back _ _ _ _ _ _ _ _ _ Hsteps _ _ _ _ _ Hin).
Qed.

(** *** Connecting, chatting, leaving *)

Ltac run_connect :=
  unfold connect_to_server, list_tools;
  unfold bind, call, set_session, the_session, emit, raise, ret; cbn.

(** X20: when [connect_to_server] returns, the suffix was a recognized one
    and each of the four collaborators returned in turn: the transport
    started with the command and the path as only argument, the session
    opened, its initialization, and the listing of the tools.  The client
    is then connected, and its log has grown by these four calls, in this
    order, and the print of the names of exactly the tools that were
    listed. *)
Theorem connect_to_server_returned (path : string) (st st' : St W) :
  connect_to_server ext path st = (Returned tt, st') ->
  endswith path ".py" || endswith path ".js" = true
  /\ exists (w1 w2 w3 w4 : W) (tools : list ToolDescriptor),
       stdio_client ext (if endswith path ".py" then "python" else "node") [path] (world st)
         = (Returned tt, w1)
       /\ client_session ext w1 = (Returned tt, w2)
       /\ session_initialize ext w2 = (Returned tt, w3)
       /\ session_list_tools ext w3 = (Returned tools, w4)
       /\ st' = {| world := w4;
                   log := log st
                          ++ [StdioClient (if endswith path ".py" then "python" else "node")
                                [path];
                              SessionOpen; Initialize; ListTools;
                              PrintTools (map name tools)];
                   session := true |}.
Proof.
  run_connect.
  destruct (endswith path ".py" || endswith path ".js"); cbn; [| discriminate].
  set (command := if endswith path ".py" then "python" else "node").
  destruct (stdio_client ext command [path] (world st)) as [[[] | e1] w1]; cbn;
    [| discriminate].
  destruct (client_session ext w1) as [[[] | e2] w2] eqn:Hsession; cbn; [| discriminate].
  destruct (session_initialize ext w2) as [[[] | e3] w3] eqn:Hinit; cbn; [| discriminate].
  destruct (session_list_tools ext w3) as [[tools | e4] w4] eqn:Htools; cbn; [| discriminate].
  intros [= <-]. split; [reflexivity |].
  exists w1, w2, w3, w4, tools.
  rewrite <- !app_assoc. cbn [app].
  split; [reflexivity | split; [exact Hsession | split; [exact Hinit | split; [exact Htools |]]]].
  reflexivity.
Qed.







(** X24: with a script path of an unrecognized suffix, [main] does
    nothing but the cleanup and ends with the configuration error (or with
    the exception of the cleanup, if that fails). *)
Theorem main_unrecognized_suffix (fuel : nat) (prog path : string) (more : list string)
    (st : St W) (r : outcome unit) (w' : W) :
  endswith path ".py" = false ->
  endswith path ".js" = false ->
  exit_stack_aclose ext (world st) = (r, w') ->
  main ext py_str fuel (prog :: path :: more) st
  = Some (match r with
          | Returned _ => Raised (ValueError CONNECT_ERROR)
          | Raised e => Raised e
          end,
          with_events st w' [Cleanup]).
Proof.
  intros Hpy Hjs Hclose. unfold main. cbn [length Nat.ltb Nat.leb nth].
  unfold connect_to_server. rewrite Hpy, Hjs. cbn [orb negb raise].
  unfold try_finally, lift, cleanup, call. cbn [fst snd]. rewrite Hclose.
  destruct r as [[] | e]; reflexivity.
Qed.

(** X25: an exception of the cleanup takes the place of whatever [main]
    was about to end with. *)
Theorem cleanup_failure_masks_outcome (fuel : nat) (argv : list string) (st st' : St W)
    (r : outcome unit) (e : exn) :
  2 <= length argv ->
  (forall w : W, fst (exit_stack_aclose ext w) = Raised e) ->
  main ext py_str fuel argv st = Some (r, st') ->
  r = Raised e.
Proof.
  intros Hargv Hclose. unfold main.
  destruct (Nat.ltb_spec (length argv) 2) as [Hlt | _]; [lia |].
  destruct (match connect_to_server ext (nth 1 argv EmptyString) st with
            | (Returned _, st1) => chat_loop ext py_str fuel st1
            | (Raised e0, st1) => Some (Raised e0, st1)
            end) as [[r0 st0] |]; [| discriminate].
  unfold try_finally, lift, cleanup, call. cbn [fst snd].
  rewrite (Hclose (world st0)). intros [= <- _]. reflexivity.
Qed.

End Facts.

(** Runs with the scripted collaborators. *)

Lemma process_query_not_connected_witness :
  process_query Demo.scripted Demo.str_args "hi" Demo.session_start
  = (Raised AttributeError, Demo.session_start).
Proof.
  exact (process_query_not_connected Demo.scripted Demo.str_args "hi" Demo.session_start
           eq_refl).
Defined.

Lemma process_query_prelude_failures_witness :
  process_query Cases.no_catalogue Demo.str_args "hi" Demo.chatty
  = (Raised (External "McpError"), with_events Demo.chatty (world Demo.chatty) [ListTools]).
Proof.
  exact (proj1 (process_query_prelude_failures Cases.no_catalogue Demo.str_args "hi"
                  Demo.chatty (External "McpError") eq_refl)
           (world Demo.chatty) eq_refl).
Defined.

Lemma first_request_is_fresh_witness :
  exists (r : outcome (list ContentBlock)) (evs : list Event),
    events_since Cases.seasoned
      (snd (process_query Demo.scripted Demo.str_args "and tomorrow?" Cases.seasoned))
    = ListTools
      :: Create MODEL 1000
           [{| sent_role := "user"; sent_content := inl "and tomorrow?" |}]
           [JObj [("name", JStr "get_alerts");
                  ("description", JStr "Get weather alerts for a US state");
                  ("input_schema", JObj [("type", JStr "object")])]]
           r
      :: evs.
Proof.
  exact (first_request_is_fresh Demo.scripted Demo.str_args "and tomorrow?" Cases.seasoned
           [Demo.weather_tool] (world Cases.seasoned) eq_refl eq_refl).
Defined.

Lemma returned_query_dispatched_all_witness :
  call_log (events_since Demo.two_hops
              (snd (process_query Demo.scripted Demo.str_args "hi" Demo.two_hops)))
  = [("get_alerts", Demo.args_CA); ("get_alerts", Demo.args_NY)].
Proof.
  destruct (fst (process_query Demo.scripted Demo.str_args "hi" Demo.two_hops))
    as [s | e] eqn:Hret.
  - exact (proj1 (returned_query_dispatched_all Demo.scripted Demo.str_args "hi"
                    Demo.two_hops [Demo.weather_tool] Demo.two_tools _ _ s
                    eq_refl eq_refl eq_refl Hret)).
  - vm_compute in Hret. discriminate.
Defined.

Lemma failed_tool_call_ends_query_witness :
  fst (process_query Cases.failing_tool Demo.str_args "hi" Demo.two_hops)
  = Raised (External "McpError").
Proof.
  refine (proj1 (failed_tool_call_ends_query Cases.failing_tool Demo.str_args "hi"
                   Demo.two_hops [Demo.weather_tool] Demo.two_tools _ _
                   "get_alerts" Demo.args_CA (External "McpError")
                   eq_refl eq_refl eq_refl _)).
  vm_compute. right. right. left. reflexivity.
Defined.

Lemma query_without_tool_use_witness :
  fst (process_query Demo.scripted Demo.str_args "hi" Cases.pondering)
  = Returned EmptyString.
Proof.
  rewrite (query_without_tool_use Demo.scripted Demo.str_args "hi" Cases.pondering
             [Demo.weather_tool] [Demo.thinking] _ _ eq_refl eq_refl eq_refl eq_refl).
  reflexivity.
Defined.

Lemma conversation_roles_alternate_witness :
  exists k : nat,
    map role (messages (snd (snd (run_query Demo.scripted Demo.str_args "hi" Demo.two_hops))))
    = "user" :: tool_rounds k.
Proof.
  exact (proj2 (conversation_roles_alternate Demo.scripted Demo.str_args "hi" Demo.two_hops
                  [Demo.weather_tool] Demo.two_tools _ _ eq_refl eq_refl eq_refl)).
Defined.

Lemma continuation_carries_tool_result_witness :
  exists (id n : string) (i result : json),
    In (ToolUseBlock id n i) Demo.one_tool
    /\ In (CallTool n i (Returned result))
         (loop_events Demo.one_hop
            (snd (process_query Demo.scripted Demo.str_args "hi" Demo.one_hop)))
    /\ last (sent_messages
               (after_call 0 (ToolUseBlock "toolu_1" "get_alerts" Demo.args_CA)
                  (trace_line Demo.str_args "get_alerts" Demo.args_CA) "toolu_1"
                  (JStr "No active alerts")
                  (append_at 0 (TextBlock "Let me check.")
                     (append_text "Let me check." (frame1 "hi")))))
       = Some {| sent_role := "user"; sent_content := inr [ToolResult id result] |}.
Proof.
  refine (continuation_carries_tool_result Demo.scripted Demo.str_args "hi" Demo.one_hop
            [Demo.weather_tool] Demo.one_tool _ _ MODEL 1000 _
            (map tool_schema [Demo.weather_tool])
            (Returned [TextBlock "No alerts."; ToolUseBlock "toolu_9" "get_forecast" JNull])
            eq_refl eq_refl eq_refl _).
  vm_compute. right. left. reflexivity.
Defined.

Lemma connect_to_server_returned_witness :
  exists st' : St Demo.world,
    connect_to_server Demo.scripted "weather.py" Demo.session_start = (Returned tt, st')
    /\ session st' = true
    /\ log st' = [StdioClient "python" ["weather.py"]; SessionOpen; Initialize; ListTools;
                  PrintTools ["get_alerts"]].
Proof.
  destruct (connect_to_server Demo.scripted "weather.py" Demo.session_start)
    as [[[] | e] st'] eqn:Hconnect.
  - exists st'. split; [reflexivity |].
    destruct (connect_to_server_returned Demo.scripted "weather.py" Demo.session_start
                st' Hconnect)
      as (_ & w1 & w2 & w3 & w4 & tools & _ & _ & _ & Htools & ->).
    cbn in Htools. injection Htools as <- _. split; reflexivity.
  - vm_compute in Hconnect. discriminate.
Defined.




Lemma main_unrecognized_suffix_witness :
  main Demo.scripted Demo.str_args 1 ["client.py"; "server.rb"] Cases.leaving
  = Some (Raised (ValueError CONNECT_ERROR),
          with_events Cases.leaving (world Cases.leaving) [Cleanup]).
Proof.
  exact (main_unrecognized_suffix Demo.scripted Demo.str_args 1 "client.py" "server.rb" []
           Cases.leaving (Returned tt) (world Cases.leaving) eq_refl eq_refl eq_refl).
Defined.

Lemma cleanup_failure_masks_outcome_witness :
  exists st' : St Demo.world,
    main Cases.stuck_close Demo.str_args 1 ["client.py"; "weather.py"] Cases.leaving
    = Some (Raised (External "RuntimeError"), st').
Proof.
  destruct (main Cases.stuck_close Demo.str_args 1 ["client.py"; "weather.py"] Cases.leaving)
    as [[r st'] |] eqn:Hmain.
  - exists st'.
    rewrite (cleanup_failure_masks_outcome Cases.stuck_close Demo.str_args 1
               ["client.py"; "weather.py"] Cases.leaving st' r (External "RuntimeError")
               (le_n 2) (fun w => eq_refl) Hmain).
    reflexivity.
  - vm_compute in Hmain. discriminate.
Defined.

End ClientMore.
